(** * Truck-management: ticket valuation, invoice and settlement aggregation

    A shallow embedding of the admin and driver controllers
    (adminController.js, driverController.js) over the MySQL schema of the
    repository, and the properties of the specification settled on it.

    Conventions of the embedding.
    - A JavaScript number is an IEEE-754 binary64 value: Rocq's primitive
      [float], with its own [+], [*] and [/].
    - A text is the string of its UTF-8 bytes; white space is the
      WhiteSpace and LineTerminator of the language.
    - A DECIMAL(10,2) column is held as the number its text denotes. A
      number bound to it is stored as the storage converts it: through its
      shortest decimal text, rounded to two places, half away from zero;
      a number that is none, or that leaves the ten digits of the column,
      is refused.  The text of a DECIMAL value the storage delivered is
      taken back as it is.  On a stored value [parseFloat] is the
      identity.
    - A DATE column is a calendar triple; a bound text is read by the storage
      as an ISO date (YYYY-MM-DD), anything else compares as NULL.
    - Text columns are compared as the collation of the schema
      (utf8mb4_unicode_ci) compares them: by the weights of their
      characters, trailing spaces left out.  The weights are part of the
      database; nothing is assumed of them.  The ENUM column compares and
      takes its three members as they are written.
    - An id received from a route or a query string is the integer the
      storage reads from it; [None] stands for a missing or empty parameter,
      which is the only falsy text.
    - The storage runs in strict SQL mode: a statement that would put into
      a column a value the column cannot hold (a status outside the ENUM, a
      text that is no date, a number outside DECIMAL(10,2)) is refused as a
      whole. The driver throws on a bound parameter that is [undefined].
      No other storage failure (a lost connection, a time-out) is
      modelled. *)

From Stdlib Require Import ZArith List String Ascii Bool Lia.
From Stdlib Require Import Sorting.Sorted Sorting.Permutation.
From Stdlib Require Import Numbers.Cyclic.Int63.Uint63.
From Stdlib Require Import Floats.SpecFloat Floats.PrimFloat Floats.FloatOps Floats.FloatAxioms.
From Stdlib Require Import DecimalString.
Import ListNotations.

Local Open Scope string_scope.
Local Open Scope Z_scope.

(** Decimal numerals stand for the nearest binary64 value. *)
#[local] Set Warnings "-inexact-float".

(* ================================================================== *)
(** ** JavaScript values *)

Module JS.

Definition num := float.

(** [!!x] on a number: false on [0], [-0] and [NaN]. *)
Definition truthy_num (x : num) : bool :=
  negb (PrimFloat.is_nan x || PrimFloat.is_zero x).

(** [!!s] on a string: false on the empty string only. *)
Definition truthy_str (s : string) : bool :=
  match s with EmptyString => false | _ => true end.

(** [!!x] where [x] may be [undefined]. *)
Definition truthy (x : option string) : bool :=
  match x with Some s => truthy_str s | None => false end.

(** [x || 0] on a number. *)
Definition or_zero (x : num) : num :=
  if truthy_num x then x else 0%float.

(** [parseFloat] applied to a number (through its text): the identity but
    on negative zero. *)
Definition parseFloat (x : num) : num :=
  if PrimFloat.eqb x 0%float then 0%float else x.

(** [arr.length] as a number. *)
Definition length_num {A : Type} (l : list A) : num :=
  PrimFloat.of_uint63 (Uint63.of_Z (Z.of_nat (List.length l))).

(** The white space of one byte: TAB, LF, VT, FF, CR and the space. *)
Definition is_space (c : ascii) : bool :=
  let n := nat_of_ascii c in
  ((9 <=? n) && (n <=? 13))%nat || (n =? 32)%nat.

(** U+00A0, the white space of two bytes. *)
Definition is_space2 (a b : ascii) : bool :=
  ((nat_of_ascii a =? 194) && (nat_of_ascii b =? 160))%nat.

(** The white space of three bytes: U+1680, U+2000 to U+200A, U+2028,
    U+2029, U+202F, U+205F, U+3000 and U+FEFF. *)
Definition is_space3 (a b c : ascii) : bool :=
  let x := nat_of_ascii a in
  let y := nat_of_ascii b in
  let z := nat_of_ascii c in
  (((x =? 225) && (y =? 154) && (z =? 128))
   || ((x =? 226) && (y =? 128)
       && (((128 <=? z) && (z <=? 138)) || (z =? 168) || (z =? 169)
           || (z =? 175)))
   || ((x =? 226) && (y =? 129) && (z =? 159))
   || ((x =? 227) && (y =? 128) && (z =? 128))
   || ((x =? 239) && (y =? 187) && (z =? 191)))%nat.

Definition is_digit (c : ascii) : bool :=
  let n := nat_of_ascii c in ((48 <=? n) && (n <=? 57))%nat.

Definition digit_val (c : ascii) : Z := Z.of_nat (nat_of_ascii c) - 48.

(** [s.trimStart()] *)
Fixpoint trimStart (s : string) : string :=
  match s with
  | String a s1 =>
      if is_space a then trimStart s1
      else
        match s1 with
        | String b s2 =>
            if is_space2 a b then trimStart s2
            else
              match s2 with
              | String c s3 => if is_space3 a b c then trimStart s3 else s
              | EmptyString => s
              end
        | EmptyString => s
        end
  | EmptyString => EmptyString
  end.

(** The text is white space altogether. *)
Definition all_space (s : string) : bool :=
  match trimStart s with EmptyString => true | _ => false end.

(** [s.trimEnd()] *)
Fixpoint trimEnd (s : string) : string :=
  match s with
  | String c s' => if all_space s then EmptyString else String c (trimEnd s')
  | EmptyString => EmptyString
  end.

(** [s.trim()] *)
Definition trim (s : string) : string := trimEnd (trimStart s).

(** [s.includes(c)] for a one-character needle. *)
Fixpoint includes (c : ascii) (s : string) : bool :=
  match s with
  | String d s' => Ascii.eqb c d || includes c s'
  | EmptyString => false
  end.

(** [s.split(c)] for a one-character separator: never the empty list. *)
Fixpoint split (c : ascii) (s : string) : list string :=
  match s with
  | EmptyString => [EmptyString]
  | String d s' =>
      if Ascii.eqb c d then EmptyString :: split c s'
      else match split c s' with
           | p :: ps => String d p :: ps
           | [] => [String d EmptyString]
           end
  end.

(** [arr.join(sep)] *)
Fixpoint join (sep : string) (l : list string) : string :=
  match l with
  | [] => EmptyString
  | [x] => x
  | x :: rest => x ++ sep ++ join sep rest
  end.

(** The decimal digits [parseInt] reads, most significant first; the flag
    tells whether one digit at least was read. *)
Fixpoint read_digits (s : string) (acc : Z) (seen : bool) : Z * bool :=
  match s with
  | String c s' =>
      if is_digit c then read_digits s' (10 * acc + digit_val c) true
      else (acc, seen)
  | EmptyString => (acc, seen)
  end.

(** [parseInt(s, 10)]: leading white space, an optional sign, then digits up
    to the first other character; [None] is [NaN]. *)
Definition parseInt (s : string) : option Z :=
  let s := trimStart s in
  let '(neg, s) :=
    match s with
    | String "-" s' => (true, s')
    | String "+" s' => (false, s')
    | _ => (false, s)
    end in
  match read_digits s 0 false with
  | (n, true) => Some (if neg then - n else n)
  | (_, false) => None
  end.

(** [`${n}`] for an integral number, ["NaN"] for [NaN]. *)
Definition show_int (n : option Z) : string :=
  match n with
  | Some z => NilZero.string_of_int (Z.to_int z)
  | None => "NaN"
  end.

Fixpoint all_digits (n : nat) (s : string) : option string :=
  match n with
  | O => Some s
  | S n' =>
      match s with
      | String c s' => if is_digit c then all_digits n' s' else None
      | EmptyString => None
      end
  end.

(** [/^\d{4}-\d{2}-\d{2}$/.test(s)] *)
Definition dateRegex_test (s : string) : bool :=
  match all_digits 4 s with
  | Some (String "-" r1) =>
      match all_digits 2 r1 with
      | Some (String "-" r2) =>
          match all_digits 2 r2 with
          | Some EmptyString => true
          | _ => false
          end
      | _ => false
      end
  | _ => false
  end.

End JS.

Import JS.

(* ================================================================== *)
(** ** The schema (schema.sql) *)

(** A DATE value. *)
Record Date := mkDate { year : Z; month : Z; day : Z }.

(** [a <= b] on DATE values. *)
Definition date_leb (a b : Date) : bool :=
  (year a <? year b)
  || ((year a =? year b)
      && ((month a <? month b)
          || ((month a =? month b) && (day a <=? day b)))).

Definition date_eqb (a b : Date) : bool :=
  (year a =? year b) && (month a =? month b) && (day a =? day b).

Definition leap_year (y : Z) : bool :=
  ((y mod 4 =? 0) && negb (y mod 100 =? 0)) || (y mod 400 =? 0).

Definition days_in_month (y m : Z) : Z :=
  if m =? 2 then (if leap_year y then 29 else 28)
  else if (m =? 4) || (m =? 6) || (m =? 9) || (m =? 11) then 30
  else 31.

(** The DATE the storage reads from a bound text: an ISO date of the
    calendar, [None] (NULL) for anything else. *)
Definition sql_date (s : string) : option Date :=
  if dateRegex_test s then
    let y := fst (read_digits (substring 0 4 s) 0 false) in
    let m := fst (read_digits (substring 5 2 s) 0 false) in
    let d := fst (read_digits (substring 8 2 s) 0 false) in
    if (1 <=? m) && (m <=? 12) && (1 <=? d) && (d <=? days_in_month y m)
    then Some (mkDate y m d) else None
  else None.

(** [col >= ?] and [col <= ?] against a bound text; a NULL comparison
    selects nothing. *)
Definition date_ge (col : Date) (bound : string) : bool :=
  match sql_date bound with Some b => date_leb b col | None => false end.

Definition date_le (col : Date) (bound : string) : bool :=
  match sql_date bound with Some b => date_leb col b | None => false end.

(** status ENUM('Pending', 'Approved', 'Rejected'); the same list is the
    one [updateTicketStatus] tests. *)
Definition statuses : list string := ["Pending"; "Approved"; "Rejected"].

(** [['Pending', 'Approved', 'Rejected'].includes(s)] *)
Definition valid_status (s : string) : bool := existsb (String.eqb s) statuses.

(** The number [z], for [0 <= z < 2^53]. *)
Definition of_Z (z : Z) : num := PrimFloat.of_uint63 (Uint63.of_Z z).

(** The hundredths a DECIMAL(10,2) column keeps of the positive number
    [x = m * 2^e]: [x] goes through its shortest decimal text, which is
    rounded half away from zero.  That text is on the side of the half
    [(2q + 1) / 200] where [x] is, but when the half itself is a text that
    reads as [x]; then it is the shortest one, and is rounded up. *)
Definition round_cents (m : positive) (e : Z) (x : num) : Z :=
  let n := Zpos m * 100 in
  if 0 <=? e then n * 2 ^ e
  else
    let den := 2 ^ (- e) in
    let q := n / den in
    let r := n mod den in
    if den <=? 2 * r then q + 1
    else if (q <? 10 ^ 10)
            && PrimFloat.eqb (of_Z (2 * q + 1) / 200)%float x then q + 1
    else q.

(** The number the text of [c] hundredths denotes. *)
Definition of_cents (c : Z) : num :=
  if c <? 0 then (- (of_Z (- c) / 100))%float else (of_Z c / 100)%float.

(** DECIMAL(10,2): the value the column keeps of a number bound to it,
    [None] when the statement is refused for it ([NaN], an infinity, eight
    digits or more before the point after rounding). *)
Definition decimal_10_2 (x : num) : option num :=
  match Prim2SF x with
  | S754_zero _ => Some 0%float
  | S754_finite s m e =>
      let c := round_cents m e (PrimFloat.abs x) in
      if c <? 10 ^ 10 then Some (of_cents (if s then - c else c)) else None
  | _ => None
  end.

(** The column takes the number. *)
Definition takes (x : num) : bool :=
  match decimal_10_2 x with Some _ => true | None => false end.

(** What the column keeps of a number it takes. *)
Definition kept (x : num) : num :=
  match decimal_10_2 x with Some r => r | None => x end.

(** The characters of a text: its bytes as UTF-8 groups them. *)
Fixpoint chars (s : string) : list string :=
  match s with
  | EmptyString => []
  | String a s1 =>
      let n := nat_of_ascii a in
      if (n <? 192)%nat then String a EmptyString :: chars s1
      else
        match s1 with
        | EmptyString => [s]
        | String b s2 =>
            if (n <? 224)%nat then String a (String b EmptyString) :: chars s2
            else
              match s2 with
              | EmptyString => [s]
              | String c s3 =>
                  if (n <? 240)%nat then
                    String a (String b (String c EmptyString)) :: chars s3
                  else
                    match s3 with
                    | EmptyString => [s]
                    | String e s4 =>
                        String a (String b (String c (String e EmptyString)))
                        :: chars s4
                    end
              end
        end
  end.

(** Two lists of weights are the same. *)
Fixpoint key_eqb (a b : list Z) : bool :=
  match a, b with
  | [], [] => true
  | x :: a', y :: b' => (x =? y) && key_eqb a' b'
  | _, _ => false
  end.

(** PAD SPACE: the weights [pad] of the space do not count at the end. *)
Fixpoint drop_pad (pad l : list Z) : list Z :=
  match l with
  | [] => []
  | w :: r =>
      match drop_pad pad r with
      | [] => if existsb (Z.eqb w) pad then [] else [w]
      | r' => w :: r'
      end
  end.

(** The columns of a ticket the controllers read or write. *)
Module Ticket.
Record t := mk {
  id : Z;
  driver_id : Z;
  date : Date;
  truck_number : string;
  customer : string;
  job_type : option string;
  equipment_type : option string;
  ticket_number : string;
  quantity : num;
  photo_path : option string;
  bill_rate : num;
  pay_rate : num;
  total_bill : num;
  total_pay : num;
  status : string;
  created_at : Z;
  updated_at : Z
}.
End Ticket.

Module Customer.
Record t := mk {
  id : Z;
  name : string;
  default_bill_rate : num;
  updated_at : Z
}.
End Customer.

(** [default_pay_rate] is [None] for a record delivered without a rate: the
    column is NOT NULL, the controller guards against it all the same. *)
Module Driver.
Record t := mk {
  id : Z;
  user_id : Z;
  user_id_code : string;
  name : string;
  default_pay_rate : option num
}.
End Driver.

(** The three tables the controllers read and write, and the collation
    their text columns are declared with (COLLATE=utf8mb4_unicode_ci), as
    the weights it gives a character. *)
Record DB := mkDB {
  tickets : list Ticket.t;
  customers : list Customer.t;
  drivers : list Driver.t;
  weight : string -> list Z
}.

(** The key a text is compared by: the weights of its characters, without
    those of the spaces at its end. *)
Definition sort_key (d : DB) (s : string) : list Z :=
  drop_pad (weight d " ") (flat_map (weight d) (chars s)).

(** [a = b] on texts, [a IN (...)], [ON a = b]. *)
Definition sql_eq (d : DB) (a b : string) : bool :=
  key_eqb (sort_key d a) (sort_key d b).

(** PRIMARY KEY (id) on the three tables and UNIQUE (name) on customers. *)
Fixpoint distinctb {A : Type} (eqb : A -> A -> bool) (l : list A) : bool :=
  match l with
  | [] => true
  | x :: r => negb (existsb (eqb x) r) && distinctb eqb r
  end.

Definition schema_ok (d : DB) : bool :=
  distinctb Z.eqb (map Ticket.id (tickets d))
  && distinctb Z.eqb (map Customer.id (customers d))
  && distinctb key_eqb
       (map (fun c => sort_key d (Customer.name c)) (customers d))
  && distinctb Z.eqb (map Driver.id (drivers d)).

(* ================================================================== *)
(** ** The connection pool: state, failures, transactions *)

(** What a request sees of the storage: the tables, the clock behind
    [NOW()], the number of statements executed so far, and the tables as
    they were at [beginTransaction] while a transaction is open. *)
Record Conn := mkConn {
  db : DB;
  now : Z;
  queries : nat;
  snapshot : option DB
}.

Inductive Result (A : Type) : Type :=
| Ok (a : A)
| Thrown (message : string).
Arguments Ok {A} a.
Arguments Thrown {A} message.

(** An [async] computation over the pool: it returns or throws, and leaves
    the connection in some state. *)
Definition IO (A : Type) : Type := Conn -> Result A * Conn.

Definition ret {A : Type} (a : A) : IO A := fun c => (Ok a, c).

Definition throw {A : Type} (message : string) : IO A :=
  fun c => (Thrown message, c).

Definition bind {A B : Type} (m : IO A) (k : A -> IO B) : IO B :=
  fun c =>
    match m c with
    | (Ok a, c') => k a c'
    | (Thrown e, c') => (Thrown e, c')
    end.

Notation "x <- m ;; k" := (bind m (fun x => k))
  (at level 100, m at next level, right associativity).
Notation "m ;;; k" := (bind m (fun _ => k))
  (at level 100, right associativity).

(** [try { m } catch (error) { h }] *)
Definition try_catch {A : Type} (m : IO A) (h : string -> IO A) : IO A :=
  fun c =>
    match m c with
    | (Ok a, c') => (Ok a, c')
    | (Thrown e, c') => h e c'
    end.

(** [try { m } finally { f }] *)
Definition try_finally {A : Type} (m : IO A) (f : IO unit) : IO A :=
  fun c =>
    match m c with
    | (r, c') => match f c' with (_, c'') => (r, c'') end
    end.

Definition tick (c : Conn) : Conn :=
  mkConn (db c) (now c) (S (queries c)) (snapshot c).

Definition with_db (d : DB) (c : Conn) : Conn :=
  mkConn d (now c) (queries c) (snapshot c).

(** [execute] of a SELECT. *)
Definition select {A : Type} (q : DB -> list A) : IO (list A) :=
  fun c => (Ok (q (db c)), tick c).

(** [execute] of a statement that writes: the storage refuses it as a
    whole when [refused] holds of the tables it meets. *)
Definition write (refused : DB -> bool) (f : Z -> DB -> DB) : IO unit :=
  fun c =>
    if refused (db c) then (Thrown "ER_STORAGE", tick c)
    else (Ok tt, tick (with_db (f (now c) (db c)) c)).

Definition beginTransaction : IO unit :=
  fun c => (Ok tt, mkConn (db c) (now c) (queries c) (Some (db c))).

Definition commit : IO unit :=
  fun c => (Ok tt, mkConn (db c) (now c) (queries c) None).

Definition rollback : IO unit :=
  fun c =>
    match snapshot c with
    | Some d => (Ok tt, mkConn d (now c) (queries c) None)
    | None => (Ok tt, c)
    end.

(* ================================================================== *)
(** ** Responses *)

(** A ticket row with the columns the joins add ([NULL] when a LEFT JOIN
    finds no partner). *)
Record TicketRow := mkRow {
  row_ticket : Ticket.t;
  driver_name : option string;
  user_id_code : option string;
  customer_name : option string
}.

Record Invoice := mkInvoice {
  inv_customer : string;
  inv_startDate : string;
  inv_endDate : string;
  inv_tickets : list TicketRow;
  subtotal : num;
  gst : num;
  total : num
}.

Record Settlement := mkSettlement {
  set_driver : Z * string * string;
  set_startDate : string;
  set_endDate : string;
  set_tickets : list TicketRow;
  totalPay : num
}.

Inductive Body : Type :=
| Message (success : bool) (message : string)
| TicketList (data : list TicketRow)
| InvoiceData (data : Invoice)
| InvoicePdf (data : Invoice)
| SettlementData (data : Settlement)
| TicketCreated (id : Z) (ticket_number : string) (status : string).

Record Response := json { code : Z; body : Body }.

(** A controller: one request on the pool, one response. *)
Definition Handler : Type := Conn -> Response * Conn.

(** The outer [try { ... } catch (error) { return res.status(500)... }]. *)
Definition handler (m : IO Response) (failure : string) : Handler :=
  fun c =>
    match m c with
    | (Ok r, c') => (r, c')
    | (Thrown _, c') => (json 500 (Message false failure), c')
    end.

(** The error kinds of the specification, as the controllers answer them. *)
Definition ValidationError (r : Response) : Prop := code r = 400.
Definition NotFoundError (r : Response) : Prop := code r = 404.
Definition StorageError (r : Response) : Prop := code r = 500.
Definition Success (r : Response) : Prop := code r = 200.

(* ================================================================== *)
(** ** adminController.updateTicket, updateTicketStatus *)

(** The body of PUT /tickets/:id; [None] is [undefined]. *)
Record TicketPatch := mkPatch {
  p_bill_rate : option num;
  p_pay_rate : option num;
  p_status : option string;
  p_quantity : option num
}.

(** One ['column = ?'] of the [updates] array with its entry of [values]. *)
Inductive Assignment : Type :=
| Set_bill_rate (v : num)
| Set_pay_rate (v : num)
| Set_status (v : string)
| Set_quantity (v : num)
| Set_total_bill (v : num)
| Set_total_pay (v : num).

(** What the row holds after a ['column = ?'] the columns take. *)
Definition assign (t : Ticket.t) (a : Assignment) : Ticket.t :=
  let '(Ticket.mk i dr da tr cu jt eq tn q ph br pr tb tp st ca ua) := t in
  match a with
  | Set_bill_rate v =>
      Ticket.mk i dr da tr cu jt eq tn q ph (kept v) pr tb tp st ca ua
  | Set_pay_rate v =>
      Ticket.mk i dr da tr cu jt eq tn q ph br (kept v) tb tp st ca ua
  | Set_status v => Ticket.mk i dr da tr cu jt eq tn q ph br pr tb tp v ca ua
  | Set_quantity v =>
      Ticket.mk i dr da tr cu jt eq tn (kept v) ph br pr tb tp st ca ua
  | Set_total_bill v =>
      Ticket.mk i dr da tr cu jt eq tn q ph br pr (kept v) tp st ca ua
  | Set_total_pay v =>
      Ticket.mk i dr da tr cu jt eq tn q ph br pr tb (kept v) st ca ua
  end.

Definition touch (time : Z) (t : Ticket.t) : Ticket.t :=
  let '(Ticket.mk i dr da tr cu jt eq tn q ph br pr tb tp st ca _) := t in
  Ticket.mk i dr da tr cu jt eq tn q ph br pr tb tp st ca time.

(** What the columns accept (strict SQL mode): a member of the ENUM, a
    number DECIMAL(10,2) takes. *)
Definition storable (a : Assignment) : bool :=
  match a with
  | Set_status v => valid_status v
  | Set_bill_rate v | Set_pay_rate v | Set_quantity v
  | Set_total_bill v | Set_total_pay v => takes v
  end.

(** [UPDATE tickets SET <updates>, updated_at = NOW() WHERE id = ?]: refused
    when a row it reaches would receive a value its column cannot hold. *)
Definition update_tickets (updates : list Assignment) (id : Z) : IO unit :=
  write
    (fun d => existsb (fun t => Ticket.id t =? id) (tickets d)
              && negb (forallb storable updates))
    (fun time d =>
       mkDB (map (fun t => if Ticket.id t =? id
                           then touch time (fold_left assign updates t)
                           else t) (tickets d))
            (customers d) (drivers d) (weight d)).

Definition push {A : Type} (l : list A) (x : A) : list A := (l ++ [x])%list.

Definition updateTicket (id : Z) (body : TicketPatch) : Handler :=
  handler
    (let bill_rate := p_bill_rate body in
     let pay_rate := p_pay_rate body in
     let status := p_status body in
     let quantity := p_quantity body in
     let updates := [] in
     let updates :=
       match bill_rate with
       | Some v => push updates (Set_bill_rate v) | None => updates end in
     let updates :=
       match pay_rate with
       | Some v => push updates (Set_pay_rate v) | None => updates end in
     let updates :=
       match status with
       | Some v => if truthy_str v then push updates (Set_status v) else updates
       | None => updates end in
     let updates :=
       match quantity with
       | Some v => push updates (Set_quantity v) | None => updates end in
     if (List.length updates =? 0)%nat then
       ret (json 400 (Message false "No fields to update"))
     else
       found <- select (fun d =>
                  filter (fun t => Ticket.id t =? id) (tickets d)) ;;
       match found with
       | [] => ret (json 404 (Message false "Ticket not found"))
       | currentTicket :: _ =>
           let finalQty :=
             match quantity with
             | Some v => v | None => Ticket.quantity currentTicket end in
           let finalBillRate :=
             match bill_rate with
             | Some v => v | None => Ticket.bill_rate currentTicket end in
           let finalPayRate :=
             match pay_rate with
             | Some v => v | None => Ticket.pay_rate currentTicket end in
           let updates :=
             push updates (Set_total_bill (finalQty * finalBillRate)%float) in
           let updates :=
             push updates (Set_total_pay (finalQty * finalPayRate)%float) in
           update_tickets updates id ;;;
           ret (json 200 (Message true "Ticket updated successfully"))
       end)
    "Failed to update ticket".

Definition updateTicketStatus (id : Z) (status : option string) : Handler :=
  handler
    (if negb (truthy status)
        || negb (match status with
                 | Some v => valid_status v
                 | None => false end)
     then
       ret (json 400 (Message false
         "Valid status is required (Pending, Approved, or Rejected)"))
     else
       update_tickets
         (match status with Some v => [Set_status v] | None => [] end) id ;;;
       ret (json 200 (Message true "Ticket status updated successfully")))
    "Failed to update ticket status".

(** [findTicketById] of the storage interface. *)
Definition find_ticket (id : Z) (d : DB) : option Ticket.t :=
  find (fun t => Ticket.id t =? id) (tickets d).

(* ================================================================== *)
(** ** Query building blocks *)

(** [l LEFT JOIN r ON on]: every row of [l], once for each partner in [r],
    or once with NULL when it has none. *)
Definition left_join {A B : Type} (on : A -> B -> bool)
    (l : list A) (r : list B) : list (A * option B) :=
  flat_map
    (fun a =>
       match filter (on a) r with
       | [] => [(a, None)]
       | partners => map (fun b => (a, Some b)) partners
       end) l.

(** [ORDER BY]: an insertion sort that keeps rows with equal keys in the
    order it met them. *)
Fixpoint insert_by {A : Type} (leb : A -> A -> bool) (x : A) (l : list A)
    : list A :=
  match l with
  | [] => [x]
  | y :: r => if leb x y then x :: y :: r else y :: insert_by leb x r
  end.

Definition order_by {A : Type} (leb : A -> A -> bool) (l : list A) : list A :=
  fold_right (insert_by leb) [] l.

(** [ORDER BY t.date ASC] *)
Definition date_asc (a b : TicketRow) : bool :=
  date_leb (Ticket.date (row_ticket a)) (Ticket.date (row_ticket b)).

(** [ORDER BY t.date DESC, t.created_at DESC] *)
Definition date_desc_created_desc (a b : TicketRow) : bool :=
  let ta := row_ticket a in
  let tb := row_ticket b in
  if date_eqb (Ticket.date ta) (Ticket.date tb)
  then Ticket.created_at tb <=? Ticket.created_at ta
  else date_leb (Ticket.date tb) (Ticket.date ta).

(** [FROM tickets t LEFT JOIN drivers d ON t.driver_id = d.id] with
    [d.name as driver_name, d.user_id_code]. *)
Definition tickets_with_driver (d : DB) : list TicketRow :=
  map (fun p =>
         mkRow (fst p) (option_map Driver.name (snd p))
               (option_map Driver.user_id_code (snd p)) None)
      (left_join (fun t dr => Ticket.driver_id t =? Driver.id dr)
                 (tickets d) (drivers d)).

(** [FROM tickets t LEFT JOIN customers c ON t.customer = c.name] with
    [c.name as customer_name]. *)
Definition tickets_with_customer (d : DB) : list TicketRow :=
  map (fun p =>
         mkRow (fst p) None None (option_map Customer.name (snd p)))
      (left_join (fun t c => sql_eq d (Ticket.customer t) (Customer.name c))
                 (tickets d) (customers d)).

(** Both joins, as [getAllTickets] writes them. *)
Definition tickets_with_driver_customer (d : DB) : list TicketRow :=
  map (fun p =>
         mkRow (row_ticket (fst p)) (driver_name (fst p))
               (user_id_code (fst p)) (option_map Customer.name (snd p)))
      (left_join
         (fun r c => sql_eq d (Ticket.customer (row_ticket r)) (Customer.name c))
         (tickets_with_driver d) (customers d)).

(** [text LIKE pattern] on the characters of both: [%] stands for any
    characters, [_] for one, a character behind the escape [\] for itself,
    and two characters are the same when their weights are. *)
Fixpoint like (same : string -> string -> bool) (pattern text : list string)
    : bool :=
  match pattern with
  | [] => match text with [] => true | _ => false end
  | p :: pattern' =>
      if String.eqb p "%" then
        (fix any (t : list string) : bool :=
           like same pattern' t
           || match t with
              | _ :: t' => any t'
              | [] => false
              end) text
      else if String.eqb p "_" then
        match text with _ :: text' => like same pattern' text' | [] => false end
      else
        match text with
        | [] => false
        | x :: text' =>
            if String.eqb p "\" then
              match pattern' with
              | e :: pattern'' => same e x && like same pattern'' text'
              | [] =>
                  same p x && match text' with [] => true | _ => false end
              end
            else same p x && like same pattern' text'
        end
  end.

Definition sql_like (d : DB) (pattern text : string) : bool :=
  like (fun a b => key_eqb (weight d a) (weight d b))
       (chars pattern) (chars text).

(* ================================================================== *)
(** ** adminController.generateInvoice, downloadInvoice *)

(** [req.query] (and [req.params.customerId] for the download). *)
Record InvoiceQuery := mkInvoiceQuery {
  customerId : option Z;
  startDate : option string;
  endDate : option string
}.

(** [WHERE t.customer = ? AND t.status = 'Approved'
     AND t.date >= ? AND t.date <= ?] *)
Definition invoice_where (d : DB) (customerName startDate endDate : string)
    (r : TicketRow) : bool :=
  let t := row_ticket r in
  sql_eq d (Ticket.customer t) customerName
  && String.eqb (Ticket.status t) "Approved"
  && date_ge (Ticket.date t) startDate
  && date_le (Ticket.date t) endDate.

Definition invoice_tickets (customerName startDate endDate : string)
    (d : DB) : list TicketRow :=
  order_by date_asc
    (filter (invoice_where d customerName startDate endDate)
            (tickets_with_driver d)).

(** 5% GST *)
Definition gst_rate : num := 0x1.999999999999ap-5%float.

Definition generateInvoice (query : InvoiceQuery) : Handler :=
  handler
    (match customerId query, startDate query, endDate query with
     | Some customerId, Some startDate, Some endDate =>
         if negb (truthy_str startDate) || negb (truthy_str endDate) then
           ret (json 400 (Message false
             "Customer ID, start date, and end date are required"))
         else
           found <- select (fun d =>
                      map Customer.name
                        (filter (fun c => Customer.id c =? customerId)
                                (customers d))) ;;
           match found with
           | [] => ret (json 404 (Message false "Customer not found"))
           | customerName :: _ =>
               tickets <- select
                            (invoice_tickets customerName startDate endDate) ;;
               let subtotal :=
                 fold_left
                   (fun sum ticket =>
                      (sum + parseFloat (Ticket.total_bill (row_ticket ticket)))%float)
                   tickets 0%float in
               let gst := (subtotal * gst_rate)%float in
               let total := (subtotal + gst)%float in
               ret (json 200 (InvoiceData
                      (mkInvoice customerName startDate endDate tickets
                                 subtotal gst total)))
           end
     | _, _, _ =>
         ret (json 400 (Message false
           "Customer ID, start date, and end date are required"))
     end)
    "Failed to generate invoice".

(** The download up to the rendering: the document is the invoice record
    handed to the PDF library. *)
Definition downloadInvoice (query : InvoiceQuery) : Handler :=
  handler
    (match customerId query, startDate query, endDate query with
     | Some customerId, Some startDate, Some endDate =>
         if negb (truthy_str startDate) || negb (truthy_str endDate) then
           ret (json 400 (Message false
             "Customer ID, start date, and end date are required"))
         else if negb (dateRegex_test startDate)
                 || negb (dateRegex_test endDate) then
           ret (json 400 (Message false "Dates must be in YYYY-MM-DD format"))
         else
           found <- select (fun d =>
                      map Customer.name
                        (filter (fun c => Customer.id c =? customerId)
                                (customers d))) ;;
           match found with
           | [] => ret (json 404 (Message false "Customer not found"))
           | customerName :: _ =>
               tickets <- select
                            (invoice_tickets customerName startDate endDate) ;;
               if (List.length tickets =? 0)%nat then
                 ret (json 404 (Message false
                   "No approved tickets found for the selected date range"))
               else
                 let subtotal :=
                   fold_left
                     (fun sum ticket =>
                        (sum + parseFloat
                                 (or_zero (Ticket.total_bill (row_ticket ticket))))%float)
                     tickets 0%float in
                 let gst := (subtotal * gst_rate)%float in
                 let total := (subtotal + gst)%float in
                 ret (json 200 (InvoicePdf
                        (mkInvoice customerName startDate endDate tickets
                                   subtotal gst total)))
           end
     | _, _, _ =>
         ret (json 400 (Message false
           "Customer ID, start date, and end date are required"))
     end)
    "Failed to generate invoice PDF".

(* ================================================================== *)
(** ** adminController.generateSettlement *)

Record SettlementQuery := mkSettlementQuery {
  driverId : option Z;
  s_startDate : option string;
  s_endDate : option string
}.

(** [WHERE t.driver_id = ? AND t.date >= ? AND t.date <= ?] *)
Definition settlement_where (driverId : Z) (startDate endDate : string)
    (r : TicketRow) : bool :=
  let t := row_ticket r in
  (Ticket.driver_id t =? driverId)
  && date_ge (Ticket.date t) startDate
  && date_le (Ticket.date t) endDate.

Definition settlement_tickets (driverId : Z) (startDate endDate : string)
    (d : DB) : list TicketRow :=
  order_by date_asc
    (filter (settlement_where driverId startDate endDate)
            (tickets_with_customer d)).

Definition generateSettlement (query : SettlementQuery) : Handler :=
  handler
    (match driverId query with
     | None => ret (json 400 (Message false "Driver ID is required"))
     | Some driverId =>
     if negb (truthy (s_startDate query)) then
       ret (json 400 (Message false
         "Start date is required (format: YYYY-MM-DD)"))
     else if negb (truthy (s_endDate query)) then
       ret (json 400 (Message false
         "End date is required (format: YYYY-MM-DD)"))
     else
       let startDate := match s_startDate query with Some s => s | None => "" end in
       let endDate := match s_endDate query with Some s => s | None => "" end in
       if negb (dateRegex_test startDate) then
         ret (json 400 (Message false
           "Start date must be in YYYY-MM-DD format"))
       else if negb (dateRegex_test endDate) then
         ret (json 400 (Message false
           "End date must be in YYYY-MM-DD format"))
       else
         found <- select (fun d =>
                    filter (fun dr => Driver.id dr =? driverId) (drivers d)) ;;
         match found with
         | [] => ret (json 404 (Message false "Driver not found"))
         | driver :: _ =>
             tickets <- select
                          (settlement_tickets driverId startDate endDate) ;;
             let totalPay :=
               fold_left
                 (fun sum ticket =>
                    (sum + parseFloat (Ticket.total_pay (row_ticket ticket)))%float)
                 tickets 0%float in
             ret (json 200 (SettlementData
                    (mkSettlement
                       (Driver.id driver, Driver.name driver,
                        Driver.user_id_code driver)
                       startDate endDate tickets totalPay)))
         end
     end)
    "Failed to generate settlement".

(* ================================================================== *)
(** ** driverController.createTicket *)

(** [req.user], from the session. *)
Record User := mkUser {
  u_driverId : option Z;
  u_id : Z
}.

(** [req.body] of the multipart form: each field is a text, [None] when the
    field is missing or empty; [f_quantity] is the number a quantity that
    is there denotes, its text being the decimal numeral of that number.
    [f_file] is the stored upload. *)
Record TicketForm := mkForm {
  f_date : option string;
  f_truck_number : option string;
  f_customer : option string;
  f_equipment_type : option string;
  f_ticket_number : option string;
  f_quantity : option num;
  f_file : option string
}.

(** AUTO_INCREMENT *)
Definition next_id (l : list Ticket.t) : Z :=
  1 + fold_left Z.max (map Ticket.id l) 0.

(** A value bound to a DECIMAL column: a number the program computed, or
    the text of a value the storage delivered. *)
Inductive Bound : Type :=
| Computed (x : num)
| Delivered (x : num).

Definition column (b : Bound) : option num :=
  match b with
  | Computed x => decimal_10_2 x
  | Delivered x => Some x
  end.

(** [INSERT INTO tickets (...) VALUES (..., 'Pending')]: refused when the
    date is none of the calendar, or when a DECIMAL column does not take
    its value. *)
Definition insert_ticket (driver_id : Z) (date truck_number customer : string)
    (job_type equipment_type : option string) (ticket_number : string)
    (quantity : Bound) (photo_path : option string)
    (bill_rate pay_rate total_bill total_pay : Bound) : IO Z :=
  fun c =>
    match sql_date date with
    | None => (Thrown "ER_TRUNCATED_WRONG_VALUE", tick c)
    | Some day =>
        match column quantity, column bill_rate, column pay_rate,
              column total_bill, column total_pay with
        | Some q, Some br, Some pr, Some tb, Some tp =>
            let insertId := next_id (tickets (db c)) in
            let row :=
              Ticket.mk insertId driver_id day truck_number customer
                        job_type equipment_type ticket_number q photo_path
                        br pr tb tp "Pending" (now c) (now c) in
            (Ok insertId,
             tick (with_db (mkDB (tickets (db c) ++ [row])%list
                                 (customers (db c)) (drivers (db c))
                                 (weight (db c))) c))
        | _, _, _, _, _ => (Thrown "ER_WARN_DATA_OUT_OF_RANGE", tick c)
        end
    end.

(** [customer.split(',').map(name => name.trim()).filter(name => name.length > 0)] *)
Definition customerNames_of (customer : string) : list string :=
  filter (fun name => (0 <? String.length name)%nat)
         (map trim (split "," customer)).

(** [SELECT default_bill_rate FROM customers WHERE name IN (...)] *)
Definition bill_rates_of (customerNames : list string) (d : DB) : list num :=
  map Customer.default_bill_rate
      (filter (fun c => existsb (sql_eq d (Customer.name c)) customerNames)
              (customers d)).

(** The average bill rate of the selected customers. *)
Definition resolve_billRate (customersData : list num) : num :=
  let billRate := 0%float in
  if (0 <? List.length customersData)%nat then
    let totalBillRate :=
      fold_left (fun sum c => (sum + or_zero (parseFloat c))%float)
                customersData 0%float in
    (totalBillRate / length_num customersData)%float
  else billRate.

(** [driver.default_pay_rate || 0] *)
Definition resolve_payRate (driver : Driver.t) : num :=
  match Driver.default_pay_rate driver with
  | Some r => or_zero r
  | None => 0%float
  end.

(** [req.user.driverId || req.user.id] *)
Definition session_driver (user : User) : Z :=
  match u_driverId user with
  | Some i => if i =? 0 then u_id user else i
  | None => u_id user
  end.

Definition createTicket (user : User) (body : TicketForm) : Handler :=
  handler
    (let driverId := session_driver user in
     found <- select (fun d =>
                filter (fun dr => (Driver.id dr =? driverId)
                                  || (Driver.user_id dr =? u_id user))
                       (drivers d)) ;;
     match found with
     | [] => ret (json 404 (Message false "Driver not found"))
     | driver :: _ =>
         let actualDriverId := Driver.id driver in
         match f_date body, f_truck_number body, f_customer body,
               f_equipment_type body, f_ticket_number body, f_quantity body
         with
         | Some date, Some truck_number, Some customer,
           Some equipment_type, Some ticket_number, Some quantity =>
             let customerNames := customerNames_of customer in
             if (List.length customerNames =? 0)%nat then
               ret (json 400 (Message false "At least one customer is required"))
             else
               customersData <- select (bill_rates_of customerNames) ;;
               let billRate := resolve_billRate customersData in
               let payRate := resolve_payRate driver in
               let totalBill := (parseFloat quantity * parseFloat billRate)%float in
               let totalPay := (parseFloat quantity * parseFloat payRate)%float in
               let customerString := join ", " customerNames in
               let photoPath :=
                 match f_file body with
                 | Some filename => Some ("/uploads/" ++ filename)
                 | None => None
                 end in
               insertId <- insert_ticket actualDriverId date truck_number
                             customerString None (Some equipment_type)
                             ticket_number (Computed quantity) photoPath
                             (Computed billRate) (Delivered payRate)
                             (Computed totalBill) (Computed totalPay) ;;
               ret (json 201 (TicketCreated insertId ticket_number "Pending"))
         | _, _, _, _, _, _ =>
             ret (json 400 (Message false
               "Date, truck number, customer, equipment type, ticket number, and quantity are required"))
         end
     end)
    "Failed to create ticket".

(** The revision of the controller whose form has a job type: the
    customer text is looked up as one name. *)
Module JobTypeRevision.

Record TicketForm := mkForm {
  f_date : option string;
  f_truck_number : option string;
  f_customer : option string;
  f_job_type : option string;
  f_ticket_number : option string;
  f_quantity : option num;
  f_file : option string
}.

(** [SELECT default_bill_rate FROM customers WHERE name = ?] *)
Definition bill_rates_of (customer : string) (d : DB) : list num :=
  map Customer.default_bill_rate
      (filter (fun c => sql_eq d (Customer.name c) customer) (customers d)).

Definition createTicket (user : User) (body : TicketForm) : Handler :=
  handler
    (let driverId := session_driver user in
     found <- select (fun d =>
                filter (fun dr => (Driver.id dr =? driverId)
                                  || (Driver.user_id dr =? u_id user))
                       (drivers d)) ;;
     match found with
     | [] => ret (json 404 (Message false "Driver not found"))
     | driver :: _ =>
         let actualDriverId := Driver.id driver in
         match f_date body, f_truck_number body, f_customer body,
               f_job_type body, f_ticket_number body, f_quantity body
         with
         | Some date, Some truck_number, Some customer,
           Some job_type, Some ticket_number, Some quantity =>
             customers <- select (bill_rates_of customer) ;;
             let billRate :=
               match customers with
               | rate :: _ => rate
               | [] => 0%float
               end in
             let payRate := resolve_payRate driver in
             let totalBill := (parseFloat quantity * parseFloat billRate)%float in
             let totalPay := (parseFloat quantity * parseFloat payRate)%float in
             let photoPath :=
               match f_file body with
               | Some filename => Some ("/uploads/" ++ filename)
               | None => None
               end in
             insertId <- insert_ticket actualDriverId date truck_number
                           customer (Some job_type) None ticket_number
                           (Computed quantity) photoPath
                           (Delivered billRate) (Delivered payRate)
                           (Computed totalBill) (Computed totalPay) ;;
             ret (json 201 (TicketCreated insertId ticket_number "Pending"))
         | _, _, _, _, _, _ =>
             ret (json 400 (Message false
               "Date, truck number, customer, job type, ticket number, and quantity are required"))
         end
     end)
    "Failed to create ticket".

End JobTypeRevision.

(* ================================================================== *)
(** ** adminController.getAllTickets *)

(** [req.query] *)
Record TicketQuery := mkTicketQuery {
  q_month : option string;
  q_customer : option string;
  q_driver : option string;
  q_status : option string;
  q_search : option string
}.

(** A bound parameter. *)
Inductive Value : Type :=
| Undefined
| Null
| Number (n : Z)
| Text (s : string).

(** One [AND ...] appended to the query, with the parameters pushed for
    it. *)
Inductive Clause : Type :=
| MonthYear (monthNum year : Z)
| CustomerIs (customer : string)
| DriverIs (driver : string)
| StatusIs (status : string)
| TicketNumberLike (pattern : string).

Definition params_of (cl : Clause) : list Value :=
  match cl with
  | MonthYear m y => [Number m; Number y]
  | CustomerIs s => [Text s]
  | DriverIs s => [Text s]
  | StatusIs s => [Text s]
  | TicketNumberLike p => [Text p]
  end.

Definition holds (d : DB) (r : TicketRow) (cl : Clause) : bool :=
  let t := row_ticket r in
  match cl with
  | MonthYear m y => (month (Ticket.date t) =? m) && (year (Ticket.date t) =? y)
  | CustomerIs s => sql_eq d (Ticket.customer t) s
  | DriverIs s =>
      match driver_name r with Some n => sql_eq d n s | None => false end
  | StatusIs s => sql_eq d (Ticket.status t) s
  | TicketNumberLike p => sql_like d p (Ticket.ticket_number t)
  end.

Definition is_bound (v : Value) : bool :=
  match v with Undefined | Null => false | _ => true end.

Definition nth_str (l : list string) (n : nat) : string := nth n l "".

Section Tickets.

(** [new Date(text)] for a text that is no ISO date, which the language
    leaves to the engine: [None] when [getTime()] is [NaN], the value of
    [getMonth()] otherwise. *)
Variable Date_getMonth : string -> option Z.

(** The month and year the [month] filter resolves to, when it adds its
    clause. *)
Definition period (month : option string) : option (Z * Z) :=
  match month with
  | None => None
  | Some month =>
      if truthy_str month && negb (String.eqb (trim month) "") then
        let '(monthNum, year) :=
          if includes "-" month then
            let parts := split "-" month in
            if (List.length parts =? 2)%nat
               && truthy_str (nth_str parts 0) && truthy_str (nth_str parts 1)
            then (parseInt (nth_str parts 1), parseInt (nth_str parts 0))
            else (None, None)
          else
            let parts := split " " month in
            if (2 <=? List.length parts)%nat
               && truthy_str (nth_str parts 0)
               && truthy_str (nth_str parts (List.length parts - 1))
            then
              let monthName := nth_str parts 0 in
              let year := parseInt (nth_str parts (List.length parts - 1)) in
              let dateObj :=
                Date_getMonth (monthName ++ " 1, " ++ show_int year) in
              (match dateObj with Some m => Some (m + 1) | None => None end,
               year)
            else (None, None) in
        match monthNum, year with
        | Some monthNum, Some year =>
            if negb (monthNum =? 0) && negb (year =? 0)
               && (1 <=? monthNum) && (monthNum <=? 12)
            then Some (monthNum, year) else None
        | _, _ => None
        end
      else None
  end.

(** The [AND] clauses the filters add, in the order of the source. *)
Definition clauses (query : TicketQuery) : list Clause :=
  let cs := [] in
  let cs :=
    match period (q_month query) with
    | Some (monthNum, year) => push cs (MonthYear monthNum year)
    | None => cs
    end in
  let cs :=
    match q_customer query with
    | Some customer =>
        if truthy_str customer && negb (String.eqb customer "All")
           && negb (String.eqb (trim customer) "")
        then push cs (CustomerIs customer) else cs
    | None => cs
    end in
  let cs :=
    match q_driver query with
    | Some driver =>
        if truthy_str driver && negb (String.eqb driver "All")
           && negb (String.eqb (trim driver) "")
        then push cs (DriverIs driver) else cs
    | None => cs
    end in
  let cs :=
    match q_status query with
    | Some status =>
        if truthy_str status && negb (String.eqb (trim status) "")
        then push cs (StatusIs status) else cs
    | None => cs
    end in
  let cs :=
    match q_search query with
    | Some search =>
        if truthy_str search && negb (String.eqb (trim search) "")
        then push cs (TicketNumberLike ("%" ++ search ++ "%")) else cs
    | None => cs
    end in
  cs.

Definition getAllTickets (query : TicketQuery) : Handler :=
  handler
    (let cs := clauses query in
     let params := flat_map params_of cs in
     let validParams := filter is_bound params in
     if negb (List.length validParams =? List.length params)%nat then
       ret (json 400 (Message false "Invalid filter parameters provided"))
     else
       tickets <- select (fun d =>
                    order_by date_desc_created_desc
                      (filter (fun r => forallb (holds d r) cs)
                              (tickets_with_driver_customer d))) ;;
       ret (json 200 (TicketList tickets)))
    "Failed to fetch tickets".

End Tickets.

(* ================================================================== *)
(** ** adminController.updateBillRates *)

(** One element of [rates]: [{id, default_bill_rate}], a field being
    [None] when the element lacks it. *)
Record RateRow := mkRate {
  r_id : option Z;
  r_default_bill_rate : option num
}.

(** [UPDATE customers SET default_bill_rate = ?, updated_at = NOW()
     WHERE id = ?]: refused when it reaches a row and the column does not
    take the rate; the driver throws on an [undefined] parameter before
    anything is sent. *)
Definition set_customer_rate (id : Z) (v : num) (time : Z) (d : DB) : DB :=
  mkDB (tickets d)
       (map (fun c => if Customer.id c =? id
                      then Customer.mk (Customer.id c) (Customer.name c)
                                       (kept v) time
                      else c) (customers d))
       (drivers d) (weight d).

Definition update_customer_rate (rate : RateRow) : IO unit :=
  match r_default_bill_rate rate, r_id rate with
  | Some v, Some id =>
      write (fun d => existsb (fun c => Customer.id c =? id) (customers d)
                      && negb (takes v))
            (set_customer_rate id v)
  | _, _ => throw "Bind parameters must not contain undefined"
  end.

(** [for (const x of l) { await f(x) }] *)
Fixpoint for_of {A : Type} (l : list A) (f : A -> IO unit) : IO unit :=
  match l with
  | [] => ret tt
  | x :: r => f x ;;; for_of r f
  end.

(** [connection.release()] *)
Definition release : IO unit := ret tt.

(** [rates] is [None] when the body carries no array. *)
Definition updateBillRates (rates : option (list RateRow)) : Handler :=
  handler
    (match rates with
     | None => ret (json 400 (Message false "Rates must be an array"))
     | Some rates =>
         beginTransaction ;;;
         try_finally
           (try_catch
              (for_of rates update_customer_rate ;;;
               commit ;;;
               ret (json 200 (Message true "Bill rates updated successfully")))
              (fun error => rollback ;;; throw error))
           release
     end)
    "Failed to update bill rates".

(* ================================================================== *)
(** ** Replies that carry one record *)

(** [res.json({success: true, data})], or a failure with its status. *)
Inductive Reply (A : Type) : Type :=
| Sent (data : A)
| Refused (code : Z) (message : string).
Arguments Sent {A} data.
Arguments Refused {A} code message.

Definition Service (A : Type) : Type := Conn -> Reply A * Conn.

Definition service {A : Type} (m : IO (Reply A)) (failure : string)
    : Service A :=
  fun c =>
    match m c with
    | (Ok r, c') => (r, c')
    | (Thrown _, c') => (Refused 500 failure, c')
    end.

(* ================================================================== *)
(** ** adminController.getTicketById, deleteDriver, updateCustomer,
       deleteCustomer, downloadSettlement *)

Definition getTicketById (id : Z) : Service TicketRow :=
  service
    (found <- select (fun d =>
                filter (fun r => Ticket.id (row_ticket r) =? id)
                       (tickets_with_driver_customer d)) ;;
     match found with
     | [] => ret (Refused 404 "Ticket not found")
     | ticket :: _ => ret (Sent ticket)
     end)
    "Failed to fetch ticket".

(** [DELETE FROM drivers|users WHERE ...] as the three tables see it: the
    drivers that go ([drivers.user_id] cascades from [users]), and with
    them their tickets ([tickets.driver_id] cascades from [drivers]). *)
Definition delete_drivers (gone : Driver.t -> bool) (d : DB) : DB :=
  mkDB
    (filter
       (fun t =>
          negb (existsb (fun dr => gone dr
                                   && (Ticket.driver_id t =? Driver.id dr))
                        (drivers d)))
       (tickets d))
    (customers d)
    (filter (fun dr => negb (gone dr)) (drivers d))
    (weight d).

Definition deleteDriver (id : Z) : Handler :=
  handler
    (found <- select (fun d =>
                map Driver.user_id
                    (filter (fun dr => Driver.id dr =? id) (drivers d))) ;;
     match found with
     | [] => ret (json 404 (Message false "Driver not found"))
     | userId :: _ =>
         beginTransaction ;;;
         try_finally
           (try_catch
              (write (fun _ => false)
                 (fun _ => delete_drivers (fun dr => Driver.id dr =? id)) ;;;
               write (fun _ => false)
                 (fun _ => delete_drivers
                             (fun dr => Driver.user_id dr =? userId)) ;;;
               commit ;;;
               ret (json 200 (Message true "Driver deleted successfully")))
              (fun error => rollback ;;; throw error))
           release
     end)
    "Failed to delete driver".

(** The body of PUT /customers/:id. *)
Record CustomerPatch := mkCustomerPatch {
  cp_name : option string;
  cp_default_bill_rate : option num
}.

Inductive CustomerAssignment : Type :=
| Set_name (v : string)
| Set_default_bill_rate (v : num).

Definition assign_customer (c : Customer.t) (a : CustomerAssignment)
    : Customer.t :=
  match a with
  | Set_name v =>
      Customer.mk (Customer.id c) v (Customer.default_bill_rate c)
                  (Customer.updated_at c)
  | Set_default_bill_rate v =>
      Customer.mk (Customer.id c) (Customer.name c) (kept v)
                  (Customer.updated_at c)
  end.

Definition touch_customer (time : Z) (c : Customer.t) : Customer.t :=
  Customer.mk (Customer.id c) (Customer.name c) (Customer.default_bill_rate c)
              time.

(** What makes the storage refuse an assignment to the row [id]: a name
    another row has already, as UNIQUE (name) compares them, or a rate
    DECIMAL(10,2) does not take. *)
Definition name_taken (id : Z) (d : DB) (a : CustomerAssignment) : bool :=
  match a with
  | Set_name v =>
      existsb (fun c => negb (Customer.id c =? id)
                        && sql_eq d (Customer.name c) v) (customers d)
  | Set_default_bill_rate v => negb (takes v)
  end.

(** [UPDATE customers SET <updates>, updated_at = NOW() WHERE id = ?] *)
Definition update_customers (updates : list CustomerAssignment) (id : Z)
    : IO unit :=
  write
    (fun d => existsb (fun c => Customer.id c =? id) (customers d)
              && existsb (name_taken id d) updates)
    (fun time d =>
       mkDB (tickets d)
            (map (fun c => if Customer.id c =? id
                           then touch_customer time
                                  (fold_left assign_customer updates c)
                           else c) (customers d))
            (drivers d) (weight d)).

Definition updateCustomer (id : Z) (body : CustomerPatch) : Handler :=
  handler
    (let name := cp_name body in
     let default_bill_rate := cp_default_bill_rate body in
     let updates := [] in
     let updates :=
       match name with
       | Some v => if truthy_str v then push updates (Set_name v) else updates
       | None => updates end in
     let updates :=
       match default_bill_rate with
       | Some v => push updates (Set_default_bill_rate v)
       | None => updates end in
     if (List.length updates =? 0)%nat then
       ret (json 400 (Message false "No fields to update"))
     else
       update_customers updates id ;;;
       ret (json 200 (Message true "Customer updated successfully")))
    "Failed to update customer".

(** [DELETE FROM customers WHERE id = ?]: no table of the three refers to
    a customer by its id. *)
Definition deleteCustomer (id : Z) : Handler :=
  handler
    (write (fun _ => false)
       (fun _ d =>
          mkDB (tickets d)
               (filter (fun c => negb (Customer.id c =? id)) (customers d))
               (drivers d) (weight d)) ;;;
     ret (json 200 (Message true "Customer deleted successfully")))
    "Failed to delete customer".



(* ================================================================== *)
(** ** driverController.getMyTickets, getTicketById, getMyPay,
       getPayByMonth *)

(** [ORDER BY date DESC, created_at DESC] on tickets. *)
Definition recent_first (a b : Ticket.t) : bool :=
  if date_eqb (Ticket.date a) (Ticket.date b)
  then Ticket.created_at b <=? Ticket.created_at a
  else date_leb (Ticket.date b) (Ticket.date a).

(** [ORDER BY date DESC] *)
Definition date_desc (a b : Ticket.t) : bool :=
  date_leb (Ticket.date b) (Ticket.date a).

(** [SELECT id FROM drivers WHERE id = ? OR user_id = ?] *)
Definition session_drivers (user : User) (d : DB) : list Z :=
  map Driver.id
      (filter (fun dr => (Driver.id dr =? session_driver user)
                         || (Driver.user_id dr =? u_id user)) (drivers d)).

(** The columns [getMyTickets] selects (the rates are not among them). *)
Record MyTicket := mkMyTicket {
  mt_id : Z;
  mt_date : Date;
  mt_truck_number : string;
  mt_customer : string;
  mt_job_type : option string;
  mt_equipment_type : option string;
  mt_ticket_number : string;
  mt_quantity : num;
  mt_photo_path : option string;
  mt_status : string;
  mt_total_bill : num;
  mt_total_pay : num;
  mt_created_at : Z
}.

Definition my_ticket (t : Ticket.t) : MyTicket :=
  mkMyTicket (Ticket.id t) (Ticket.date t) (Ticket.truck_number t)
             (Ticket.customer t) (Ticket.job_type t) (Ticket.equipment_type t)
             (Ticket.ticket_number t) (Ticket.quantity t)
             (Ticket.photo_path t) (Ticket.status t) (Ticket.total_bill t)
             (Ticket.total_pay t) (Ticket.created_at t).

Module DriverController.

Definition getMyTickets (user : User) : Service (list MyTicket) :=
  service
    (found <- select (session_drivers user) ;;
     match found with
     | [] => ret (Refused 404 "Driver not found")
     | actualDriverId :: _ =>
         tickets <- select (fun d =>
                      map my_ticket
                        (order_by recent_first
                           (filter (fun t => Ticket.driver_id t =? actualDriverId)
                                   (tickets d)))) ;;
         ret (Sent tickets)
     end)
    "Failed to fetch tickets".

Definition getTicketById (user : User) (id : Z) : Service Ticket.t :=
  service
    (found <- select (session_drivers user) ;;
     match found with
     | [] => ret (Refused 404 "Driver not found")
     | actualDriverId :: _ =>
         tickets <- select (fun d =>
                      filter (fun t => (Ticket.id t =? id)
                                       && (Ticket.driver_id t =? actualDriverId))
                             (tickets d)) ;;
         match tickets with
         | [] => ret (Refused 404 "Ticket not found or access denied")
         | ticket :: _ => ret (Sent ticket)
         end
     end)
    "Failed to fetch ticket".

End DriverController.

(** A parameter bound by [getMyPay]: a number ([None] is [NaN]), a text,
    or [undefined]. *)
Inductive PayParam : Type :=
| P_undefined
| P_number (n : option Z)
| P_text (s : string).

(** One line of the pay history, with [quantity as hours] and
    [total_pay as amount]. *)
Record PayLine := mkPayLine {
  pl_date : Date;
  pl_customer : string;
  pl_ticket_number : string;
  hours : num;
  amount : num;
  pl_status : string
}.

Definition pay_line (t : Ticket.t) : PayLine :=
  mkPayLine (Ticket.date t) (Ticket.customer t) (Ticket.ticket_number t)
            (Ticket.quantity t) (Ticket.total_pay t) (Ticket.status t).

Record PayHistory := mkPayHistory {
  totalHours : num;
  grossPay : num;
  pay_status : string;
  pay_lines : list PayLine
}.

Section Pay.

(** [new Date(text)], as for the ticket list. *)
Variable Date_getMonth : string -> option Z.

(** How the storage takes a bound parameter it compares [MONTH(date)] or
    [YEAR(date)] with: the integer it reads from it ([None] when what it
    reads is equal to no integer), and whether it refuses the statement
    for it. *)
Variable sql_integer : PayParam -> option Z.
Variable sql_refuses : PayParam -> bool.

(** The pair [(monthNum, year)] pushed for a month token. *)
Definition pay_period (month : string) : PayParam * PayParam :=
  if includes "-" month then
    let parts := split "-" month in
    let year := nth_error parts 0 in
    let monthNum := nth_error parts 1 in
    (match monthNum with Some v => P_text v | None => P_undefined end,
     match year with Some v => P_text v | None => P_undefined end)
  else
    let parts := split " " month in
    let monthName := nth_error parts 0 in
    let yearStr := nth_error parts 1 in
    let year := yearStr in
    let dateObj :=
      Date_getMonth
        ((match monthName with Some v => v | None => "undefined" end)
         ++ " 1, " ++ (match year with Some v => v | None => "undefined" end)) in
    (P_number (match dateObj with Some m => Some (m + 1) | None => None end),
     match year with Some v => P_text v | None => P_undefined end).

Definition is_undefined (p : PayParam) : bool :=
  match p with P_undefined => true | _ => false end.

(** [execute] of the pay query with its parameters after the driver id. *)
Definition select_pay (actualDriverId : Z) (period : option (PayParam * PayParam))
    : IO (list PayLine) :=
  fun c =>
    let params :=
      match period with Some (m, y) => [m; y] | None => [] end in
    if existsb is_undefined params then
      (Thrown "Bind parameters must not contain undefined", c)
    else if existsb sql_refuses params then (Thrown "ER_STORAGE", tick c)
    else
      (Ok (map pay_line
             (order_by date_desc
                (filter
                   (fun t =>
                      (Ticket.driver_id t =? actualDriverId)
                      && match period with
                         | Some (m, y) =>
                             match sql_integer m, sql_integer y with
                             | Some mi, Some yi =>
                                 (month (Ticket.date t) =? mi)
                                 && (year (Ticket.date t) =? yi)
                             | _, _ => false
                             end
                         | None => true
                         end)
                   (tickets (db c))))),
       tick c).

Definition getMyPay (user : User) (month : option string) : Service PayHistory :=
  service
    (found <- select (session_drivers user) ;;
     match found with
     | [] => ret (Refused 404 "Driver not found")
     | actualDriverId :: _ =>
         let period :=
           match month with
           | Some month =>
               if truthy_str month then Some (pay_period month) else None
           | None => None
           end in
         tickets <- select_pay actualDriverId period ;;
         let totalHours :=
           fold_left (fun sum ticket =>
                        (sum + parseFloat (or_zero (hours ticket)))%float)
                     tickets 0%float in
         let grossPay :=
           fold_left (fun sum ticket =>
                        (sum + parseFloat (or_zero (amount ticket)))%float)
                     tickets 0%float in
         let allApproved :=
           forallb (fun ticket => String.eqb (pl_status ticket) "Approved")
                   tickets in
         let status := if allApproved then "Up-to-date" else "Pending" in
         ret (Sent (mkPayHistory totalHours grossPay status
                      (map (fun ticket =>
                              mkPayLine (pl_date ticket) (pl_customer ticket)
                                        (pl_ticket_number ticket)
                                        (parseFloat (hours ticket))
                                        (parseFloat (amount ticket))
                                        (pl_status ticket))
                           tickets)))
     end)
    "Failed to fetch pay history".

(** [req.query.month = req.params.month; return getMyPay(req, res)] *)
Definition getPayByMonth (user : User) (month : string) : Service PayHistory :=
  getMyPay user (Some month).

End Pay.

(* ================================================================== *)
(** ** Notions the properties are stated with *)

(** A number that reads back as itself, as every value of a DECIMAL column
    does: neither [NaN] nor the negative zero. *)
Definition decimal (x : num) : bool :=
  negb (PrimFloat.is_nan x) && negb (PrimFloat.Leibniz.eqb x neg_zero).

(** The value of a field after an update: the one of the patch when the
    patch has the field, the stored one otherwise. *)
Definition final {A : Type} (patch : option A) (stored : A) : A :=
  match patch with Some v => v | None => stored end.

(** The patch carries a field the update recognises. *)
Definition recognised (p : TicketPatch) : bool :=
  match p_bill_rate p with Some _ => true | None => false end
  || match p_pay_rate p with Some _ => true | None => false end
  || truthy (p_status p)
  || match p_quantity p with Some _ => true | None => false end.

(** The status of the patch, when it carries one, is one of the three. *)
Definition status_in_enum (p : TicketPatch) : bool :=
  match p_status p with
  | Some v => negb (truthy_str v) || valid_status v
  | None => true
  end.

(** [Σ parseFloat(x)], summed from the left as [reduce] does. *)
Definition sum_parsed (l : list num) : num :=
  fold_left (fun sum x => (sum + parseFloat x)%float) l 0%float.

(** The arithmetic mean, summed from the left. *)
Definition mean (l : list num) : num :=
  (fold_left PrimFloat.add l 0%float / length_num l)%float.

(** [a <= b] on the dates of two tickets. *)
Definition by_date (a b : Ticket.t) : Prop :=
  date_leb (Ticket.date a) (Ticket.date b) = true.

(** [d] lies in the range [[lo, hi]], both ends included. *)
Definition in_range (lo hi d : Date) : bool := date_leb lo d && date_leb d hi.

(** The [updates] array at the [UPDATE], for the current ticket [cur]. *)
Definition updates_for (p : TicketPatch) (cur : Ticket.t) : list Assignment :=
  ((match p_bill_rate p with Some v => [Set_bill_rate v] | None => [] end)
   ++ (match p_pay_rate p with Some v => [Set_pay_rate v] | None => [] end)
   ++ (match p_status p with
       | Some v => if truthy_str v then [Set_status v] else []
       | None => [] end)
   ++ (match p_quantity p with Some v => [Set_quantity v] | None => [] end)
   ++ [Set_total_bill (final (p_quantity p) (Ticket.quantity cur)
                       * final (p_bill_rate p) (Ticket.bill_rate cur))%float;
       Set_total_pay (final (p_quantity p) (Ticket.quantity cur)
                      * final (p_pay_rate p) (Ticket.pay_rate cur))%float])%list.

(** The column takes the number of the patch, when the patch has one. *)
Definition taken (patch : option num) : bool :=
  match patch with Some v => takes v | None => true end.

(** What a column holds after an update: what it keeps of the number of
    the patch, or what it held. *)
Definition final_kept (patch : option num) (stored : num) : num :=
  match patch with Some v => kept v | None => stored end.

(** The storage takes the update of the ticket [cur] by the patch: the
    status is of the column, and DECIMAL(10,2) takes each number of the
    patch and the two products. *)
Definition accepted (p : TicketPatch) (cur : Ticket.t) : bool :=
  status_in_enum p
  && taken (p_bill_rate p) && taken (p_pay_rate p) && taken (p_quantity p)
  && takes (final (p_quantity p) (Ticket.quantity cur)
            * final (p_bill_rate p) (Ticket.bill_rate cur))%float
  && takes (final (p_quantity p) (Ticket.quantity cur)
            * final (p_pay_rate p) (Ticket.pay_rate cur))%float.

(** The tickets an invoice of [name] for the range [[lo, hi]] bills: those
    whose customer text the storage [d] compares equal to the name. *)
Definition billable (d : DB) (name : string) (lo hi : Date) (t : Ticket.t)
    : bool :=
  sql_eq d (Ticket.customer t) name
  && String.eqb (Ticket.status t) "Approved"
  && in_range lo hi (Ticket.date t).

Definition ticket_date_leb (a b : Ticket.t) : bool :=
  date_leb (Ticket.date a) (Ticket.date b).

(** The tickets a settlement of driver [driverId] for [[lo, hi]] pays:
    the status is not looked at. *)
Definition payable (driverId : Z) (lo hi : Date) (t : Ticket.t) : bool :=
  (Ticket.driver_id t =? driverId) && in_range lo hi (Ticket.date t).

(** A numeral: decimal digits, one at least; and the number it writes. *)
Definition numeral (s : string) : bool :=
  truthy_str s
  && (fix digits (s : string) : bool :=
        match s with
        | String c s' => is_digit c && digits s'
        | EmptyString => true
        end) s.

Definition numeral_value (s : string) : Z := fst (read_digits s 0 false).

(** An engine for [new Date(text)] on texts of the form
    [<month name> <day>, <year>]: the month is known by the first three
    letters of its English name, in either case. *)
Definition lower (c : ascii) : ascii :=
  let n := nat_of_ascii c in
  if ((65 <=? n) && (n <=? 90))%nat then ascii_of_nat (n + 32) else c.

Fixpoint lowercase (s : string) : string :=
  match s with
  | String c s' => String (lower c) (lowercase s')
  | EmptyString => EmptyString
  end.

Definition month_names : list string :=
  ["jan"; "feb"; "mar"; "apr"; "may"; "jun";
   "jul"; "aug"; "sep"; "oct"; "nov"; "dec"].

Fixpoint index_of (x : string) (l : list string) (i : Z) : option Z :=
  match l with
  | [] => None
  | y :: r => if String.eqb x y then Some i else index_of x r (i + 1)
  end.

Definition named_month (text : string) : option Z :=
  match split " " text with
  | [name; _; year] =>
      match parseInt year with
      | Some _ => index_of (lowercase (substring 0 3 name)) month_names 0
      | None => None
      end
  | _ => None
  end.

(** A row whose statement fails on the database: it cannot be executed,
    or it reaches a customer with a rate the column does not take. *)
Definition failing (d : DB) (row : RateRow) : bool :=
  match r_default_bill_rate row, r_id row with
  | Some v, Some id =>
      existsb (fun c => Customer.id c =? id) (customers d) && negb (takes v)
  | _, _ => true
  end.

(** The rows of a batch applied one after the other. *)
Fixpoint apply_rates (time : Z) (rates : list RateRow) (d : DB) : DB :=
  match rates with
  | [] => d
  | row :: rest =>
      apply_rates time rest
        match r_default_bill_rate row, r_id row with
        | Some v, Some id => set_customer_rate id v time d
        | _, _ => d
        end
  end.

(** ** Notions the further properties are stated with *)

(** A ticket whose totals are the products of its quantity and rates. *)
Definition priced (t : Ticket.t) : Prop :=
  Ticket.total_bill t = (Ticket.quantity t * Ticket.bill_rate t)%float
  /\ Ticket.total_pay t = (Ticket.quantity t * Ticket.pay_rate t)%float.

(** A ticket whose totals are values of their DECIMAL(10,2) columns: the
    storage takes them and keeps them as they are. *)
Definition decimal_totals (t : Ticket.t) : Prop :=
  decimal_10_2 (Ticket.total_bill t) = Some (Ticket.total_bill t)
  /\ decimal_10_2 (Ticket.total_pay t) = Some (Ticket.total_pay t).

(** The columns of a ticket an admin update never writes. *)
Definition same_record (a b : Ticket.t) : Prop :=
  Ticket.id a = Ticket.id b
  /\ Ticket.driver_id a = Ticket.driver_id b
  /\ Ticket.date a = Ticket.date b
  /\ Ticket.truck_number a = Ticket.truck_number b
  /\ Ticket.customer a = Ticket.customer b
  /\ Ticket.job_type a = Ticket.job_type b
  /\ Ticket.equipment_type a = Ticket.equipment_type b
  /\ Ticket.ticket_number a = Ticket.ticket_number b
  /\ Ticket.photo_path a = Ticket.photo_path b
  /\ Ticket.created_at a = Ticket.created_at b.

(** The quantity, the rates and the totals of a ticket. *)
Definition same_pricing (a b : Ticket.t) : Prop :=
  Ticket.quantity a = Ticket.quantity b
  /\ Ticket.bill_rate a = Ticket.bill_rate b
  /\ Ticket.pay_rate a = Ticket.pay_rate b
  /\ Ticket.total_bill a = Ticket.total_bill b
  /\ Ticket.total_pay a = Ticket.total_pay b.

(** The rate the last row of a batch that names customer [id] gives it. *)
Fixpoint last_rate (id : Z) (rates : list RateRow) : option num :=
  match rates with
  | [] => None
  | row :: rest =>
      match last_rate id rest with
      | Some v => Some v
      | None =>
          match r_default_bill_rate row, r_id row with
          | Some v, Some i => if i =? id then Some v else None
          | _, _ => None
          end
      end
  end.

(** The text starts with a white space character. *)
Definition starts_white (s : string) : bool :=
  match s with
  | String a s1 =>
      is_space a
      || match s1 with
         | String b s2 =>
             is_space2 a b
             || match s2 with
                | String c _ => is_space3 a b c
                | EmptyString => false
                end
         | EmptyString => false
         end
  | EmptyString => false
  end.

(** A name as [customerNames_of] yields them: no comma, nothing to trim,
    not empty. *)
Definition clean_name (n : string) : Prop :=
  includes "," n = false /\ trim n = n /\ (0 < String.length n)%nat.

(** [ORDER BY date DESC, created_at DESC] on the two keys. *)
Definition recent (da : Date) (ca : Z) (db : Date) (cb : Z) : bool :=
  if date_eqb da db then cb <=? ca else date_leb db da.

(** A filter value that filters nothing: absent, empty, blank (and, for
    the customer and the driver, ["All"]). *)
Definition blank (x : option string) : bool :=
  match x with
  | None => true
  | Some s => negb (truthy_str s) || String.eqb (trim s) ""
  end.

Definition sentinel (x : option string) : bool :=
  match x with
  | None => true
  | Some s =>
      negb (truthy_str s) || String.eqb s "All" || String.eqb (trim s) ""
  end.

(** The tickets a query without a driver filter lists: the criteria that
    are there, each as it is, all of them together. *)
Definition listed (Date_getMonth : string -> option Z) (d : DB)
    (q : TicketQuery) (t : Ticket.t) : bool :=
  match period Date_getMonth (q_month q) with
  | Some (m, y) =>
      (month (Ticket.date t) =? m) && (year (Ticket.date t) =? y)
  | None => true
  end
  && (sentinel (q_customer q)
      || match q_customer q with
         | Some s => sql_eq d (Ticket.customer t) s
         | None => false
         end)
  && (blank (q_status q)
      || match q_status q with
         | Some s => sql_eq d (Ticket.status t) s
         | None => false
         end)
  && (blank (q_search q)
      || match q_search q with
         | Some s => sql_like d ("%" ++ s ++ "%") (Ticket.ticket_number t)
         | None => false
         end).

(** One optional filter of the query: its clause is pushed when the guard
    holds. *)
Definition add_filter (o : option string) (guard : string -> bool)
    (clause : string -> Clause) (cs : list Clause) : list Clause :=
  match o with
  | Some s => if guard s then push cs (clause s) else cs
  | None => cs
  end.

(** The row of a ticket with its joined columns. *)
Definition joined (d : DB) (t : Ticket.t) : TicketRow :=
  let driver := find (fun dr => Ticket.driver_id t =? Driver.id dr) (drivers d) in
  let customer :=
    find (fun cu => sql_eq d (Ticket.customer t) (Customer.name cu))
         (customers d) in
  mkRow t (option_map Driver.name driver)
        (option_map Driver.user_id_code driver)
        (option_map Customer.name customer).

(** The drivers that go with driver [id] and the account [userId]. *)
Definition leaves (id userId : Z) (x : Driver.t) : bool :=
  (Driver.id x =? id) || (Driver.user_id x =? userId).

(** FOREIGN KEY (driver_id) REFERENCES drivers(id) on tickets. *)
Definition refs_ok (d : DB) : bool :=
  forallb
    (fun t => existsb (fun x => Driver.id x =? Ticket.driver_id t) (drivers d))
    (tickets d).

(** The assignments [updateCustomer] collects from a body. *)
Definition customer_updates (body : CustomerPatch) : list CustomerAssignment :=
  (match cp_name body with
   | Some v => if truthy_str v then [Set_name v] else []
   | None => []
   end
   ++ match cp_default_bill_rate body with
      | Some v => [Set_default_bill_rate v]
      | None => []
      end)%list.

(** ** Sample data *)

Definition aecon : Customer.t := Customer.mk 1 "Aecon" 100%float 0.
Definition pcl : Customer.t := Customer.mk 2 "PCL Construction" 200%float 0.
Definition jo : Driver.t := Driver.mk 1 11 "D001" "Jo" (Some 30%float).
Definition sam : Driver.t := Driver.mk 2 12 "D002" "Sam" None.

Definition ticket (id driver_id : Z) (date : Date) (customer : string)
    (quantity bill_rate pay_rate : num) (status : string) : Ticket.t :=
  Ticket.mk id driver_id date "TRUCK-001" customer None (Some "Dump") "T-100"
            quantity None bill_rate pay_rate (quantity * bill_rate)%float
            (quantity * pay_rate)%float status 0 0.

(** A collation for the examples: as utf8mb4_unicode_ci, it gives a
    capital letter of the Latin alphabet the weight of the small one. *)
Definition latin_ci (ch : string) : list Z :=
  match ch with
  | String c EmptyString =>
      let n := Z.of_nat (nat_of_ascii c) in
      [if (65 <=? n) && (n <=? 90) then n + 32 else n]
  | _ => (fix codes (s : string) : list Z :=
            match s with
            | String c s' => (256 + Z.of_nat (nat_of_ascii c)) :: codes s'
            | EmptyString => []
            end) ch
  end.

Definition sample_db : DB :=
  mkDB
    [ ticket 1 1 (mkDate 2025 11 20) "Aecon" 2%float 100%float 30%float "Approved";
      ticket 2 1 (mkDate 2025 11 5) "Aecon" 3%float 100%float 30%float "Pending";
      ticket 3 1 (mkDate 2025 11 12) "Aecon" 1%float 100%float 30%float "Rejected";
      ticket 4 2 (mkDate 2025 11 3) "Aecon" 4%float 100%float 25%float "Approved";
      ticket 5 2 (mkDate 2025 10 30) "PCL Construction" 5%float 200%float 25%float "Approved" ]
    [aecon; pcl] [jo; sam] latin_ci.

Definition sample : Conn := mkConn sample_db 1000 0 None.

(* ================================================================== *)
(** ** The helpers on small inputs *)

Example split_customers :
  customerNames_of " Aecon , PCL Construction,, " = ["Aecon"; "PCL Construction"].
Proof. reflexivity. Qed.

Example parseInt_prefix : parseInt " 11th" = Some 11 /\ parseInt "Nov" = None.
Proof. split; reflexivity. Qed.

Example dateRegex_samples :
  dateRegex_test "2025-11-30" = true
  /\ dateRegex_test "2025-11-3" = false
  /\ dateRegex_test "2025-11-30 " = false
  /\ dateRegex_test "11/30/2025" = false.
Proof. repeat split; reflexivity. Qed.

Example sql_date_samples :
  sql_date "2024-02-29" = Some (mkDate 2024 2 29)
  /\ sql_date "2025-02-29" = None
  /\ sql_date "2025-13-01" = None.
Proof. repeat split; reflexivity. Qed.

Example gst_rate_value : gst_rate = (5 / 100)%float.
Proof. reflexivity. Qed.

Example like_samples :
  sql_like sample_db "%10%" "T-100" = true
  /\ sql_like sample_db "%t-1__" "T-100" = true
  /\ sql_like sample_db "%20%" "T-100" = false
  /\ sql_like sample_db "\%" "%" = true
  /\ sql_like sample_db "\%" "T" = false.
Proof. repeat split; reflexivity. Qed.

Example sql_eq_samples :
  sql_eq sample_db "aecon  " "Aecon" = true
  /\ sql_eq sample_db " Aecon" "Aecon" = false
  /\ sql_eq sample_db "Aecon" "PCL Construction" = false.
Proof. repeat split; reflexivity. Qed.

Example trim_samples :
  trim (String "194" (String "160" " Aecon" ++ String "009" (String "010" "")))
  = "Aecon"
  /\ trim (String "239" (String "187" (String "191" ""))) = ""
  /\ trim (String "195" (String "169" " ")) = String "195" (String "169" "").
Proof. repeat split; reflexivity. Qed.

Example decimal_samples :
  decimal_10_2 7.333%float = Some 7.33%float
  /\ decimal_10_2 0.125%float = Some 0.13%float
  /\ decimal_10_2 1.005%float = Some 1.01%float
  /\ decimal_10_2 (-1.005)%float = Some (-1.01)%float
  /\ decimal_10_2 49.995%float = Some 50%float
  /\ decimal_10_2 99999999.994%float = Some 99999999.99%float
  /\ decimal_10_2 99999999.995%float = None
  /\ decimal_10_2 1e8%float = None
  /\ decimal_10_2 nan = None
  /\ decimal_10_2 infinity = None.
Proof. repeat split; vm_compute; reflexivity. Qed.

Example sample_schema : schema_ok sample_db = true.
Proof. reflexivity. Qed.

Example named_month_samples :
  named_month "November 1, 2025" = Some 10
  /\ named_month "nov 1, 2025" = Some 10
  /\ named_month "Smarch 1, 2025" = None.
Proof. repeat split; reflexivity. Qed.

(* ================================================================== *)
(** ** Lists, lookups and numbers *)

Lemma find_filter_head {A : Type} (f : A -> bool) (l : list A) :
  find f l = match filter f l with [] => None | x :: _ => Some x end.
Proof.
  induction l as [|a l IH]; simpl; [reflexivity|].
  destruct (f a); simpl; auto.
Qed.

Lemma assign_id (t : Ticket.t) (a : Assignment) :
  Ticket.id (assign t a) = Ticket.id t.
Proof. destruct t, a; reflexivity. Qed.

Lemma fold_assign_id (l : list Assignment) (t : Ticket.t) :
  Ticket.id (fold_left assign l t) = Ticket.id t.
Proof.
  revert t; induction l as [|a l IH]; intros t; simpl; [reflexivity|].
  rewrite IH. apply assign_id.
Qed.

Lemma touch_id (time : Z) (t : Ticket.t) : Ticket.id (touch time t) = Ticket.id t.
Proof. destruct t; reflexivity. Qed.

(** A lookup after an [UPDATE ... WHERE id = ?] that keeps ids. *)
Lemma find_after_update (u : Ticket.t -> Ticket.t) (i : Z) (l : list Ticket.t) :
  (forall t, Ticket.id (u t) = Ticket.id t) ->
  find (fun t => Ticket.id t =? i)
       (map (fun t => if Ticket.id t =? i then u t else t) l)
  = option_map u (find (fun t => Ticket.id t =? i) l).
Proof.
  intros Hu. induction l as [|a l IH]; simpl; [reflexivity|].
  destruct (Ticket.id a =? i) eqn:E; simpl.
  - rewrite Hu, E. reflexivity.
  - rewrite E. exact IH.
Qed.

(** An [UPDATE ... WHERE id = ?] that reaches no row changes nothing. *)
Lemma update_no_match (u : Ticket.t -> Ticket.t) (i : Z) (l : list Ticket.t) :
  find (fun t => Ticket.id t =? i) l = None ->
  map (fun t => if Ticket.id t =? i then u t else t) l = l.
Proof.
  induction l as [|a l IH]; simpl; [reflexivity|].
  destruct (Ticket.id a =? i) eqn:E; [discriminate|].
  intros H. rewrite (IH H). reflexivity.
Qed.

Lemma find_none_existsb {A : Type} (f : A -> bool) (l : list A) :
  find f l = None -> existsb f l = false.
Proof.
  induction l as [|a l IH]; simpl; [reflexivity|].
  destruct (f a); [discriminate|]. exact IH.
Qed.

Lemma find_some_existsb {A : Type} (f : A -> bool) (l : list A) (x : A) :
  find f l = Some x -> existsb f l = true.
Proof.
  induction l as [|a l IH]; simpl; [discriminate|].
  destruct (f a); [reflexivity|]. exact IH.
Qed.

Lemma valid_status_truthy (s : string) :
  valid_status s = true -> truthy_str s = true.
Proof. destruct s; [discriminate|reflexivity]. Qed.

(* ================================================================== *)
(** ** Ticket updates *)

Ltac run :=
  unfold handler, bind, select, update_tickets, write, ret, tick, with_db,
    push; cbn -[fold_left valid_status].

(** An update whose patch is empty is refused without touching the
    storage. *)
Lemma updateTicket_no_field (id : Z) (p : TicketPatch) (c : Conn) :
  recognised p = false ->
  updateTicket id p c = (json 400 (Message false "No fields to update"), c).
Proof.
  destruct p as [[b|] [pr|] [s|] [q|]]; unfold recognised; simpl;
    try discriminate; intros H;
    try (destruct (truthy_str s) eqn:Hs; simpl in H); try discriminate;
    unfold updateTicket; run; rewrite ?Hs; reflexivity.
Qed.

(** C9. A ticket update with the empty patch [{}] fails with a
    ValidationError, and the storage (every ticket with it) is left as it
    was: the update is refused before any statement is executed. *)
Theorem updateTicket_empty_patch :
  forall (id : Z) (c : Conn),
    ValidationError (fst (updateTicket id (mkPatch None None None None) c))
    /\ snd (updateTicket id (mkPatch None None None None) c) = c.
Proof.
  intros id c. rewrite updateTicket_no_field by reflexivity.
  split; reflexivity.
Qed.

Lemma updates_for_fields (p : TicketPatch) (t : Ticket.t) :
  let t' := fold_left assign (updates_for p t) t in
  Ticket.quantity t' = final_kept (p_quantity p) (Ticket.quantity t)
  /\ Ticket.bill_rate t' = final_kept (p_bill_rate p) (Ticket.bill_rate t)
  /\ Ticket.pay_rate t' = final_kept (p_pay_rate p) (Ticket.pay_rate t)
  /\ Ticket.status t'
     = (if truthy (p_status p) then final (p_status p) (Ticket.status t)
        else Ticket.status t)
  /\ Ticket.total_bill t'
     = kept (final (p_quantity p) (Ticket.quantity t)
             * final (p_bill_rate p) (Ticket.bill_rate t))%float
  /\ Ticket.total_pay t'
     = kept (final (p_quantity p) (Ticket.quantity t)
             * final (p_pay_rate p) (Ticket.pay_rate t))%float.
Proof.
  destruct p as [[b|] [pr|] [s|] [q|]], t; unfold updates_for;
    cbn -[kept PrimFloat.mul];
    try (destruct (truthy_str s)); cbn -[kept PrimFloat.mul];
    repeat split; reflexivity.
Qed.

Lemma takes_kept (x : num) : takes x = true -> decimal_10_2 x = Some (kept x).
Proof.
  unfold takes, kept. destruct (decimal_10_2 x); [reflexivity|discriminate].
Qed.

(** The [UPDATE] is executed when the storage takes the update. *)
Lemma storable_updates (p : TicketPatch) (t : Ticket.t) :
  forallb storable (updates_for p t) = accepted p t.
Proof.
  unfold accepted, status_in_enum, updates_for, taken.
  destruct p as [[b|] [pr|] [s|] [q|]];
    cbn -[takes valid_status PrimFloat.mul];
    try (destruct (truthy_str s)); cbn -[takes valid_status PrimFloat.mul];
    rewrite ?Bool.andb_true_r;
    repeat match goal with
           | |- context [takes ?x] =>
               let b := fresh "b" in
               generalize (takes x); intros b
           end;
    try (generalize (valid_status s); intros vs);
    repeat match goal with b : bool |- _ => destruct b end; reflexivity.
Qed.

(** What [updateTicket] leaves behind for a ticket that exists and a patch
    with a field: the row as the columns keep it when the storage takes
    the update, nothing when it refuses it. *)
Lemma updateTicket_run (id : Z) (p : TicketPatch) (c : Conn) (t : Ticket.t) :
  find_ticket id (db c) = Some t ->
  recognised p = true ->
  updateTicket id p c =
    if accepted p t then
      (json 200 (Message true "Ticket updated successfully"),
       mkConn
         (mkDB (map (fun x => if Ticket.id x =? id
                              then touch (now c)
                                     (fold_left assign (updates_for p t) x)
                              else x) (tickets (db c)))
               (customers (db c)) (drivers (db c)) (weight (db c)))
         (now c) (S (S (queries c))) (snapshot c))
    else
      (json 500 (Message false "Failed to update ticket"),
       mkConn (db c) (now c) (S (S (queries c))) (snapshot c)).
Proof.
  unfold find_ticket. intros Hfind Hrec.
  pose proof (find_some_existsb _ _ _ Hfind) as Hex.
  rewrite find_filter_head in Hfind.
  destruct (filter (fun x => Ticket.id x =? id) (tickets (db c)))
    as [|cur rest] eqn:Hfilter; [discriminate|].
  injection Hfind as ->.
  rewrite <- storable_updates.
  destruct p as [[b|] [pr|] [s|] [q|]];
    unfold recognised in Hrec; simpl in Hrec; try discriminate;
    try (destruct (truthy_str s) eqn:Hs; simpl in Hrec; try discriminate);
    unfold updateTicket, updates_for, handler, bind, select, update_tickets,
      write, ret, tick, with_db, push;
    cbn -[fold_left forallb]; rewrite ?Hs;
    cbn -[fold_left forallb]; rewrite Hfilter;
    cbn -[fold_left forallb]; rewrite Hex;
    cbn -[fold_left forallb];
    match goal with
    | |- context [forallb storable ?l] => destruct (forallb storable l)
    end; reflexivity.
Qed.




(** The dedicated status update refuses a status that is none of the three
    before any statement is executed. *)
Lemma updateTicketStatus_invalid (id : Z) (status : option string) (c : Conn) :
  match status with Some v => valid_status v | None => false end = false ->
  ValidationError (fst (updateTicketStatus id status c))
  /\ snd (updateTicketStatus id status c) = c.
Proof.
  intros H. unfold updateTicketStatus. run.
  destruct status as [v|]; cbn -[valid_status].
  - rewrite H, Bool.orb_true_r. split; reflexivity.
  - split; reflexivity.
Qed.

(** The general update binds a status it has not checked: for a ticket that
    exists the statement reaches the ENUM column, which refuses it, and the
    answer is the storage failure. *)
Lemma updateTicket_invalid_status (id : Z) (s : string) (c : Conn) (t : Ticket.t) :
  find_ticket id (db c) = Some t ->
  truthy_str s = true ->
  valid_status s = false ->
  updateTicket id (mkPatch None None (Some s) None) c
  = (json 500 (Message false "Failed to update ticket"),
     mkConn (db c) (now c) (S (S (queries c))) (snapshot c)).
Proof.
  intros Hfind Hs Hv.
  rewrite (updateTicket_run id _ c t Hfind)
    by (unfold recognised; cbn; rewrite Hs; reflexivity).
  unfold accepted, status_in_enum. cbn [p_status].
  rewrite Hs, Hv. reflexivity.
Qed.

(** C6 (the code departs from it). On the sample data the general update of
    ticket 1 with the status "Bogus" is not refused as a ValidationError:
    the status is bound unchecked, two statements are executed, the ENUM
    column refuses the second and the answer is the storage failure (500);
    the dedicated status update refuses the same status with a
    ValidationError and executes nothing. *)
Theorem updateTicket_bogus_status :
  let r := updateTicket 1 (mkPatch None None (Some "Bogus") None) sample in
  valid_status "Bogus" = false
  /\ ~ ValidationError (fst r)
  /\ StorageError (fst r)
  /\ queries (snd r) = 2%nat
  /\ db (snd r) = db sample
  /\ ValidationError (fst (updateTicketStatus 1 (Some "Bogus") sample))
  /\ snd (updateTicketStatus 1 (Some "Bogus") sample) = sample.
Proof.
  cbv zeta.
  rewrite (updateTicket_invalid_status 1 "Bogus" sample
             (ticket 1 1 (mkDate 2025 11 20) "Aecon" 2%float 100%float 30%float "Approved")
             eq_refl eq_refl eq_refl).
  repeat split; try reflexivity.
  unfold ValidationError; simpl; discriminate.
Qed.

(** C10. For a valid status and a ticket id that resolves to no ticket, the
    dedicated status update answers success and changes no table, and does
    not answer NotFoundError; the general update answers NotFoundError for
    the same id. *)
Theorem updateTicketStatus_missing_ticket :
  forall (id : Z) (s : string) (c : Conn),
    valid_status s = true ->
    find_ticket id (db c) = None ->
    fst (updateTicketStatus id (Some s) c)
    = json 200 (Message true "Ticket status updated successfully")
    /\ db (snd (updateTicketStatus id (Some s) c)) = db c
    /\ ~ NotFoundError (fst (updateTicketStatus id (Some s) c))
    /\ NotFoundError (fst (updateTicket id (mkPatch None None (Some s) None) c)).
Proof.
  intros id s c Hv Hfind. unfold find_ticket in Hfind.
  pose proof (valid_status_truthy s Hv) as Hs.
  pose proof (find_none_existsb _ _ Hfind) as Hex.
  assert (Hrun : updateTicketStatus id (Some s) c
                 = (json 200 (Message true "Ticket status updated successfully"),
                    mkConn (db c) (now c) (S (queries c)) (snapshot c))).
  { unfold updateTicketStatus. run. rewrite Hs, Hv. cbn -[fold_left].
    rewrite Hex. cbn -[fold_left].
    rewrite update_no_match by exact Hfind. destruct (db c); reflexivity. }
  rewrite Hrun. repeat split; try reflexivity.
  - unfold NotFoundError; simpl; discriminate.
  - unfold updateTicket. run. rewrite Hs. cbn -[fold_left valid_status].
    rewrite find_filter_head in Hfind.
    destruct (filter (fun t => Ticket.id t =? id) (tickets (db c)));
      [reflexivity|discriminate].
Qed.

Lemma updateTicketStatus_missing_ticket_witness :
  fst (updateTicketStatus 42 (Some "Approved") sample)
  = json 200 (Message true "Ticket status updated successfully")
  /\ db (snd (updateTicketStatus 42 (Some "Approved") sample)) = db sample.
Proof.
  destruct (updateTicketStatus_missing_ticket 42 "Approved" sample eq_refl eq_refl)
    as (H1 & H2 & _).
  split; [exact H1|exact H2].
Defined.

(* ================================================================== *)
(** ** ORDER BY and LEFT JOIN *)

Section OrderBy.

Context {A : Type} (leb : A -> A -> bool).
Hypothesis leb_total : forall a b, leb a b = false -> leb b a = true.
Hypothesis leb_trans :
  forall a b c, leb a b = true -> leb b c = true -> leb a c = true.

Let le (a b : A) : Prop := leb a b = true.

Lemma insert_by_perm (x : A) (l : list A) :
  Permutation (x :: l) (insert_by leb x l).
Proof.
  induction l as [|y l IH]; simpl; [apply Permutation_refl|].
  destruct (leb x y); [apply Permutation_refl|].
  eapply perm_trans; [apply perm_swap|]. apply perm_skip, IH.
Qed.

Lemma order_by_perm (l : list A) : Permutation l (order_by leb l).
Proof.
  induction l as [|x l IH]; simpl; [constructor|].
  eapply perm_trans; [apply perm_skip, IH|]. apply insert_by_perm.
Qed.

Lemma insert_by_sorted (x : A) (l : list A) :
  StronglySorted le l -> StronglySorted le (insert_by leb x l).
Proof.
  induction 1 as [|y l Hl IH Hy]; simpl.
  - constructor; constructor.
  - destruct (leb x y) eqn:E.
    + constructor; [constructor; assumption|].
      constructor; [exact E|].
      eapply Forall_impl; [|exact Hy].
      intros z Hz. exact (leb_trans _ _ _ E Hz).
    + constructor; [exact IH|].
      eapply Permutation_Forall; [apply insert_by_perm|].
      constructor; [exact (leb_total _ _ E)|exact Hy].
Qed.

Lemma order_by_sorted (l : list A) : StronglySorted le (order_by leb l).
Proof.
  induction l as [|x l IH]; simpl; [constructor|].
  apply insert_by_sorted, IH.
Qed.

End OrderBy.

(** Sorting rows by a key of the ticket is sorting the tickets. *)
Lemma order_by_map {A B : Type} (f : A -> B) (leb : B -> B -> bool)
    (l : list A) :
  map f (order_by (fun a b => leb (f a) (f b)) l) = order_by leb (map f l).
Proof.
  induction l as [|x l IH]; simpl; [reflexivity|].
  rewrite <- IH. generalize (order_by (fun a b => leb (f a) (f b)) l).
  intros s. induction s as [|y s IHs]; simpl; [reflexivity|].
  destruct (leb (f x) (f y)); simpl; [reflexivity|]. rewrite IHs. reflexivity.
Qed.

Lemma filter_map_comm {A B : Type} (f : A -> B) (p : B -> bool) (l : list A) :
  map f (filter (fun a => p (f a)) l) = filter p (map f l).
Proof.
  induction l as [|x l IH]; simpl; [reflexivity|].
  destruct (p (f x)); simpl; rewrite IH; reflexivity.
Qed.

Lemma fold_left_map {A B C : Type} (g : C -> B -> C) (f : A -> B)
    (l : list A) (z : C) :
  fold_left (fun acc a => g acc (f a)) l z = fold_left g (map f l) z.
Proof.
  revert z; induction l as [|x l IH]; intros z; simpl; [reflexivity|].
  apply IH.
Qed.

Section Keys.

Context {K : Type} (eqb : K -> K -> bool).
Hypothesis eqb_eq : forall x y, eqb x y = true <-> x = y.

Lemma distinctb_filter_nil {B : Type} (key : B -> K) (k : K) (r : list B) :
  existsb (eqb k) (map key r) = false ->
  filter (fun b => eqb k (key b)) r = [].
Proof.
  induction r as [|b r IH]; simpl; [reflexivity|].
  destruct (eqb k (key b)); simpl; [discriminate|]. exact IH.
Qed.

(** A unique key finds one partner at most. *)
Lemma distinctb_filter {B : Type} (key : B -> K) (k : K) (r : list B) :
  distinctb eqb (map key r) = true ->
  filter (fun b => eqb k (key b)) r = []
  \/ exists b, filter (fun b => eqb k (key b)) r = [b].
Proof.
  induction r as [|b r IH]; simpl; [left; reflexivity|].
  intros H. apply Bool.andb_true_iff in H as [Hb Hr].
  apply Bool.negb_true_iff in Hb.
  destruct (eqb k (key b)) eqn:E.
  - right. exists b. apply eqb_eq in E. subst k.
    rewrite (distinctb_filter_nil key (key b) r Hb). reflexivity.
  - exact (IH Hr).
Qed.

(** With a unique key on the right, a LEFT JOIN keeps the rows of the left
    as they are, each once. *)
Lemma left_join_fst {A B : Type} (fk : A -> K) (key : B -> K)
    (l : list A) (r : list B) :
  distinctb eqb (map key r) = true ->
  map fst (left_join (fun a b => eqb (fk a) (key b)) l r) = l.
Proof.
  intros H. unfold left_join.
  induction l as [|a l IH]; [reflexivity|].
  cbn [flat_map]. rewrite map_app, IH.
  destruct (distinctb_filter key (fk a) r H) as [-> | [b ->]]; reflexivity.
Qed.

End Keys.

Lemma String_eqb_eq (x y : string) : String.eqb x y = true <-> x = y.
Proof. apply String.eqb_eq. Qed.

Lemma key_eqb_eq (x y : list Z) : key_eqb x y = true <-> x = y.
Proof.
  revert y. induction x as [|a x IH]; intros [|b y]; simpl;
    try (split; [discriminate|discriminate]); [tauto|].
  rewrite Bool.andb_true_iff, Z.eqb_eq, IH. split.
  - intros [-> ->]. reflexivity.
  - intros H. injection H as -> ->. split; reflexivity.
Qed.

Lemma sql_eq_refl (d : DB) (a : string) : sql_eq d a a = true.
Proof. apply key_eqb_eq. reflexivity. Qed.

Lemma sql_eq_sym (d : DB) (a b : string) : sql_eq d a b = sql_eq d b a.
Proof.
  unfold sql_eq. destruct (key_eqb (sort_key d b) (sort_key d a)) eqn:E.
  - apply key_eqb_eq in E. rewrite E. apply key_eqb_eq. reflexivity.
  - destruct (key_eqb (sort_key d a) (sort_key d b)) eqn:E'; [|reflexivity].
    apply key_eqb_eq in E'. rewrite E' in E.
    rewrite (proj2 (key_eqb_eq _ _) eq_refl) in E. discriminate.
Qed.

Lemma schema_ok_parts (d : DB) :
  schema_ok d = true ->
  distinctb Z.eqb (map Customer.id (customers d)) = true
  /\ distinctb key_eqb
       (map (fun c => sort_key d (Customer.name c)) (customers d)) = true
  /\ distinctb Z.eqb (map Driver.id (drivers d)) = true.
Proof.
  unfold schema_ok. intros H.
  repeat (apply Bool.andb_true_iff in H as [H ?]). auto.
Qed.

Lemma tickets_with_driver_tickets (d : DB) :
  schema_ok d = true -> map row_ticket (tickets_with_driver d) = tickets d.
Proof.
  intros H. apply schema_ok_parts in H as (_ & _ & H).
  unfold tickets_with_driver. rewrite map_map. simpl.
  exact (left_join_fst Z.eqb Z.eqb_eq Ticket.driver_id Driver.id _ _ H).
Qed.

Lemma tickets_with_customer_tickets (d : DB) :
  schema_ok d = true -> map row_ticket (tickets_with_customer d) = tickets d.
Proof.
  intros H. apply schema_ok_parts in H as (_ & H & _).
  unfold tickets_with_customer. rewrite map_map. simpl.
  exact (left_join_fst key_eqb key_eqb_eq
           (fun t => sort_key d (Ticket.customer t))
           (fun c => sort_key d (Customer.name c)) _ _ H).
Qed.

(** ** Dates *)

Lemma date_leb_spec (a b : Date) :
  date_leb a b = true <->
  year a < year b
  \/ (year a = year b
      /\ (month a < month b \/ (month a = month b /\ day a <= day b))).
Proof.
  unfold date_leb.
  rewrite !Bool.orb_true_iff, !Bool.andb_true_iff, !Bool.orb_true_iff,
    !Bool.andb_true_iff, !Z.ltb_lt, !Z.eqb_eq, Z.leb_le.
  reflexivity.
Qed.

Lemma date_leb_total (a b : Date) : date_leb a b = false -> date_leb b a = true.
Proof.
  intros H. apply date_leb_spec.
  destruct (date_leb a b) eqn:E; [discriminate|].
  assert (N : ~ (year a < year b
                 \/ (year a = year b
                     /\ (month a < month b
                         \/ (month a = month b /\ day a <= day b)))))
    by (rewrite <- date_leb_spec, E; discriminate).
  lia.
Qed.

Lemma date_leb_trans (a b c : Date) :
  date_leb a b = true -> date_leb b c = true -> date_leb a c = true.
Proof. rewrite !date_leb_spec. lia. Qed.

Lemma sql_date_truthy (s : string) (d : Date) :
  sql_date s = Some d -> truthy_str s = true /\ dateRegex_test s = true.
Proof.
  unfold sql_date. destruct (dateRegex_test s) eqn:E; [|discriminate].
  intros _. split; [|reflexivity]. destruct s; [discriminate|reflexivity].
Qed.

(* ================================================================== *)
(** ** Invoices *)

Lemma sorted_by_date (l : list Ticket.t) :
  StronglySorted by_date (order_by ticket_date_leb l).
Proof.
  apply (order_by_sorted ticket_date_leb).
  - intros a b. apply date_leb_total.
  - intros a b c. apply date_leb_trans.
Qed.

Lemma invoice_tickets_tickets (name s e : string) (lo hi : Date) (d : DB) :
  schema_ok d = true ->
  sql_date s = Some lo ->
  sql_date e = Some hi ->
  map row_ticket (invoice_tickets name s e d)
  = order_by ticket_date_leb (filter (billable d name lo hi) (tickets d)).
Proof.
  intros Hok Hs He. unfold invoice_tickets.
  change date_asc
    with (fun a b => ticket_date_leb (row_ticket a) (row_ticket b)).
  rewrite order_by_map.
  rewrite (filter_ext (invoice_where d name s e)
                      (fun r => billable d name lo hi (row_ticket r))).
  - rewrite filter_map_comm, tickets_with_driver_tickets by exact Hok.
    reflexivity.
  - intros r. unfold invoice_where, billable, in_range, date_ge, date_le.
    rewrite Hs, He, !Bool.andb_assoc. reflexivity.
Qed.

Lemma generateInvoice_run (cid : Z) (s e : string) (c : Conn) :
  truthy_str s = true ->
  truthy_str e = true ->
  fst (generateInvoice (mkInvoiceQuery (Some cid) (Some s) (Some e)) c)
  = match find (fun cu => Customer.id cu =? cid) (customers (db c)) with
    | None => json 404 (Message false "Customer not found")
    | Some cu =>
        let tickets := invoice_tickets (Customer.name cu) s e (db c) in
        let subtotal :=
          sum_parsed (map Ticket.total_bill (map row_ticket tickets)) in
        json 200 (InvoiceData
          (mkInvoice (Customer.name cu) s e tickets subtotal
                     (subtotal * gst_rate)%float
                     (subtotal + subtotal * gst_rate)%float))
    end.
Proof.
  intros Hs He. unfold generateInvoice. run. rewrite Hs, He.
  cbn -[fold_left invoice_tickets].
  rewrite find_filter_head.
  destruct (filter (fun cu => Customer.id cu =? cid) (customers (db c)))
    as [|cu rest]; cbn -[fold_left invoice_tickets]; [reflexivity|].
  unfold sum_parsed. rewrite map_map, <- fold_left_map. reflexivity.
Qed.

(** C2 (as the code has it). For a customer id, and a range whose two
    bounds are dates: when the id is unknown the invoice fails with
    NotFoundError; when it is known the invoice succeeds and its tickets
    are exactly the tickets whose customer text the storage compares equal
    to the customer's name (under the collation of the column: by the
    weights of the characters, trailing spaces left out), whose status is
    Approved and whose date lies in the range (bounds included), in
    ascending order of date; subtotal is the sum of their total_bill, gst
    is subtotal * 0.05 and total is subtotal + gst; when no ticket matches
    the list is empty and subtotal, gst and total are zero. *)
Theorem generateInvoice_spec :
  forall (c : Conn) (cid : Z) (s e : string) (lo hi : Date),
    schema_ok (db c) = true ->
    sql_date s = Some lo ->
    sql_date e = Some hi ->
    let r := fst (generateInvoice (mkInvoiceQuery (Some cid) (Some s) (Some e)) c) in
    match find (fun cu => Customer.id cu =? cid) (customers (db c)) with
    | None => NotFoundError r
    | Some cu =>
        exists inv,
          r = json 200 (InvoiceData inv)
          /\ inv_customer inv = Customer.name cu
          /\ Permutation (map row_ticket (inv_tickets inv))
               (filter (billable (db c) (Customer.name cu) lo hi)
                       (tickets (db c)))
          /\ (forall t, In t (map row_ticket (inv_tickets inv)) <->
                In t (tickets (db c))
                /\ sort_key (db c) (Ticket.customer t)
                   = sort_key (db c) (Customer.name cu)
                /\ Ticket.status t = "Approved"
                /\ in_range lo hi (Ticket.date t) = true)
          /\ StronglySorted by_date (map row_ticket (inv_tickets inv))
          /\ subtotal inv
             = sum_parsed (map Ticket.total_bill (map row_ticket (inv_tickets inv)))
          /\ gst inv = (subtotal inv * gst_rate)%float
          /\ total inv = (subtotal inv + gst inv)%float
          /\ (filter (billable (db c) (Customer.name cu) lo hi)
                     (tickets (db c)) = [] ->
              inv_tickets inv = []
              /\ subtotal inv = 0%float /\ gst inv = 0%float
              /\ total inv = 0%float)
    end.
Proof.
  intros c cid s e lo hi Hok Hs He r. subst r.
  rewrite generateInvoice_run
    by (eapply sql_date_truthy; eassumption).
  destruct (find (fun cu => Customer.id cu =? cid) (customers (db c)))
    as [cu|]; [|reflexivity].
  pose proof (invoice_tickets_tickets (Customer.name cu) s e lo hi (db c)
                Hok Hs He) as Hsel.
  eexists. split; [reflexivity|]. cbn [inv_customer inv_tickets subtotal gst total].
  split; [reflexivity|].
  assert (Hperm : Permutation
            (map row_ticket (invoice_tickets (Customer.name cu) s e (db c)))
            (filter (billable (db c) (Customer.name cu) lo hi)
                    (tickets (db c)))).
  { rewrite Hsel. apply Permutation_sym, order_by_perm. }
  split; [exact Hperm|]. split.
  { intros t. split.
    - intros Hin. apply (Permutation_in _ Hperm) in Hin.
      apply filter_In in Hin as [Hin Hb]. unfold billable in Hb.
      apply Bool.andb_true_iff in Hb as [Hb Hr].
      apply Bool.andb_true_iff in Hb as [Hc Hst].
      apply key_eqb_eq in Hc. apply String.eqb_eq in Hst. auto.
    - intros (Hin & Hc & Hst & Hr).
      apply (Permutation_in _ (Permutation_sym Hperm)).
      apply filter_In. split; [exact Hin|]. unfold billable, sql_eq.
      rewrite Hc, Hst, Hr, String.eqb_refl.
      rewrite (proj2 (key_eqb_eq _ _) eq_refl). reflexivity. }
  split; [rewrite Hsel; apply sorted_by_date|].
  repeat (split; [reflexivity|]).
  intros Hnone.
  assert (Hnil : invoice_tickets (Customer.name cu) s e (db c) = []).
  { rewrite Hnone in Hsel. simpl in Hsel.
    destruct (invoice_tickets (Customer.name cu) s e (db c));
      [reflexivity|discriminate]. }
  rewrite Hnil. repeat split; reflexivity.
Qed.

(** C2 (the claim as it stands fails). On the sample data a driver
    submits a ticket for the customer text "aecon" and the ticket is
    approved; the invoice of the customer Aecon then bills it with the
    others, although its customer field is not the customer's name. *)
Lemma generateInvoice_other_spelling :
  exists inv,
    fst (generateInvoice
           (mkInvoiceQuery (Some 1) (Some "2025-11-01") (Some "2025-11-30"))
           (snd (updateTicketStatus 6 (Some "Approved")
                   (snd (createTicket (mkUser (Some 1) 11)
                           (mkForm (Some "2025-11-21") (Some "TRUCK-001")
                                   (Some "aecon") (Some "Dump") (Some "T-300")
                                   (Some 1%float) None) sample)))))
    = json 200 (InvoiceData inv)
    /\ map (fun r => (Ticket.id (row_ticket r), Ticket.customer (row_ticket r)))
           (inv_tickets inv)
       = [(4, "Aecon"); (1, "Aecon"); (6, "aecon")]
    /\ inv_customer inv = "Aecon"
    /\ String.eqb "aecon" "Aecon" = false.
Proof.
  eexists. split; [vm_compute; reflexivity|]. repeat split; reflexivity.
Qed.

Lemma generateInvoice_spec_witness :
  exists inv,
    fst (generateInvoice
           (mkInvoiceQuery (Some 1) (Some "2025-11-01") (Some "2025-11-30"))
           sample)
    = json 200 (InvoiceData inv)
    /\ map Ticket.id (map row_ticket (inv_tickets inv)) = [4; 1]
    /\ subtotal inv = 600%float
    /\ gst inv = 30%float
    /\ total inv = 630%float.
Proof.
  destruct (generateInvoice_spec sample 1 "2025-11-01" "2025-11-30"
              (mkDate 2025 11 1) (mkDate 2025 11 30) eq_refl eq_refl eq_refl)
    as (inv & Hr & _).
  exists inv. split; [exact Hr|].
  vm_compute in Hr. injection Hr as <-. vm_compute.
  repeat split; reflexivity.
Defined.

(* ================================================================== *)
(** ** Settlements *)

Lemma settlement_tickets_tickets (did : Z) (s e : string) (lo hi : Date)
    (d : DB) :
  schema_ok d = true ->
  sql_date s = Some lo ->
  sql_date e = Some hi ->
  map row_ticket (settlement_tickets did s e d)
  = order_by ticket_date_leb (filter (payable did lo hi) (tickets d)).
Proof.
  intros Hok Hs He. unfold settlement_tickets.
  change date_asc
    with (fun a b => ticket_date_leb (row_ticket a) (row_ticket b)).
  rewrite order_by_map.
  rewrite (filter_ext (settlement_where did s e)
                      (fun r => payable did lo hi (row_ticket r))).
  - rewrite filter_map_comm, tickets_with_customer_tickets by exact Hok.
    reflexivity.
  - intros r. unfold settlement_where, payable, in_range, date_ge, date_le.
    rewrite Hs, He, !Bool.andb_assoc. reflexivity.
Qed.

Lemma generateSettlement_run (did : Z) (s e : string) (c : Conn) :
  truthy_str s = true ->
  truthy_str e = true ->
  dateRegex_test s = true ->
  dateRegex_test e = true ->
  fst (generateSettlement (mkSettlementQuery (Some did) (Some s) (Some e)) c)
  = match find (fun dr => Driver.id dr =? did) (drivers (db c)) with
    | None => json 404 (Message false "Driver not found")
    | Some dr =>
        let tickets := settlement_tickets did s e (db c) in
        json 200 (SettlementData
          (mkSettlement
             (Driver.id dr, Driver.name dr, Driver.user_id_code dr) s e tickets
             (sum_parsed (map Ticket.total_pay (map row_ticket tickets)))))
    end.
Proof.
  intros Hs He Hrs Hre. unfold generateSettlement. run.
  rewrite Hs, He. cbn -[fold_left settlement_tickets dateRegex_test].
  rewrite Hrs, Hre. cbn -[fold_left settlement_tickets].
  rewrite find_filter_head.
  destruct (filter (fun dr => Driver.id dr =? did) (drivers (db c)))
    as [|dr rest]; cbn -[fold_left settlement_tickets]; [reflexivity|].
  unfold sum_parsed. rewrite map_map, <- fold_left_map. reflexivity.
Qed.

(** C3. For a driver id, and a range whose two bounds are dates: when the
    id is unknown the settlement fails with NotFoundError; when it is
    known the settlement succeeds and its tickets are exactly the tickets
    of that driver whose date lies in the range (bounds included),
    whatever their status, in ascending order of date, and totalPay is
    the sum of their total_pay. *)
Theorem generateSettlement_spec :
  forall (c : Conn) (did : Z) (s e : string) (lo hi : Date),
    schema_ok (db c) = true ->
    sql_date s = Some lo ->
    sql_date e = Some hi ->
    let r := fst (generateSettlement
                    (mkSettlementQuery (Some did) (Some s) (Some e)) c) in
    match find (fun dr => Driver.id dr =? did) (drivers (db c)) with
    | None => NotFoundError r
    | Some dr =>
        exists st,
          r = json 200 (SettlementData st)
          /\ Permutation (map row_ticket (set_tickets st))
               (filter (payable did lo hi) (tickets (db c)))
          /\ (forall t, In t (map row_ticket (set_tickets st)) <->
                In t (tickets (db c))
                /\ Ticket.driver_id t = did
                /\ in_range lo hi (Ticket.date t) = true)
          /\ StronglySorted by_date (map row_ticket (set_tickets st))
          /\ totalPay st
             = sum_parsed (map Ticket.total_pay (map row_ticket (set_tickets st)))
    end.
Proof.
  intros c did s e lo hi Hok Hs He r. subst r.
  destruct (sql_date_truthy s lo Hs) as [Hts Hrs].
  destruct (sql_date_truthy e hi He) as [Hte Hre].
  rewrite generateSettlement_run by assumption.
  destruct (find (fun dr => Driver.id dr =? did) (drivers (db c)))
    as [dr|]; [|reflexivity].
  pose proof (settlement_tickets_tickets did s e lo hi (db c) Hok Hs He)
    as Hsel.
  eexists. split; [reflexivity|]. cbn [set_tickets totalPay].
  assert (Hperm : Permutation
            (map row_ticket (settlement_tickets did s e (db c)))
            (filter (payable did lo hi) (tickets (db c)))).
  { rewrite Hsel. apply Permutation_sym, order_by_perm. }
  split; [exact Hperm|]. split.
  { intros t. split.
    - intros Hin. apply (Permutation_in _ Hperm) in Hin.
      apply filter_In in Hin as [Hin Hb]. unfold payable in Hb.
      apply Bool.andb_true_iff in Hb as [Hd Hr].
      apply Z.eqb_eq in Hd. auto.
    - intros (Hin & Hd & Hr).
      apply (Permutation_in _ (Permutation_sym Hperm)).
      apply filter_In. split; [exact Hin|]. unfold payable.
      rewrite Hd, Hr, Z.eqb_refl. reflexivity. }
  split; [rewrite Hsel; apply sorted_by_date|reflexivity].
Qed.

(** Driver 1 has one Approved, one Pending and one Rejected ticket in
    November 2025: the settlement pays the three, the invoice of their
    customer bills the Approved ones only. *)
Lemma generateSettlement_spec_witness :
  exists st,
    fst (generateSettlement
           (mkSettlementQuery (Some 1) (Some "2025-11-01") (Some "2025-11-30"))
           sample)
    = json 200 (SettlementData st)
    /\ map (fun r => (Ticket.id (row_ticket r), Ticket.status (row_ticket r)))
           (set_tickets st)
       = [(2, "Pending"); (3, "Rejected"); (1, "Approved")]
    /\ totalPay st = 180%float.
Proof.
  destruct (generateSettlement_spec sample 1 "2025-11-01" "2025-11-30"
              (mkDate 2025 11 1) (mkDate 2025 11 30) eq_refl eq_refl eq_refl)
    as (st & Hr & _).
  exists st. split; [exact Hr|].
  vm_compute in Hr. injection Hr as <-. vm_compute.
  repeat split; reflexivity.
Defined.

(* ================================================================== *)
(** ** The format of the dates *)

(** The settlement refuses dates that are missing or not YYYY-MM-DD, and
    executes nothing. *)
Lemma generateSettlement_format (q : SettlementQuery) (c : Conn) :
  match s_startDate q, s_endDate q with
  | Some s, Some e => dateRegex_test s && dateRegex_test e
  | _, _ => false
  end = false ->
  ValidationError (fst (generateSettlement q c))
  /\ snd (generateSettlement q c) = c.
Proof.
  destruct q as [[did|] [s|] [e|]]; unfold generateSettlement; run;
    intros H; try (split; reflexivity);
    repeat match goal with
    | |- context [truthy_str ?x] => destruct (truthy_str x); simpl
    | |- context [dateRegex_test ?x] =>
        destruct (dateRegex_test x) eqn:?; simpl
    end; try (split; reflexivity); discriminate.
Qed.

(** So does the download of an invoice. *)
Lemma downloadInvoice_format (q : InvoiceQuery) (c : Conn) :
  match startDate q, endDate q with
  | Some s, Some e => dateRegex_test s && dateRegex_test e
  | _, _ => false
  end = false ->
  ValidationError (fst (downloadInvoice q c))
  /\ snd (downloadInvoice q c) = c.
Proof.
  destruct q as [[cid|] [s|] [e|]]; unfold downloadInvoice; run;
    intros H; try (split; reflexivity);
    repeat match goal with
    | |- context [truthy_str ?x] => destruct (truthy_str x); simpl
    end; try (split; reflexivity);
    cbn -[dateRegex_test] in *;
    destruct (dateRegex_test s), (dateRegex_test e);
    try discriminate; split; reflexivity.
Qed.

(** The generation of an invoice does not look at the format: with a
    customer id and two non-empty texts it goes to the storage. *)
Lemma generateInvoice_reaches_storage (cid : Z) (s e : string) (c : Conn) :
  truthy_str s = true ->
  truthy_str e = true ->
  (queries c < queries (snd (generateInvoice
                               (mkInvoiceQuery (Some cid) (Some s) (Some e)) c)))%nat
  /\ ~ ValidationError (fst (generateInvoice
                               (mkInvoiceQuery (Some cid) (Some s) (Some e)) c)).
Proof.
  intros Hs He. unfold generateInvoice. run. rewrite Hs, He.
  cbn -[fold_left invoice_tickets].
  destruct (filter (fun cu => Customer.id cu =? cid) (customers (db c)));
    cbn -[fold_left invoice_tickets]; split; try lia;
    unfold ValidationError; simpl; discriminate.
Qed.

(** C8 (the code departs from it). On the sample data, the generation of
    an invoice with the start date "11/01/2025", which is not YYYY-MM-DD,
    is not refused: two statements are executed and the answer is no
    ValidationError; the download of the invoice and the settlement refuse
    the same dates with a ValidationError before any statement. *)
Theorem generateInvoice_unchecked_dates :
  let q := mkInvoiceQuery (Some 1) (Some "11/01/2025") (Some "2025-11-30") in
  dateRegex_test "11/01/2025" = false
  /\ ~ ValidationError (fst (generateInvoice q sample))
  /\ queries (snd (generateInvoice q sample)) = 2%nat
  /\ ValidationError (fst (downloadInvoice q sample))
  /\ snd (downloadInvoice q sample) = sample
  /\ ValidationError
       (fst (generateSettlement
               (mkSettlementQuery (Some 1) (Some "11/01/2025") (Some "2025-11-30"))
               sample))
  /\ snd (generateSettlement
            (mkSettlementQuery (Some 1) (Some "11/01/2025") (Some "2025-11-30"))
            sample) = sample.
Proof.
  cbv zeta. split; [reflexivity|]. split.
  { apply generateInvoice_reaches_storage; reflexivity. }
  split; [reflexivity|].
  pose proof (downloadInvoice_format
    (mkInvoiceQuery (Some 1) (Some "11/01/2025") (Some "2025-11-30"))
    sample eq_refl) as [H1 H2].
  pose proof (generateSettlement_format
    (mkSettlementQuery (Some 1) (Some "11/01/2025") (Some "2025-11-30"))
    sample eq_refl) as [H3 H4].
  auto.
Qed.

(* ================================================================== *)
(** ** Texts *)

Lemma string_len_ind (P : string -> Prop) :
  (forall s, (forall r, (String.length r < String.length s)%nat -> P r) -> P s) ->
  forall s, P s.
Proof.
  intros H s. remember (String.length s) as n eqn:E.
  revert s E. induction n as [n IH] using lt_wf_ind. intros s ->.
  apply H. intros r Hr. exact (IH _ Hr r eq_refl).
Qed.

(** One step of [trimStart]: the text starts with no white space and is
    left as it is, or a white space character is taken off its head. *)
Lemma trimStart_cases (s : string) :
  (starts_white s = false /\ trimStart s = s)
  \/ (exists r,
        (String.length r < String.length s)%nat
        /\ starts_white s = true
        /\ trimStart s = trimStart r
        /\ (forall w, trimStart (s ++ w) = trimStart (r ++ w))
        /\ (forall c, includes c s = false -> includes c r = false)).
Proof.
  destruct s as [|a s1]; [left; split; reflexivity|].
  cbn [starts_white trimStart append].
  destruct (is_space a) eqn:Ea.
  { right. exists s1. cbn [String.length includes].
    repeat split; try reflexivity; [lia|].
    intros c H. apply Bool.orb_false_iff in H as [_ H]. exact H. }
  destruct s1 as [|b s2]; [left; split; reflexivity|].
  cbn [append]. destruct (is_space2 a b) eqn:Eb.
  { right. exists s2. cbn [String.length includes orb].
    repeat split; try reflexivity; [lia|].
    intros c H. apply Bool.orb_false_iff in H as [_ H].
    apply Bool.orb_false_iff in H as [_ H]. exact H. }
  destruct s2 as [|c s3]; [left; split; reflexivity|].
  cbn [append]. destruct (is_space3 a b c) eqn:Ec.
  { right. exists s3. cbn [String.length includes orb].
    repeat split; try reflexivity; [lia|].
    intros x H. apply Bool.orb_false_iff in H as [_ H].
    apply Bool.orb_false_iff in H as [_ H].
    apply Bool.orb_false_iff in H as [_ H]. exact H. }
  left. split; reflexivity.
Qed.

Lemma trimStart_fixed (s : string) : starts_white s = false -> trimStart s = s.
Proof.
  intros H. destruct (trimStart_cases s) as [[_ E] | (r & _ & E & _)];
    [exact E|]. rewrite H in E. discriminate.
Qed.

Lemma starts_white_trimStart (s : string) : starts_white (trimStart s) = false.
Proof.
  induction s as [s IH] using string_len_ind.
  destruct (trimStart_cases s) as [[H ->] | (r & Hr & _ & -> & _)];
    [exact H|exact (IH r Hr)].
Qed.

Lemma includes_trimStart (c : ascii) (s : string) :
  includes c s = false -> includes c (trimStart s) = false.
Proof.
  induction s as [s IH] using string_len_ind. intros H.
  destruct (trimStart_cases s) as [[_ ->] | (r & Hr & _ & -> & _ & Hi)];
    [exact H|]. exact (IH r Hr (Hi c H)).
Qed.

(** White space in front of a text is taken off with that of the text. *)
Lemma trimStart_app_white (p w : string) :
  all_space p = true -> trimStart (p ++ w) = trimStart w.
Proof.
  induction p as [p IH] using string_len_ind. unfold all_space. intros H.
  destruct (trimStart_cases p) as [[_ E] | (r & Hr & _ & E & Ha & _)].
  - rewrite E in H. destruct p; [reflexivity|discriminate].
  - rewrite Ha. apply (IH r Hr). unfold all_space. rewrite <- E. exact H.
Qed.

(** What [trimEnd] takes off is white space. *)
Lemma trimEnd_split (s : string) :
  exists w, s = trimEnd s ++ w /\ all_space w = true.
Proof.
  induction s as [|c s IH]; [exists ""; split; reflexivity|].
  cbn [trimEnd]. destruct (all_space (String c s)) eqn:E.
  - exists (String c s). split; [reflexivity|exact E].
  - destruct IH as (w & Hw & Hs). exists w. split; [|exact Hs].
    cbn [append]. rewrite <- Hw. reflexivity.
Qed.

Lemma all_space_trimEnd (s : string) :
  all_space s = false -> all_space (trimEnd s) = false.
Proof.
  intros H. destruct (all_space (trimEnd s)) eqn:E; [|reflexivity].
  destruct (trimEnd_split s) as (w & Hw & Hs).
  unfold all_space in H, Hs. rewrite Hw in H.
  rewrite (trimStart_app_white _ w E) in H.
  destruct (trimStart w); discriminate.
Qed.

Lemma trimEnd_idem (s : string) : trimEnd (trimEnd s) = trimEnd s.
Proof.
  induction s as [|c s IH]; [reflexivity|].
  cbn [trimEnd]. destruct (all_space (String c s)) eqn:E; [reflexivity|].
  pose proof (all_space_trimEnd _ E) as E'. cbn [trimEnd] in E'.
  rewrite E in E'. cbn [trimEnd]. rewrite E', IH. reflexivity.
Qed.

(** [trimEnd] leaves the head of a text that starts with no white space
    as it is. *)
Lemma starts_white_trimEnd (s : string) :
  starts_white s = false -> starts_white (trimEnd s) = false.
Proof.
  destruct s as [|a [|b [|c s3]]]; cbn [trimEnd starts_white];
    repeat match goal with
           | |- context [all_space ?x] => destruct (all_space x)
           end;
    cbn [trimEnd starts_white]; intros H;
    repeat match type of H with
           | (_ || _)%bool = false =>
               apply Bool.orb_false_iff in H as [? H]
           end;
    repeat match goal with
           | E : _ = false |- _ => rewrite E; clear E
           end;
    try reflexivity;
    destruct (trimEnd s3); reflexivity.
Qed.

Lemma trim_idem (s : string) : trim (trim s) = trim s.
Proof.
  unfold trim.
  rewrite (trimStart_fixed (trimEnd (trimStart s)))
    by (apply starts_white_trimEnd, starts_white_trimStart).
  apply trimEnd_idem.
Qed.

(** A text that starts with no white space and is not empty has something
    left when trimmed. *)
Lemma trim_not_blank (s : string) :
  starts_white s = false -> s <> "" -> String.eqb (trim s) "" = false.
Proof.
  intros H Hs. unfold trim. rewrite (trimStart_fixed s H).
  destruct s as [|c r]; [contradiction Hs; reflexivity|].
  cbn [trimEnd]. unfold all_space. rewrite (trimStart_fixed _ H). reflexivity.
Qed.

Lemma includes_trimEnd (c : ascii) (s : string) :
  includes c s = false -> includes c (trimEnd s) = false.
Proof.
  induction s as [|d s IH]; [reflexivity|].
  intros H. cbn [trimEnd]. destruct (all_space (String d s)); [reflexivity|].
  cbn [includes] in *. apply Bool.orb_false_iff in H as [H1 H2].
  rewrite H1, (IH H2). reflexivity.
Qed.

(** No piece of a split holds the separator. *)
Lemma split_no_separator (c : ascii) (s : string) :
  Forall (fun p => includes c p = false) (split c s).
Proof.
  induction s as [|d s IH]; cbn [split]; [repeat constructor|].
  destruct (Ascii.eqb c d) eqn:E; [constructor; [reflexivity|exact IH]|].
  destruct (split c s) as [|p ps].
  - constructor; [|constructor]. cbn [includes]. rewrite E. reflexivity.
  - inversion IH as [|? ? Hp Hps]; subst. constructor; [|exact Hps].
    cbn [includes]. rewrite E, Hp. reflexivity.
Qed.

Lemma split_whole (c : ascii) (s : string) :
  includes c s = false -> split c s = [s].
Proof.
  induction s as [|d s IH]; [reflexivity|].
  cbn [includes split]. intros H. apply Bool.orb_false_iff in H as [H1 H2].
  rewrite H1, (IH H2). reflexivity.
Qed.

Lemma split_append (c : ascii) (x s : string) :
  includes c x = false ->
  split c (x ++ String c s) = x :: split c s.
Proof.
  induction x as [|d x IH]; intros H.
  - cbn [append split]. rewrite Ascii.eqb_refl. reflexivity.
  - cbn [includes] in H. apply Bool.orb_false_iff in H as [H1 H2].
    cbn [append split]. rewrite H1, (IH H2). reflexivity.
Qed.

Lemma includes_append (c : ascii) (x s : string) :
  includes c (x ++ String c s) = true.
Proof.
  induction x as [|d x IH]; cbn [append includes].
  - rewrite Ascii.eqb_refl. reflexivity.
  - rewrite IH. apply Bool.orb_true_r.
Qed.

(** Pieces that hold no comma, joined by commas, split back into
    themselves. *)
Lemma split_join_comma (x : string) (r : list string) :
  Forall (fun n => includes "," n = false) (x :: r) ->
  split "," (join "," (x :: r)) = x :: r.
Proof.
  revert x. induction r as [|y r IH]; intros x H.
  - inversion H; subst. cbn [join]. apply split_whole. assumption.
  - inversion H as [|? ? Hx Hr]; subst.
    change (join "," (x :: y :: r))
      with (x ++ String "," (join "," (y :: r))).
    rewrite (split_append "," x _ Hx), (IH y Hr). reflexivity.
Qed.

(** The joined names split back into the first name and the others behind
    one space. *)
Lemma split_join (x : string) (r : list string) :
  Forall (fun n => includes "," n = false) (x :: r) ->
  split "," (join ", " (x :: r)) = x :: map (String " ") r.
Proof.
  revert x. induction r as [|y r IH]; intros x H.
  - inversion H; subst. cbn [join map]. apply split_whole. assumption.
  - inversion H as [|? ? Hx Hr]; subst.
    change (join ", " (x :: y :: r))
      with (x ++ String "," (String " " (join ", " (y :: r)))).
    rewrite (split_append "," x _ Hx).
    change (split "," (String " " (join ", " (y :: r))))
      with (match split "," (join ", " (y :: r)) with
            | p :: ps => String " " p :: ps
            | [] => [String " " EmptyString]
            end).
    rewrite (IH y Hr). reflexivity.
Qed.

Lemma customerNames_clean (customer : string) :
  Forall clean_name (customerNames_of customer).
Proof.
  unfold customerNames_of. apply Forall_forall. intros n Hn.
  apply filter_In in Hn as [Hn Hlen].
  apply in_map_iff in Hn as (p & <- & Hp).
  pose proof (proj1 (Forall_forall _ _) (split_no_separator "," customer) p Hp)
    as Hc.
  repeat split.
  - unfold trim. apply includes_trimEnd, includes_trimStart, Hc.
  - apply trim_idem.
  - apply Nat.ltb_lt, Hlen.
Qed.

Lemma trim_after_space (n : string) : trim (String " " n) = trim n.
Proof. reflexivity. Qed.

Lemma customerNames_join (names : list string) :
  Forall clean_name names ->
  customerNames_of (join ", " names) = names.
Proof.
  intros H. destruct names as [|x r]; [reflexivity|].
  unfold customerNames_of. rewrite split_join.
  2:{ eapply Forall_impl; [|exact H]. intros n Hn. apply Hn. }
  cbn [map]. rewrite map_map.
  inversion H as [|? ? (Hx1 & Hx2 & Hx3) Hr]; subst.
  cbn [filter]. rewrite Hx2. apply Nat.ltb_lt in Hx3. rewrite Hx3. f_equal.
  clear -Hr. induction Hr as [|y r (Hy1 & Hy2 & Hy3) Hr IH]; [reflexivity|].
  cbn [map filter]. rewrite trim_after_space, Hy2.
  apply Nat.ltb_lt in Hy3. rewrite Hy3, IH. reflexivity.
Qed.

(** The names of a text are the pieces between its commas, trimmed, the
    empty ones left out. *)
Lemma customerNames_segments (segments : list string) :
  segments <> [] ->
  Forall (fun p => includes "," p = false) segments ->
  customerNames_of (join "," segments)
  = filter (fun n => (0 <? String.length n)%nat) (map trim segments).
Proof.
  intros Hne H. destruct segments as [|x r]; [contradiction Hne; reflexivity|].
  unfold customerNames_of. rewrite (split_join_comma x r H). reflexivity.
Qed.

(* ================================================================== *)
(** ** Rates of a new ticket *)

Lemma eqb_zero_cases (x : num) :
  PrimFloat.eqb x 0%float = true -> x = 0%float \/ x = neg_zero.
Proof.
  rewrite eqb_spec. intros H.
  assert (Hz : exists b, Prim2SF x = S754_zero b).
  { unfold SFeqb in H.
    destruct (Prim2SF x) as [b|b| |b m e]; simpl in H;
      try discriminate; try (destruct b; discriminate).
    exists b. reflexivity. }
  destruct Hz as [[|] Hb]; [right|left]; apply Prim2SF_inj; rewrite Hb;
    reflexivity.
Qed.

Lemma decimal_parseFloat (x : num) : decimal x = true -> parseFloat x = x.
Proof.
  intros H. unfold parseFloat.
  destruct (PrimFloat.eqb x 0%float) eqn:E; [|reflexivity].
  destruct (eqb_zero_cases x E) as [-> | ->]; [reflexivity|discriminate].
Qed.

Lemma decimal_or_zero (x : num) : decimal x = true -> or_zero x = x.
Proof.
  intros H. unfold or_zero, truthy_num.
  pose proof H as H'. unfold decimal in H'.
  apply Bool.andb_true_iff in H' as [Hn _].
  apply Bool.negb_true_iff in Hn. rewrite Hn. simpl.
  unfold is_zero. destruct (PrimFloat.eqb x zero) eqn:E; [|reflexivity].
  destruct (eqb_zero_cases x E) as [-> | ->]; [reflexivity|discriminate].
Qed.

Lemma sum_rates_decimal (l : list num) (z : num) :
  Forall (fun r => decimal r = true) l ->
  fold_left (fun sum c => (sum + or_zero (parseFloat c))%float) l z
  = fold_left PrimFloat.add l z.
Proof.
  intros H. revert z. induction H as [|x l Hx Hl IH]; intros z; simpl;
    [reflexivity|].
  rewrite (decimal_parseFloat x Hx), (decimal_or_zero x Hx). apply IH.
Qed.

(** The bill rate resolved from the rates found: their mean, and 0 when
    none is found. *)
Lemma resolve_billRate_mean (rates : list num) :
  Forall (fun r => decimal r = true) rates ->
  resolve_billRate rates
  = match rates with [] => 0%float | _ => mean rates end.
Proof.
  intros H. unfold resolve_billRate, mean.
  destruct rates as [|r rates]; [reflexivity|].
  cbn [List.length Nat.ltb Nat.leb]. rewrite sum_rates_decimal by exact H.
  reflexivity.
Qed.

(** What [createTicket] does for a driver that is found, a complete form,
    one customer name at least and a date of the calendar: it inserts the
    ticket when DECIMAL(10,2) takes the quantity, the bill rate and the
    two totals, and fails otherwise. *)
Lemma createTicket_run (user : User) (driver : Driver.t)
    (date truck customer equipment number : string) (quantity : num)
    (file : option string) (day : Date) (c : Conn) :
  find (fun dr => (Driver.id dr =? session_driver user)
                  || (Driver.user_id dr =? u_id user)) (drivers (db c))
  = Some driver ->
  customerNames_of customer <> [] ->
  sql_date date = Some day ->
  let names := customerNames_of customer in
  let billRate := resolve_billRate (bill_rates_of names (db c)) in
  let payRate := resolve_payRate driver in
  let totalBill := (parseFloat quantity * parseFloat billRate)%float in
  let totalPay := (parseFloat quantity * parseFloat payRate)%float in
  createTicket user
    (mkForm (Some date) (Some truck) (Some customer) (Some equipment)
            (Some number) (Some quantity) file) c
  = match decimal_10_2 quantity, decimal_10_2 billRate,
          decimal_10_2 totalBill, decimal_10_2 totalPay with
    | Some q, Some br, Some tb, Some tp =>
        (json 201 (TicketCreated (next_id (tickets (db c))) number "Pending"),
         mkConn
           (mkDB (tickets (db c)
                  ++ [Ticket.mk (next_id (tickets (db c))) (Driver.id driver)
                        day truck (join ", " names) None (Some equipment)
                        number q
                        (match file with
                         | Some filename => Some ("/uploads/" ++ filename)%string
                         | None => None end)
                        br payRate tb tp "Pending" (now c) (now c)])%list
                 (customers (db c)) (drivers (db c)) (weight (db c)))
           (now c) (S (S (S (queries c)))) (snapshot c))
    | _, _, _, _ =>
        (json 500 (Message false "Failed to create ticket"),
         mkConn (db c) (now c) (S (S (S (queries c)))) (snapshot c))
    end.
Proof.
  intros Hfind Hnames Hdate. cbv zeta.
  rewrite find_filter_head in Hfind.
  unfold createTicket, insert_ticket. run.
  destruct (filter _ (drivers (db c))) as [|dr rest]; [discriminate|].
  injection Hfind as ->.
  cbn -[customerNames_of resolve_billRate resolve_payRate bill_rates_of
        sql_date next_id join decimal_10_2 parseFloat PrimFloat.mul].
  destruct (customerNames_of customer) as [|n ns] eqn:E; [contradiction|].
  cbn -[customerNames_of resolve_billRate resolve_payRate bill_rates_of
        sql_date next_id join decimal_10_2 parseFloat PrimFloat.mul].
  rewrite Hdate.
  destruct (decimal_10_2 quantity); [|reflexivity].
  destruct (decimal_10_2 (resolve_billRate _)); [|reflexivity].
  destruct (decimal_10_2 (parseFloat quantity * parseFloat (resolve_billRate _))%float);
    [|reflexivity].
  destruct (decimal_10_2 (parseFloat quantity * parseFloat (resolve_payRate _))%float);
    reflexivity.
Qed.

(** A creation that answers 201 has inserted the row the columns keep. *)
Lemma createTicket_created (user : User) (driver : Driver.t)
    (date truck customer equipment number : string) (quantity : num)
    (file : option string) (day : Date) (c : Conn) :
  find (fun dr => (Driver.id dr =? session_driver user)
                  || (Driver.user_id dr =? u_id user)) (drivers (db c))
  = Some driver ->
  customerNames_of customer <> [] ->
  sql_date date = Some day ->
  code (fst (createTicket user
               (mkForm (Some date) (Some truck) (Some customer) (Some equipment)
                       (Some number) (Some quantity) file) c)) = 201 ->
  let names := customerNames_of customer in
  let billRate := resolve_billRate (bill_rates_of names (db c)) in
  let payRate := resolve_payRate driver in
  exists q br tb tp,
    decimal_10_2 quantity = Some q
    /\ decimal_10_2 billRate = Some br
    /\ decimal_10_2 (parseFloat quantity * parseFloat billRate)%float = Some tb
    /\ decimal_10_2 (parseFloat quantity * parseFloat payRate)%float = Some tp
    /\ createTicket user
         (mkForm (Some date) (Some truck) (Some customer) (Some equipment)
                 (Some number) (Some quantity) file) c
       = (json 201 (TicketCreated (next_id (tickets (db c))) number "Pending"),
          mkConn
            (mkDB (tickets (db c)
                   ++ [Ticket.mk (next_id (tickets (db c))) (Driver.id driver)
                         day truck (join ", " names) None (Some equipment)
                         number q
                         (match file with
                          | Some filename => Some ("/uploads/" ++ filename)%string
                          | None => None end)
                         br payRate tb tp "Pending" (now c) (now c)])%list
                  (customers (db c)) (drivers (db c)) (weight (db c)))
            (now c) (S (S (S (queries c)))) (snapshot c)).
Proof.
  intros Hfind Hnames Hdate. cbv zeta.
  rewrite (createTicket_run user driver date truck customer equipment number
             quantity file day c Hfind Hnames Hdate).
  cbv zeta.
  destruct (decimal_10_2 quantity) as [q|]; [|discriminate].
  destruct (decimal_10_2 (resolve_billRate _)) as [br|]; [|discriminate].
  destruct (decimal_10_2 (parseFloat quantity * parseFloat (resolve_billRate _))%float)
    as [tb|]; [|discriminate].
  destruct (decimal_10_2 (parseFloat quantity * parseFloat (resolve_payRate _))%float)
    as [tp|]; [|discriminate].
  intros _. exists q, br, tb, tp. repeat split; reflexivity.
Qed.

(** A creation that does not answer 201 has written nothing. *)
Lemma createTicket_unwritten (user : User) (driver : Driver.t)
    (date truck customer equipment number : string) (quantity : num)
    (file : option string) (day : Date) (c : Conn) :
  find (fun dr => (Driver.id dr =? session_driver user)
                  || (Driver.user_id dr =? u_id user)) (drivers (db c))
  = Some driver ->
  customerNames_of customer <> [] ->
  sql_date date = Some day ->
  code (fst (createTicket user
               (mkForm (Some date) (Some truck) (Some customer) (Some equipment)
                       (Some number) (Some quantity) file) c)) <> 201 ->
  db (snd (createTicket user
             (mkForm (Some date) (Some truck) (Some customer) (Some equipment)
                     (Some number) (Some quantity) file) c)) = db c.
Proof.
  intros Hfind Hnames Hdate.
  rewrite (createTicket_run user driver date truck customer equipment number
             quantity file day c Hfind Hnames Hdate).
  cbv zeta.
  destruct (decimal_10_2 quantity) as [q|]; [|reflexivity].
  destruct (decimal_10_2 (resolve_billRate _)) as [br|]; [|reflexivity].
  destruct (decimal_10_2 (parseFloat quantity * parseFloat (resolve_billRate _))%float)
    as [tb|]; [|reflexivity].
  destruct (decimal_10_2 (parseFloat quantity * parseFloat (resolve_payRate _))%float)
    as [tp|]; [|reflexivity].
  intros H. contradiction H. reflexivity.
Qed.

(** The revision with a job type, for a driver that is found and a
    complete form. *)
Lemma createTicket_job_run (user : User) (driver : Driver.t)
    (date truck customer job_type number : string) (quantity : num)
    (file : option string) (c : Conn) :
  find (fun dr => (Driver.id dr =? session_driver user)
                  || (Driver.user_id dr =? u_id user)) (drivers (db c))
  = Some driver ->
  let billRate :=
    match find (fun cu => sql_eq (db c) (Customer.name cu) customer)
               (customers (db c)) with
    | Some cu => Customer.default_bill_rate cu
    | None => 0%float
    end in
  let payRate := resolve_payRate driver in
  JobTypeRevision.createTicket user
    (JobTypeRevision.mkForm (Some date) (Some truck) (Some customer)
       (Some job_type) (Some number) (Some quantity) file) c
  = match sql_date date, decimal_10_2 quantity,
          decimal_10_2 (parseFloat quantity * parseFloat billRate)%float,
          decimal_10_2 (parseFloat quantity * parseFloat payRate)%float with
    | Some day, Some q, Some tb, Some tp =>
        (json 201 (TicketCreated (next_id (tickets (db c))) number "Pending"),
         mkConn
           (mkDB (tickets (db c)
                  ++ [Ticket.mk (next_id (tickets (db c))) (Driver.id driver)
                        day truck customer (Some job_type) None number q
                        (match file with
                         | Some filename => Some ("/uploads/" ++ filename)%string
                         | None => None end)
                        billRate payRate tb tp "Pending" (now c) (now c)])%list
                 (customers (db c)) (drivers (db c)) (weight (db c)))
           (now c) (S (S (S (queries c)))) (snapshot c))
    | _, _, _, _ =>
        (json 500 (Message false "Failed to create ticket"),
         mkConn (db c) (now c) (S (S (S (queries c)))) (snapshot c))
    end.
Proof.
  intros Hfind. cbv zeta.
  rewrite find_filter_head in Hfind.
  rewrite (find_filter_head
             (fun cu => sql_eq (db c) (Customer.name cu) customer)).
  unfold JobTypeRevision.createTicket, JobTypeRevision.bill_rates_of,
    insert_ticket. run.
  destruct (filter _ (drivers (db c))) as [|dr rest]; [discriminate|].
  injection Hfind as ->.
  cbn -[resolve_payRate sql_date next_id decimal_10_2 parseFloat
        PrimFloat.mul sql_eq].
  destruct (filter (fun cu => sql_eq (db c) (Customer.name cu) customer)
                   (customers (db c))) as [|cu others];
    cbn -[resolve_payRate sql_date next_id decimal_10_2 parseFloat
          PrimFloat.mul sql_eq];
    (destruct (sql_date date); [|reflexivity]);
    (destruct (decimal_10_2 quantity); [|reflexivity]);
    match goal with
    | |- context [decimal_10_2 (parseFloat quantity * parseFloat ?b)%float] =>
        destruct (decimal_10_2 (parseFloat quantity * parseFloat b)%float)
    end; try reflexivity;
    match goal with
    | |- context [decimal_10_2 (parseFloat quantity * parseFloat ?b)%float] =>
        destruct (decimal_10_2 (parseFloat quantity * parseFloat b)%float)
    end; reflexivity.
Qed.

(** C4 (as the code has it). For a session with a driver and a date of the
    calendar: in the revision that takes several customers, and for a
    customer text made of pieces between commas, the names are the
    pieces trimmed, the empty ones left out; with no name the creation
    is refused (400); with one name at least a ticket that is created
    holds as bill rate what the column keeps of the arithmetic mean of
    the default_bill_rate of the known customers whose name the storage
    compares equal to one of the names, and of 0 when there is none.  In
    the revision with a job type the text is one name: the ticket holds
    the default_bill_rate of the first customer whose name the storage
    compares equal to the whole text, and 0 when there is none.  In both
    the pay rate is the driver's default_pay_rate, and 0 when it is
    unset. *)
Theorem createTicket_rates :
  forall (user : User) (driver : Driver.t) (date truck number : string)
         (quantity : num) (file : option string) (day : Date) (c : Conn),
    find (fun dr => (Driver.id dr =? session_driver user)
                    || (Driver.user_id dr =? u_id user)) (drivers (db c))
    = Some driver ->
    sql_date date = Some day ->
    (forall (segments : list string) (equipment : string),
       segments <> [] ->
       Forall (fun p => includes "," p = false) segments ->
       let names :=
         filter (fun n => (0 <? String.length n)%nat) (map trim segments) in
       let rates :=
         map Customer.default_bill_rate
             (filter (fun cu => existsb (sql_eq (db c) (Customer.name cu)) names)
                     (customers (db c))) in
       let r := createTicket user
                  (mkForm (Some date) (Some truck) (Some (join "," segments))
                          (Some equipment) (Some number) (Some quantity) file)
                  c in
       (names = [] -> ValidationError (fst r) /\ db (snd r) = db c)
       /\ (names <> [] ->
           Forall (fun x => decimal x = true) rates ->
           code (fst r) = 201 ->
           exists t,
             tickets (db (snd r)) = (tickets (db c) ++ [t])%list
             /\ decimal_10_2 (match rates with
                             | [] => 0%float
                             | _ => mean rates
                             end) = Some (Ticket.bill_rate t)
             /\ (forall p, Driver.default_pay_rate driver = Some p ->
                           decimal p = true -> Ticket.pay_rate t = p)
             /\ (Driver.default_pay_rate driver = None ->
                 Ticket.pay_rate t = 0%float)))
    /\ (forall (customer job_type : string),
          let r := JobTypeRevision.createTicket user
                     (JobTypeRevision.mkForm (Some date) (Some truck)
                        (Some customer) (Some job_type) (Some number)
                        (Some quantity) file) c in
          code (fst r) = 201 ->
          exists t,
            tickets (db (snd r)) = (tickets (db c) ++ [t])%list
            /\ Ticket.customer t = customer
            /\ Ticket.bill_rate t
               = match find (fun cu => sql_eq (db c) (Customer.name cu) customer)
                            (customers (db c)) with
                 | Some cu => Customer.default_bill_rate cu
                 | None => 0%float
                 end
            /\ (forall p, Driver.default_pay_rate driver = Some p ->
                          decimal p = true -> Ticket.pay_rate t = p)
            /\ (Driver.default_pay_rate driver = None ->
                Ticket.pay_rate t = 0%float)).
Proof.
  intros user driver date truck number quantity file day c Hfind Hdate.
  assert (Hpay : (forall p, Driver.default_pay_rate driver = Some p ->
                            decimal p = true -> resolve_payRate driver = p)
                 /\ (Driver.default_pay_rate driver = None ->
                     resolve_payRate driver = 0%float)).
  { unfold resolve_payRate. split.
    - intros p -> Hp. apply decimal_or_zero, Hp.
    - intros ->. reflexivity. }
  split.
  - intros segments equipment Hne Hseg names rates r.
    pose proof (customerNames_segments segments Hne Hseg) as Hnames.
    fold names in Hnames. split.
    + intros Hnil. subst r. unfold createTicket. run.
      rewrite find_filter_head in Hfind.
      destruct (filter _ (drivers (db c))) as [|dr rest]; [discriminate|].
      cbn -[customerNames_of join]. rewrite Hnames, Hnil.
      split; reflexivity.
    + intros Hsome Hdec H201. subst r.
      assert (Hn : customerNames_of (join "," segments) <> [])
        by (rewrite Hnames; exact Hsome).
      destruct (createTicket_created user driver date truck (join "," segments)
                  equipment number quantity file day c Hfind Hn Hdate H201)
        as (q & br & tb & tp & Hq & Hbr & _ & _ & Hrun).
      rewrite Hrun. eexists. split; [reflexivity|].
      cbn [Ticket.bill_rate Ticket.pay_rate]. split; [|exact Hpay].
      rewrite <- Hbr, Hnames.
      change (bill_rates_of names (db c)) with rates.
      rewrite resolve_billRate_mean by exact Hdec. reflexivity.
  - intros customer job_type r H201. subst r.
    rewrite (createTicket_job_run user driver date truck customer job_type
               number quantity file c Hfind) in *.
    cbv zeta in *. rewrite Hdate in *.
    destruct (decimal_10_2 quantity); [|discriminate].
    destruct (decimal_10_2 (parseFloat quantity * parseFloat _)%float);
      [|discriminate].
    destruct (decimal_10_2 (parseFloat quantity * parseFloat _)%float);
      [|discriminate].
    eexists. split; [reflexivity|].
    cbn [Ticket.customer Ticket.bill_rate Ticket.pay_rate].
    split; [reflexivity|]. split; [reflexivity|]. exact Hpay.
Qed.

(** In the revision that takes several customers a ticket for the
    customers {Aecon: 100, PCL Construction: 200} gets the bill rate 150,
    the mean, and not 300, and one for an unknown customer gets 0; in the
    revision with a job type a ticket for Aecon gets 100; the pay rate is
    the driver's 30, and 0 for the driver that has none. *)
Lemma createTicket_rates_witness :
  (exists t,
     tickets (db (snd (createTicket (mkUser (Some 1) 11)
        (mkForm (Some "2025-12-01") (Some "TRUCK-001")
                (Some "Aecon , PCL Construction,") (Some "Dump") (Some "T-200")
                (Some 2%float) None) sample)))
     = (tickets sample_db ++ [t])%list
     /\ Ticket.bill_rate t = 150%float
     /\ Ticket.pay_rate t = 30%float)
  /\ (exists t,
        tickets (db (snd (JobTypeRevision.createTicket (mkUser (Some 1) 11)
           (JobTypeRevision.mkForm (Some "2025-12-01") (Some "TRUCK-001")
                   (Some "Aecon") (Some "Haul") (Some "T-201")
                   (Some 2%float) None) sample)))
        = (tickets sample_db ++ [t])%list
        /\ Ticket.bill_rate t = 100%float
        /\ Ticket.pay_rate t = 30%float).
Proof.
  destruct (createTicket_rates (mkUser (Some 1) 11) jo "2025-12-01" "TRUCK-001"
              "T-200" 2%float None (mkDate 2025 12 1) sample eq_refl eq_refl)
    as [H1 _].
  destruct (createTicket_rates (mkUser (Some 1) 11) jo "2025-12-01" "TRUCK-001"
              "T-201" 2%float None (mkDate 2025 12 1) sample eq_refl eq_refl)
    as [_ H2].
  split.
  - destruct (H1 ["Aecon "; " PCL Construction"; ""] "Dump") as [_ H].
    + discriminate.
    + repeat constructor.
    + destruct H as (t & Ht & Hb & Hp & _).
      * vm_compute. discriminate.
      * repeat constructor.
      * reflexivity.
      * exists t. split; [exact Ht|].
        change (decimal_10_2 _) with (Some 150%float) in Hb.
        injection Hb as <-. split; [reflexivity|].
        apply (Hp 30%float); reflexivity.
  - destruct (H2 "Aecon" "Haul") as (t & Ht & _ & Hb & Hp & _);
      [reflexivity|].
    exists t. split; [exact Ht|]. split; [exact Hb|].
    apply (Hp 30%float); reflexivity.
Defined.

(** C4 (the claim as it stands fails). In the revision with a job type
    the text "Aecon, PCL Construction", whose names are the two customers
    of the sample data with the rates 100 and 200, is looked up as one
    name: no customer has it, and the ticket is created with the bill
    rate 0, where the mean is 150. *)
Lemma createTicket_whole_text :
  let r := JobTypeRevision.createTicket (mkUser (Some 1) 11)
             (JobTypeRevision.mkForm (Some "2025-12-01") (Some "TRUCK-001")
                (Some "Aecon, PCL Construction") (Some "Haul") (Some "T-202")
                (Some 2%float) None) sample in
  customerNames_of "Aecon, PCL Construction" = ["Aecon"; "PCL Construction"]
  /\ bill_rates_of ["Aecon"; "PCL Construction"] sample_db
     = [100%float; 200%float]
  /\ code (fst r) = 201
  /\ map Ticket.bill_rate (skipn 5 (tickets (db (snd r)))) = [0%float].
Proof. vm_compute. repeat split; reflexivity. Qed.

(* ================================================================== *)
(** ** The period filter of the ticket list *)

Lemma read_digits_nonneg (s : string) (acc : Z) (seen : bool) :
  0 <= acc -> 0 <= fst (read_digits s acc seen).
Proof.
  revert acc seen. induction s as [|c s IH]; intros acc seen H;
    cbn [read_digits fst]; [exact H|].
  destruct (is_digit c) eqn:E; [|exact H].
  apply IH. unfold is_digit in E. unfold digit_val.
  apply Bool.andb_true_iff in E as [E _]. apply Nat.leb_le in E. lia.
Qed.

Lemma parseInt_nonneg (s : string) (n : Z) :
  includes "-" s = false -> parseInt s = Some n -> 0 <= n.
Proof.
  intros Hs. apply includes_trimStart in Hs. unfold parseInt.
  destruct (trimStart s) as [|ch rest].
  - simpl. discriminate.
  - cbn [includes] in Hs. apply Bool.orb_false_iff in Hs as [Hch _].
    assert (Hcase :
              (let '(neg, s0) :=
                 match String ch rest with
                 | String "-" s' => (true, s')
                 | String "+" s' => (false, s')
                 | _ => (false, String ch rest)
                 end in
               match read_digits s0 0 false with
               | (n0, true) => Some (if neg then - n0 else n0)
               | (_, false) => None
               end) = Some n ->
              exists s0, read_digits s0 0 false = (n, true)).
    { destruct ch as [[|] [|] [|] [|] [|] [|] [|] [|]];
        try discriminate Hch;
        cbv zeta; cbv iota beta;
        match goal with
        | |- context [read_digits ?x 0 false] =>
            destruct (read_digits x 0 false) as [n0 [|]] eqn:E;
            intros H; try discriminate H; injection H as <-;
            exists x; exact E
        end. }
    intros H. destruct (Hcase H) as [s0 E].
    pose proof (read_digits_nonneg s0 0 false (Z.le_refl 0)) as Hn.
    rewrite E in Hn. exact Hn.
Qed.

Lemma split_keeps_absent (c d : ascii) (s : string) :
  includes c s = false ->
  Forall (fun p => includes c p = false) (split d s).
Proof.
  induction s as [|a s IH]; intros H; cbn [split]; [repeat constructor|].
  cbn [includes] in H. apply Bool.orb_false_iff in H as [Ha Hs].
  specialize (IH Hs).
  destruct (Ascii.eqb d a); [constructor; [reflexivity|exact IH]|].
  destruct (split d s) as [|p ps].
  - constructor; [|constructor]. cbn [includes]. rewrite Ha. reflexivity.
  - inversion IH as [|? ? Hp Hps]; subst. constructor; [|exact Hps].
    cbn [includes]. rewrite Ha, Hp. reflexivity.
Qed.

Lemma nth_str_absent (c : ascii) (l : list string) (n : nat) :
  Forall (fun p => includes c p = false) l ->
  includes c (nth_str l n) = false.
Proof.
  intros H. unfold nth_str. revert n.
  induction H as [|p l Hp Hl IH]; intros [|n]; simpl; auto.
Qed.

(** A digit is no sign and starts no white space. *)
Lemma digit_plain (c : ascii) :
  is_digit c = true ->
  Ascii.eqb "-" c = false /\ Ascii.eqb " " c = false
  /\ is_space c = false
  /\ (forall b, is_space2 c b = false)
  /\ (forall b d, is_space3 c b d = false)
  /\ (forall (A : Type) (x y z : A),
        match c with "-"%char => x | "+"%char => y | _ => z end = z).
Proof.
  destruct c as [[|] [|] [|] [|] [|] [|] [|] [|]]; intros H;
    try discriminate H; repeat split; reflexivity.
Qed.

(** The bytes that continue a white space character are not ASCII. *)
Lemma is_space2_ascii (a b : ascii) :
  (nat_of_ascii b <? 128)%nat = true -> is_space2 a b = false.
Proof.
  intros H. apply Nat.ltb_lt in H. unfold is_space2.
  replace (nat_of_ascii b =? 160)%nat with false
    by (symmetry; apply Nat.eqb_neq; lia).
  apply Bool.andb_false_r.
Qed.

Lemma is_space3_ascii_mid (a b c : ascii) :
  (nat_of_ascii b <? 128)%nat = true -> is_space3 a b c = false.
Proof.
  intros H. apply Nat.ltb_lt in H. unfold is_space3. cbv zeta.
  replace (nat_of_ascii b =? 154)%nat with false
    by (symmetry; apply Nat.eqb_neq; lia).
  replace (nat_of_ascii b =? 128)%nat with false
    by (symmetry; apply Nat.eqb_neq; lia).
  replace (nat_of_ascii b =? 129)%nat with false
    by (symmetry; apply Nat.eqb_neq; lia).
  replace (nat_of_ascii b =? 187)%nat with false
    by (symmetry; apply Nat.eqb_neq; lia).
  rewrite !Bool.andb_false_r. reflexivity.
Qed.

Lemma is_space3_ascii (a b c : ascii) :
  (nat_of_ascii c <? 128)%nat = true -> is_space3 a b c = false.
Proof.
  intros H. apply Nat.ltb_lt in H. unfold is_space3. cbv zeta.
  replace (nat_of_ascii c =? 128)%nat with false
    by (symmetry; apply Nat.eqb_neq; lia).
  replace (128 <=? nat_of_ascii c)%nat with false
    by (symmetry; apply Nat.leb_gt; lia).
  replace (nat_of_ascii c =? 168)%nat with false
    by (symmetry; apply Nat.eqb_neq; lia).
  replace (nat_of_ascii c =? 169)%nat with false
    by (symmetry; apply Nat.eqb_neq; lia).
  replace (nat_of_ascii c =? 175)%nat with false
    by (symmetry; apply Nat.eqb_neq; lia).
  replace (nat_of_ascii c =? 159)%nat with false
    by (symmetry; apply Nat.eqb_neq; lia).
  replace (nat_of_ascii c =? 191)%nat with false
    by (symmetry; apply Nat.eqb_neq; lia).
  cbn [andb orb]. rewrite !Bool.andb_false_r. reflexivity.
Qed.

Lemma numeral_head (s : string) :
  numeral s = true ->
  exists c r, s = String c r /\ is_digit c = true /\ (r = "" \/ numeral r = true).
Proof.
  destruct s as [|c r]; [discriminate|]. unfold numeral. cbn [truthy_str andb].
  intros H. apply Bool.andb_true_iff in H as [Hc Hr].
  exists c, r. split; [reflexivity|]. split; [exact Hc|].
  destruct r as [|d r]; [left; reflexivity|right].
  unfold numeral. cbn [truthy_str andb]. exact Hr.
Qed.

Lemma numeral_absent (x : ascii) (s : string) :
  (forall c, is_digit c = true -> Ascii.eqb x c = false) ->
  numeral s = true -> includes x s = false.
Proof.
  intros Hx. induction s as [|c r IH]; [reflexivity|].
  intros H. destruct (numeral_head _ H) as (c' & r' & E & Hc & Hr).
  injection E as <- <-. cbn [includes]. rewrite (Hx c Hc).
  destruct Hr as [-> | Hr]; [reflexivity|exact (IH Hr)].
Qed.

Lemma read_digits_seen (s : string) (acc : Z) :
  snd (read_digits s acc true) = true.
Proof.
  revert acc. induction s as [|c r IH]; intros acc; [reflexivity|].
  cbn [read_digits]. destruct (is_digit c); [apply IH|reflexivity].
Qed.

Lemma read_digits_flag (s : string) (acc : Z) (seen : bool) :
  fst (read_digits s acc seen) = fst (read_digits s acc true).
Proof.
  revert acc seen. induction s as [|c r IH]; intros acc seen; [reflexivity|].
  cbn [read_digits]. destruct (is_digit c); reflexivity.
Qed.

(** [parseInt] reads a numeral as the number it writes. *)
Lemma parseInt_numeral (s : string) :
  numeral s = true -> parseInt s = Some (numeral_value s).
Proof.
  intros H. destruct (numeral_head _ H) as (c & r & -> & Hc & _).
  destruct (digit_plain c Hc) as (_ & _ & H1 & H2 & H3 & Hm).
  unfold parseInt, numeral_value.
  rewrite trimStart_fixed.
  2:{ cbn [starts_white]. rewrite H1. destruct r as [|b [|d r]];
        cbn [orb]; rewrite ?H2, ?H3; reflexivity. }
  rewrite Hm. cbn [read_digits]. rewrite Hc.
  rewrite (surjective_pairing (read_digits r (10 * 0 + digit_val c) true)).
  rewrite read_digits_seen. reflexivity.
Qed.

Lemma numeral_not_blank (s rest : string) :
  numeral s = true ->
  truthy_str (s ++ rest) && negb (String.eqb (trim (s ++ rest)) "") = true.
Proof.
  intros H. destruct (numeral_head _ H) as (c & r & -> & Hc & _).
  destruct (digit_plain c Hc) as (_ & _ & H1 & H2 & H3 & _).
  cbn [append truthy_str andb]. rewrite trim_not_blank; [reflexivity| |discriminate].
  cbn [starts_white]. rewrite H1. destruct (r ++ rest) as [|b [|d r']];
    cbn [orb]; rewrite ?H2, ?H3; reflexivity.
Qed.

Section Period.

Variable Date_getMonth : string -> option Z.

Lemma params_bound (cs : list Clause) :
  filter is_bound (flat_map params_of cs) = flat_map params_of cs.
Proof.
  induction cs as [|cl cs IH]; [reflexivity|].
  cbn [flat_map]. rewrite filter_app, IH. destruct cl; reflexivity.
Qed.

(** The list never fails on its parameters: it answers the rows the
    clauses select. *)
Lemma getAllTickets_run (q : TicketQuery) (c : Conn) :
  getAllTickets Date_getMonth q c
  = (json 200 (TicketList
       (order_by date_desc_created_desc
          (filter (fun r => forallb (holds (db c) r) (clauses Date_getMonth q))
                  (tickets_with_driver_customer (db c))))),
     tick c).
Proof.
  unfold getAllTickets. unfold handler, bind, select, ret.
  rewrite params_bound, Nat.eqb_refl. reflexivity.
Qed.

(** Two period tokens that resolve alike select alike. *)
Lemma getAllTickets_same_period (m1 m2 customer driver status search : option string)
    (c : Conn) :
  period Date_getMonth m1 = period Date_getMonth m2 ->
  getAllTickets Date_getMonth (mkTicketQuery m1 customer driver status search) c
  = getAllTickets Date_getMonth (mkTicketQuery m2 customer driver status search) c.
Proof.
  intros H. rewrite !getAllTickets_run. unfold clauses.
  cbn [q_month q_customer q_driver q_status q_search]. rewrite H. reflexivity.
Qed.

Lemma period_iso : period Date_getMonth (Some "2025-11") = Some (11, 2025).
Proof. reflexivity. Qed.

Lemma period_garbage : period Date_getMonth (Some "garbage") = None.
Proof. reflexivity. Qed.

Lemma period_named :
  Date_getMonth "November 1, 2025" = Some 10 ->
  period Date_getMonth (Some "November 2025") = Some (11, 2025).
Proof.
  intros H. vm_compute. vm_compute in H. rewrite H. reflexivity.
Qed.

(** The month and year a token of the form [<numeral>-<numeral>] resolves
    to: those the numerals write, when the month is one of the twelve and
    the year is not 0; none otherwise. *)
Lemma period_numerals (Y M : string) :
  numeral Y = true -> numeral M = true ->
  period Date_getMonth (Some (Y ++ "-" ++ M))
  = if (1 <=? numeral_value M) && (numeral_value M <=? 12)
       && negb (numeral_value Y =? 0)
    then Some (numeral_value M, numeral_value Y) else None.
Proof.
  intros HY HM.
  assert (Hd : forall c, is_digit c = true -> Ascii.eqb "-" c = false)
    by (intros c Hc; apply (digit_plain c Hc)).
  pose proof (numeral_absent "-" Y Hd HY) as HYd.
  pose proof (numeral_absent "-" M Hd HM) as HMd.
  unfold period. rewrite (numeral_not_blank Y ("-" ++ M) HY).
  change (Y ++ "-" ++ M) with (Y ++ String "-" M).
  rewrite includes_append, (split_append "-" Y M HYd), (split_whole "-" M HMd).
  cbn [List.length Nat.eqb nth_str nth andb].
  assert (HYt : truthy_str Y = true) by (destruct Y; [discriminate|reflexivity]).
  assert (HMt : truthy_str M = true) by (destruct M; [discriminate|reflexivity]).
  rewrite HYt, HMt, (parseInt_numeral Y HY), (parseInt_numeral M HM).
  cbn [andb].
  destruct (numeral_value M =? 0) eqn:E0, (numeral_value Y =? 0) eqn:E1,
           (1 <=? numeral_value M) eqn:E2, (numeral_value M <=? 12) eqn:E3;
    cbn [negb andb]; try reflexivity.
  apply Z.eqb_eq in E0. apply Z.leb_le in E2. lia.
Qed.

(** The month and year a token of the form [<name> <numeral>] resolves
    to: the month after the one the engine reads from the text
    [<name> 1, <year>], with the year the numeral writes, when that month
    is one of the twelve and the year is not 0; none otherwise, and none
    when the engine reads no date. *)
Lemma period_name (name Y : string) :
  name <> "" -> starts_white name = false ->
  includes " " name = false -> includes "-" name = false ->
  numeral Y = true ->
  period Date_getMonth (Some (name ++ " " ++ Y))
  = match Date_getMonth
            (name ++ " 1, " ++ show_int (Some (numeral_value Y))) with
    | Some m =>
        if (0 <=? m) && (m <=? 11) && negb (numeral_value Y =? 0)
        then Some (m + 1, numeral_value Y) else None
    | None => None
    end.
Proof.
  intros Hne Hw Hsp Hdash HY.
  assert (Hd : forall c, is_digit c = true -> Ascii.eqb "-" c = false)
    by (intros c Hc; apply (digit_plain c Hc)).
  assert (Hs : forall c, is_digit c = true -> Ascii.eqb " " c = false)
    by (intros c Hc; apply (digit_plain c Hc)).
  pose proof (numeral_absent "-" Y Hd HY) as HYd.
  pose proof (numeral_absent " " Y Hs HY) as HYs.
  assert (HYt : truthy_str Y = true) by (destruct Y; [discriminate|reflexivity]).
  assert (Hnt : truthy_str name = true)
    by (destruct name; [contradiction Hne|]; reflexivity).
  assert (Hall : includes "-" (name ++ " " ++ Y) = false).
  { clear -Hdash HYd. induction name as [|a n IH].
    - cbn [append includes Ascii.eqb]. exact HYd.
    - cbn [append includes] in *.
      apply Bool.orb_false_iff in Hdash as [H1 H2].
      rewrite H1. exact (IH H2). }
  assert (Hblank : truthy_str (name ++ " " ++ Y)
                   && negb (String.eqb (trim (name ++ " " ++ Y)) "") = true).
  { destruct name as [|a n]; [contradiction Hne; reflexivity|].
    cbn [append truthy_str andb].
    rewrite trim_not_blank; [reflexivity| |discriminate].
    cbn [starts_white] in *.
    apply Bool.orb_false_iff in Hw as [H1 Hw]. rewrite H1. cbn [orb].
    destruct n as [|b [|d n]]; cbn [append].
    - rewrite (is_space2_ascii a " " eq_refl). cbn [orb].
      destruct Y; [reflexivity|apply is_space3_ascii_mid; reflexivity].
    - apply Bool.orb_false_iff in Hw as [H2 _]. rewrite H2. cbn [orb].
      apply is_space3_ascii. reflexivity.
    - exact Hw. }
  unfold period. rewrite Hblank, Hall.
  change (name ++ " " ++ Y) with (name ++ String " " Y).
  rewrite (split_append " " name Y Hsp), (split_whole " " Y HYs).
  cbn [List.length Nat.leb Nat.sub nth_str nth andb].
  rewrite Hnt, HYt, (parseInt_numeral Y HY). cbn [andb].
  destruct (Date_getMonth (name ++ " 1, " ++ show_int (Some (numeral_value Y))))
    as [m|]; [|reflexivity].
  destruct (m + 1 =? 0) eqn:E0, (numeral_value Y =? 0) eqn:E1,
           (1 <=? m + 1) eqn:E2, (m + 1 <=? 12) eqn:E3,
           (0 <=? m) eqn:E4, (m <=? 11) eqn:E5;
    cbn [negb andb]; try reflexivity;
    repeat match goal with
           | H : (_ =? _) = true |- _ => apply Z.eqb_eq in H
           | H : (_ =? _) = false |- _ => apply Z.eqb_neq in H
           | H : (_ <=? _) = true |- _ => apply Z.leb_le in H
           | H : (_ <=? _) = false |- _ => apply Z.leb_gt in H
           end; lia.
Qed.

End Period.

(** C5. On an engine that reads "November 1, 2025" as a date of November,
    and for any other filters on the same data: the ticket list for the
    period "2025-11" and the one for "November 2025" are the same (both
    resolve to month 11 of 2025); the list for the period "garbage", and
    for any token that resolves to no month and year, is the list without
    a period filter; whatever the token the list is answered with success,
    never an error.  A token made of two numerals and a dash resolves to
    the month and the year they write exactly when the month is one of 1
    to 12 and the year is not 0, and is ignored otherwise; a token made of
    a name, a space and a numeral resolves to the month after the one the
    engine reads, under the same condition, and is ignored otherwise. *)
Theorem getAllTickets_period :
  forall (Date_getMonth : string -> option Z)
         (customer driver status search : option string) (c : Conn),
    Date_getMonth "November 1, 2025" = Some 10 ->
    let list m :=
      getAllTickets Date_getMonth
        (mkTicketQuery m customer driver status search) c in
    list (Some "2025-11") = list (Some "November 2025")
    /\ period Date_getMonth (Some "2025-11") = Some (11, 2025)
    /\ period Date_getMonth (Some "November 2025") = Some (11, 2025)
    /\ list (Some "garbage") = list None
    /\ Success (fst (list (Some "garbage")))
    /\ (forall token,
          period Date_getMonth (Some token) = None ->
          list (Some token) = list None
          /\ Success (fst (list (Some token))))
    /\ (forall token, Success (fst (list token)))
    /\ (forall Y M,
          numeral Y = true -> numeral M = true ->
          if (1 <=? numeral_value M) && (numeral_value M <=? 12)
             && negb (numeral_value Y =? 0)
          then period Date_getMonth (Some (Y ++ "-" ++ M))
               = Some (numeral_value M, numeral_value Y)
          else list (Some (Y ++ "-" ++ M)) = list None)
    /\ (forall name Y,
          name <> "" -> starts_white name = false ->
          includes " " name = false -> includes "-" name = false ->
          numeral Y = true ->
          match Date_getMonth
                  (name ++ " 1, " ++ show_int (Some (numeral_value Y))) with
          | Some m =>
              if (0 <=? m) && (m <=? 11) && negb (numeral_value Y =? 0)
              then period Date_getMonth (Some (name ++ " " ++ Y))
                   = Some (m + 1, numeral_value Y)
              else list (Some (name ++ " " ++ Y)) = list None
          | None => list (Some (name ++ " " ++ Y)) = list None
          end).
Proof.
  intros eng customer driver status search c H list. subst list.
  assert (Hnone : forall token,
            period eng (Some token) = None ->
            getAllTickets eng
              (mkTicketQuery (Some token) customer driver status search) c
            = getAllTickets eng
                (mkTicketQuery None customer driver status search) c).
  { intros token Htok. apply getAllTickets_same_period.
    rewrite Htok. reflexivity. }
  split.
  { apply getAllTickets_same_period.
    rewrite (period_named eng H). apply period_iso. }
  split; [apply period_iso|].
  split; [apply (period_named eng H)|].
  split; [apply Hnone; reflexivity|].
  split; [rewrite getAllTickets_run; reflexivity|].
  split.
  { intros token Htok. split; [exact (Hnone token Htok)|].
    rewrite getAllTickets_run. reflexivity. }
  split; [intros token; rewrite getAllTickets_run; reflexivity|].
  split.
  - intros Y M HY HM. pose proof (period_numerals eng Y M HY HM) as E.
    destruct ((1 <=? numeral_value M) && (numeral_value M <=? 12)
              && negb (numeral_value Y =? 0)); [exact E|exact (Hnone _ E)].
  - intros name Y H1 H2 H3 H4 HY.
    pose proof (period_name eng name Y H1 H2 H3 H4 HY) as E.
    destruct (eng (name ++ " 1, " ++ show_int (Some (numeral_value Y))))
      as [m|]; [|exact (Hnone _ E)].
    destruct ((0 <=? m) && (m <=? 11) && negb (numeral_value Y =? 0));
      [exact E|exact (Hnone _ E)].
Qed.

Lemma getAllTickets_period_witness :
  let list m :=
    getAllTickets named_month (mkTicketQuery m (Some "All") None (Some "") None)
      sample in
  let ids r :=
    match body (fst r) with
    | TicketList rows => map (fun x => Ticket.id (row_ticket x)) rows
    | _ => []
    end in
  list (Some "2025-11") = list (Some "November 2025")
  /\ ids (list (Some "2025-11")) = [1; 3; 2; 4]
  /\ list (Some "garbage") = list None
  /\ ids (list (Some "garbage")) = [1; 3; 2; 4; 5]
  /\ list (Some "2025-13") = list None
  /\ list (Some "2025-00") = list None.
Proof.
  destruct (getAllTickets_period named_month (Some "All") None (Some "") None
              sample eq_refl) as (H1 & _ & _ & H2 & _ & _ & _ & H3 & _).
  cbv zeta. split; [exact H1|]. split; [vm_compute; reflexivity|].
  split; [exact H2|]. split; [vm_compute; reflexivity|].
  split.
  - exact (H3 "2025" "13" eq_refl eq_refl).
  - exact (H3 "2025" "00" eq_refl eq_refl).
Defined.

(* ================================================================== *)
(** ** Batches of bill rates *)

(** A row that names no customer changes nothing. *)
Lemma set_customer_rate_unknown (id : Z) (v : num) (time : Z) (d : DB) :
  find (fun cu => Customer.id cu =? id) (customers d) = None ->
  set_customer_rate id v time d = d.
Proof.
  intros H. unfold set_customer_rate. destruct d as [ts cs ds w]. simpl in *.
  f_equal. induction cs as [|cu cs IH]; simpl in *; [reflexivity|].
  destruct (Customer.id cu =? id); [discriminate|]. rewrite (IH H).
  reflexivity.
Qed.

(** A new rate leaves the ids of the customers as they are, and so the
    rows that fail. *)
Lemma set_customer_rate_ids (id : Z) (v : num) (time : Z) (d : DB) :
  map Customer.id (customers (set_customer_rate id v time d))
  = map Customer.id (customers d).
Proof.
  unfold set_customer_rate. cbn [customers]. rewrite map_map.
  apply map_ext. intros cu. destruct (Customer.id cu =? id); reflexivity.
Qed.

Lemma existsb_id (i : Z) (cs : list Customer.t) :
  existsb (fun cu => Customer.id cu =? i) cs
  = existsb (fun x => x =? i) (map Customer.id cs).
Proof.
  induction cs as [|cu cs IH]; [reflexivity|]. cbn [map existsb].
  rewrite IH. reflexivity.
Qed.

Lemma failing_set (id : Z) (v : num) (time : Z) (d : DB) (row : RateRow) :
  failing (set_customer_rate id v time d) row = failing d row.
Proof.
  unfold failing. destruct (r_default_bill_rate row), (r_id row); try reflexivity.
  rewrite !existsb_id, set_customer_rate_ids. reflexivity.
Qed.

Lemma existsb_failing_set (id : Z) (v : num) (time : Z) (d : DB)
    (rates : list RateRow) :
  existsb (failing (set_customer_rate id v time d)) rates
  = existsb (failing d) rates.
Proof.
  induction rates as [|row rates IH]; [reflexivity|]. cbn [existsb].
  rewrite failing_set, IH. reflexivity.
Qed.

(** The loop over the batch: it runs to its end when no row fails, and
    throws at the first row that does; the clock and the snapshot of the
    transaction stay as they are. *)
Lemma for_of_rates (rates : list RateRow) (c : Conn) :
  match for_of rates update_customer_rate c with
  | (Ok _, c') =>
      existsb (failing (db c)) rates = false
      /\ db c' = apply_rates (now c) rates (db c)
      /\ now c' = now c /\ snapshot c' = snapshot c
  | (Thrown _, c') =>
      existsb (failing (db c)) rates = true
      /\ now c' = now c /\ snapshot c' = snapshot c
  end.
Proof.
  revert c. induction rates as [|row rates IH]; intros c.
  - simpl. auto.
  - change (for_of (row :: rates) update_customer_rate c)
      with (match update_customer_rate row c with
            | (Ok _, c') => for_of rates update_customer_rate c'
            | (Thrown e, c') => (Thrown e, c')
            end).
    destruct row as [[id|] [v|]];
      cbn [existsb apply_rates failing update_customer_rate r_id
           r_default_bill_rate orb];
      try (unfold throw; auto; fail).
    unfold write.
    destruct (existsb (fun cu => Customer.id cu =? id) (customers (db c))
              && negb (takes v)) eqn:E.
    + cbn [orb]. auto.
    + cbn [orb].
      specialize (IH (tick (with_db (set_customer_rate id v (now c) (db c)) c))).
      destruct (for_of rates update_customer_rate
                  (tick (with_db (set_customer_rate id v (now c) (db c)) c)))
        as [[u|msg] c'];
        cbn [db tick with_db now snapshot] in IH;
        rewrite existsb_failing_set in IH; exact IH.
Qed.

Lemma updateBillRates_run (rates : list RateRow) (c : Conn) :
  let r := updateBillRates (Some rates) c in
  if existsb (failing (db c)) rates then
    fst r = json 500 (Message false "Failed to update bill rates")
    /\ db (snd r) = db c /\ snapshot (snd r) = None
  else
    fst r = json 200 (Message true "Bill rates updated successfully")
    /\ db (snd r) = apply_rates (now c) rates (db c)
    /\ snapshot (snd r) = None.
Proof.
  cbv zeta. unfold updateBillRates, handler, bind, beginTransaction,
    try_finally, try_catch, release, ret.
  pose proof (for_of_rates rates (mkConn (db c) (now c) (queries c) (Some (db c))))
    as H.
  destruct (for_of rates update_customer_rate
              (mkConn (db c) (now c) (queries c) (Some (db c))))
    as [[u|msg] c'].
  - destruct H as (H & Hdb & _ & _). cbn [db] in H. rewrite H.
    unfold commit. simpl. auto.
  - destruct H as (H & _ & Hsnap). cbn [db] in H. rewrite H.
    unfold rollback, throw.
    simpl in Hsnap. rewrite Hsnap. simpl. auto.
Qed.

(** C7 as stated fails. On the sample data, the batch
    [[{id: 1, rate: 50}, {id: 999, rate: 60}]] has a row that names no
    customer, and yet it is answered with success and the rate of
    customer 1 is changed: the customer store is not left as it was. *)
Lemma updateBillRates_partial_commit :
  let rates := [mkRate (Some 1) (Some 50%float);
                mkRate (Some 999) (Some 60%float)] in
  find (fun cu => Customer.id cu =? 999) (customers (db sample)) = None
  /\ Success (fst (updateBillRates (Some rates) sample))
  /\ customers (db (snd (updateBillRates (Some rates) sample)))
     = [Customer.mk 1 "Aecon" 50%float 1000; pcl]
  /\ customers (db (snd (updateBillRates (Some rates) sample)))
     <> customers (db sample).
Proof.
  cbv zeta. split; [reflexivity|]. split; [reflexivity|].
  split; [reflexivity|]. vm_compute. discriminate.
Qed.

(** C7, amended. A batch is all-or-nothing with respect to the statements
    that fail: when a row fails (it lacks its id or its rate, or it reaches
    a customer with a rate the column does not take) the batch is answered
    with the storage failure and every table is as it was before the
    batch, whatever rows came first; otherwise the batch succeeds and all
    its rows are applied in order, a row that names no customer being
    applied as no change, and never failing when its id and rate are
    there. *)
Theorem updateBillRates_atomic :
  forall (rates : list RateRow) (c : Conn),
    (existsb (failing (db c)) rates = true ->
       StorageError (fst (updateBillRates (Some rates) c))
       /\ db (snd (updateBillRates (Some rates) c)) = db c)
    /\ (existsb (failing (db c)) rates = false ->
          Success (fst (updateBillRates (Some rates) c))
          /\ db (snd (updateBillRates (Some rates) c))
             = apply_rates (now c) rates (db c))
    /\ (forall id v time d,
          find (fun cu => Customer.id cu =? id) (customers d) = None ->
          set_customer_rate id v time d = d
          /\ failing d (mkRate (Some id) (Some v)) = false).
Proof.
  intros rates c. pose proof (updateBillRates_run rates c) as H.
  cbv zeta in H. split; [|split].
  - intros E. rewrite E in H. destruct H as (-> & -> & _).
    split; reflexivity.
  - intros E. rewrite E in H. destruct H as (-> & -> & _).
    split; reflexivity.
  - intros id v time d Hf. split; [apply set_customer_rate_unknown, Hf|].
    unfold failing. cbn [r_default_bill_rate r_id].
    rewrite (find_none_existsb _ _ Hf). reflexivity.
Qed.

(** A batch whose second row has no rate, and one whose second row has a
    rate the column does not take: the first row is not kept. *)
Lemma updateBillRates_atomic_witness :
  (StorageError
     (fst (updateBillRates
             (Some [mkRate (Some 1) (Some 50%float); mkRate (Some 2) None])
             sample))
   /\ db (snd (updateBillRates
                 (Some [mkRate (Some 1) (Some 50%float); mkRate (Some 2) None])
                 sample)) = db sample)
  /\ (StorageError
        (fst (updateBillRates
                (Some [mkRate (Some 1) (Some 50%float);
                       mkRate (Some 2) (Some 100000000%float)])
                sample))
      /\ db (snd (updateBillRates
                    (Some [mkRate (Some 1) (Some 50%float);
                           mkRate (Some 2) (Some 100000000%float)])
                    sample)) = db sample).
Proof.
  split.
  - exact (proj1 (updateBillRates_atomic
                    [mkRate (Some 1) (Some 50%float); mkRate (Some 2) None]
                    sample) eq_refl).
  - exact (proj1 (updateBillRates_atomic
                    [mkRate (Some 1) (Some 50%float);
                     mkRate (Some 2) (Some 100000000%float)]
                    sample) eq_refl).
Defined.

(* ================================================================== *)
(** * Further properties of the controllers *)

(** ** Ticket updates: the other cases, and what is left alone *)

Lemma updateTicket_missing (id : Z) (p : TicketPatch) (c : Conn) :
  recognised p = true ->
  find_ticket id (db c) = None ->
  updateTicket id p c
  = (json 404 (Message false "Ticket not found"), tick c).
Proof.
  unfold find_ticket. intros Hrec Hfind. rewrite find_filter_head in Hfind.
  destruct (filter (fun x => Ticket.id x =? id) (tickets (db c)))
    as [|cur rest] eqn:Hfilter; [|discriminate].
  destruct p as [[b|] [pr|] [s|] [q|]];
    unfold recognised in Hrec; simpl in Hrec; try discriminate;
    try (destruct (truthy_str s) eqn:Hs; simpl in Hrec; try discriminate);
    unfold updateTicket; run; rewrite ?Hs; cbn -[fold_left valid_status];
    rewrite Hfilter; reflexivity.
Qed.

Lemma updateTicket_refused (id : Z) (p : TicketPatch) (c : Conn) (t : Ticket.t) :
  find_ticket id (db c) = Some t ->
  recognised p = true ->
  status_in_enum p = false ->
  updateTicket id p c
  = (json 500 (Message false "Failed to update ticket"), tick (tick c)).
Proof.
  intros Hfind Hrec Hst. rewrite (updateTicket_run id p c t Hfind Hrec).
  unfold accepted. rewrite Hst. reflexivity.
Qed.

(** The four ways a ticket update ends. *)
Lemma updateTicket_cases (id : Z) (p : TicketPatch) (c : Conn) :
  db (snd (updateTicket id p c)) = db c
  \/ exists t,
       find_ticket id (db c) = Some t
       /\ recognised p = true /\ accepted p t = true.
Proof.
  destruct (recognised p) eqn:Hrec.
  - destruct (find_ticket id (db c)) as [t|] eqn:Hfind.
    + destruct (accepted p t) eqn:Hst.
      * right. exists t. auto.
      * left. rewrite (updateTicket_run id p c t Hfind Hrec), Hst.
        reflexivity.
    + left. rewrite (updateTicket_missing id p c Hrec Hfind). reflexivity.
  - left. rewrite (updateTicket_no_field id p c Hrec). reflexivity.
Qed.

(** X1. A ticket update with a recognised field for an id that resolves to
    no ticket fails with NotFoundError after the one lookup, and no table
    is changed. *)
Theorem updateTicket_unknown_ticket :
  forall (id : Z) (p : TicketPatch) (c : Conn),
    recognised p = true ->
    find_ticket id (db c) = None ->
    NotFoundError (fst (updateTicket id p c))
    /\ db (snd (updateTicket id p c)) = db c
    /\ queries (snd (updateTicket id p c)) = S (queries c).
Proof.
  intros id p c Hrec Hfind. rewrite (updateTicket_missing id p c Hrec Hfind).
  repeat split; reflexivity.
Qed.

Lemma updateTicket_unknown_ticket_witness :
  NotFoundError (fst (updateTicket 42 (mkPatch (Some 90%float) None None None) sample))
  /\ db (snd (updateTicket 42 (mkPatch (Some 90%float) None None None) sample))
     = sample_db.
Proof.
  destruct (updateTicket_unknown_ticket 42 (mkPatch (Some 90%float) None None None)
              sample eq_refl eq_refl) as (H1 & H2 & _).
  split; [exact H1|exact H2].
Defined.

Lemma assign_same_record (t : Ticket.t) (a : Assignment) :
  same_record (assign t a) t.
Proof. destruct t, a; repeat split. Qed.

Lemma same_record_trans (a b c : Ticket.t) :
  same_record a b -> same_record b c -> same_record a c.
Proof.
  unfold same_record. intros H1 H2.
  repeat match goal with H : _ /\ _ |- _ => destruct H end.
  repeat split; congruence.
Qed.

Lemma same_record_refl (a : Ticket.t) : same_record a a.
Proof. repeat split. Qed.

Lemma fold_assign_same_record (l : list Assignment) (t : Ticket.t) :
  same_record (fold_left assign l t) t.
Proof.
  revert t; induction l as [|a l IH]; intros t; simpl;
    [apply same_record_refl|].
  eapply same_record_trans; [apply IH|apply assign_same_record].
Qed.

Lemma touch_same_record (time : Z) (t : Ticket.t) :
  same_record (touch time t) t.
Proof. destruct t; repeat split. Qed.

Lemma Forall2_map_r {A B : Type} (R : A -> B -> Prop) (f : A -> B)
    (l : list A) :
  (forall x, In x l -> R x (f x)) -> Forall2 R l (map f l).
Proof.
  induction l as [|x l IH]; intros H; simpl; constructor.
  - apply H. left. reflexivity.
  - apply IH. intros y Hy. apply H. right. exact Hy.
Qed.

(** X2. A ticket update of a ticket that exists keeps the table row for
    row, whether the storage takes it or not: a ticket with another id is
    left as it is, the ticket of that id keeps its id, driver, date,
    truck, customer, job type, equipment, ticket number, photo and
    creation time; the customers and the drivers are not touched. *)
Theorem updateTicket_frame :
  forall (id : Z) (p : TicketPatch) (c : Conn) (t : Ticket.t),
    find_ticket id (db c) = Some t ->
    recognised p = true ->
    status_in_enum p = true ->
    Forall2
      (fun before after =>
         if Ticket.id before =? id then same_record after before
         else after = before)
      (tickets (db c)) (tickets (db (snd (updateTicket id p c))))
    /\ customers (db (snd (updateTicket id p c))) = customers (db c)
    /\ drivers (db (snd (updateTicket id p c))) = drivers (db c).
Proof.
  intros id p c t Hfind Hrec Hst.
  rewrite (updateTicket_run id p c t Hfind Hrec).
  destruct (accepted p t); cbn -[fold_left].
  - split; [|split; reflexivity].
    apply Forall2_map_r. intros x _.
    destruct (Ticket.id x =? id); [|reflexivity].
    eapply same_record_trans;
      [apply touch_same_record|apply fold_assign_same_record].
  - split; [|split; reflexivity].
    rewrite <- (map_id (tickets (db c))) at 2.
    apply Forall2_map_r. intros x _.
    destruct (Ticket.id x =? id); [apply same_record_refl|reflexivity].
Qed.

Lemma updateTicket_frame_witness :
  Forall2
    (fun before after =>
       if Ticket.id before =? 2 then same_record after before
       else after = before)
    (tickets sample_db)
    (tickets (db (snd (updateTicket 2 (mkPatch (Some 90%float) None None None) sample)))).
Proof.
  exact (proj1 (updateTicket_frame 2 (mkPatch (Some 90%float) None None None)
                  sample
                  (ticket 2 1 (mkDate 2025 11 5) "Aecon" 3%float 100%float
                          30%float "Pending")
                  eq_refl eq_refl eq_refl)).
Defined.

(** ** The dedicated status update on a ticket that exists *)

Lemma updateTicketStatus_run (id : Z) (s : string) (c : Conn) :
  valid_status s = true ->
  updateTicketStatus id (Some s) c
  = (json 200 (Message true "Ticket status updated successfully"),
     mkConn
       (mkDB (map (fun x => if Ticket.id x =? id
                            then touch (now c) (assign x (Set_status s))
                            else x) (tickets (db c)))
             (customers (db c)) (drivers (db c)) (weight (db c)))
       (now c) (S (queries c)) (snapshot c)).
Proof.
  intros Hv. pose proof (valid_status_truthy s Hv) as Hs.
  unfold updateTicketStatus. run. rewrite Hs, Hv. cbn -[fold_left].
  rewrite Bool.andb_false_r. reflexivity.
Qed.

Lemma schema_ok_tickets (d : DB) :
  schema_ok d = true -> distinctb Z.eqb (map Ticket.id (tickets d)) = true.
Proof.
  unfold schema_ok. intros H.
  repeat (apply Bool.andb_true_iff in H as [H ?]). exact H.
Qed.

(** Under PRIMARY KEY (id), the ticket a lookup finds is the only one of
    its id. *)
Lemma unique_ticket (i : Z) (l : list Ticket.t) (t : Ticket.t) :
  distinctb Z.eqb (map Ticket.id l) = true ->
  find (fun x => Ticket.id x =? i) l = Some t ->
  forall x, In x l -> Ticket.id x = i -> x = t.
Proof.
  induction l as [|a l IH]; simpl; [discriminate|].
  intros Hd Hfind x Hin Hx.
  apply Bool.andb_true_iff in Hd as [Ha Hd].
  apply Bool.negb_true_iff in Ha.
  destruct (Ticket.id a =? i) eqn:E.
  - injection Hfind as <-. destruct Hin as [->|Hin]; [reflexivity|].
    exfalso. apply Z.eqb_eq in E.
    assert (Hex : existsb (Z.eqb (Ticket.id a)) (map Ticket.id l) = true).
    { apply existsb_exists. exists (Ticket.id x). split.
      - apply in_map, Hin.
      - apply Z.eqb_eq. congruence. }
    congruence.
  - destruct Hin as [->|Hin].
    + apply Z.eqb_neq in E. contradiction.
    + exact (IH Hd Hfind x Hin Hx).
Qed.

(** X3. For a valid status and a ticket that exists, the dedicated status
    update succeeds with one statement; the ticket then carries the new
    status and the time of the update, its quantity, rates and totals and
    its other columns are as before, and every other ticket is left as it
    is. *)
Theorem updateTicketStatus_existing :
  forall (id : Z) (s : string) (c : Conn) (t : Ticket.t),
    valid_status s = true ->
    find_ticket id (db c) = Some t ->
    Success (fst (updateTicketStatus id (Some s) c))
    /\ queries (snd (updateTicketStatus id (Some s) c)) = S (queries c)
    /\ (exists t',
          find_ticket id (db (snd (updateTicketStatus id (Some s) c))) = Some t'
          /\ Ticket.status t' = s
          /\ Ticket.updated_at t' = now c
          /\ same_pricing t' t
          /\ same_record t' t)
    /\ Forall2
         (fun before after =>
            if Ticket.id before =? id then Ticket.status after = s
            else after = before)
         (tickets (db c))
         (tickets (db (snd (updateTicketStatus id (Some s) c)))).
Proof.
  intros id s c t Hv Hfind. rewrite (updateTicketStatus_run id s c Hv).
  split; [reflexivity|]. split; [reflexivity|]. split.
  - exists (touch (now c) (assign t (Set_status s))).
    unfold find_ticket in *. cbn [db tickets snd].
    rewrite (find_after_update
               (fun x => touch (now c) (assign x (Set_status s)))).
    2:{ intros x. rewrite touch_id. apply assign_id. }
    rewrite Hfind. destruct t; repeat split.
  - cbn [db tickets snd]. apply Forall2_map_r. intros x _.
    destruct (Ticket.id x =? id); [|reflexivity]. destruct x; reflexivity.
Qed.

Lemma updateTicketStatus_existing_witness :
  exists t',
    find_ticket 2 (db (snd (updateTicketStatus 2 (Some "Approved") sample)))
    = Some t'
    /\ Ticket.status t' = "Approved"
    /\ Ticket.total_pay t' = 90%float.
Proof.
  destruct (updateTicketStatus_existing 2 "Approved" sample
              (ticket 2 1 (mkDate 2025 11 5) "Aecon" 3%float 100%float
                      30%float "Pending") eq_refl eq_refl)
    as (_ & _ & (t' & Hf & Hs & _ & Hp & _) & _).
  exists t'. split; [exact Hf|]. split; [exact Hs|].
  destruct Hp as (_ & _ & _ & _ & Hp). rewrite Hp. reflexivity.
Defined.

(** X4. Under the primary key, for a valid status and a ticket whose
    totals, values of their DECIMAL(10,2) columns, are the products of its
    quantity and rates, the general update with the status alone and the
    dedicated status update leave the same tables: the totals the general
    update writes again are the ones stored. *)
Theorem status_update_paths_agree :
  forall (id : Z) (s : string) (c : Conn) (t : Ticket.t),
    schema_ok (db c) = true ->
    valid_status s = true ->
    find_ticket id (db c) = Some t ->
    priced t ->
    decimal_totals t ->
    db (snd (updateTicket id (mkPatch None None (Some s) None) c))
    = db (snd (updateTicketStatus id (Some s) c)).
Proof.
  intros id s c t Hok Hv Hfind [Hb Hp] [Db Dp].
  pose proof (valid_status_truthy s Hv) as Hs.
  rewrite (updateTicket_run id (mkPatch None None (Some s) None) c t Hfind)
    by (unfold recognised; simpl; rewrite ?Hs; reflexivity).
  assert (Hacc : accepted (mkPatch None None (Some s) None) t = true).
  { unfold accepted, status_in_enum, taken, takes, final.
    cbn -[decimal_10_2 PrimFloat.mul valid_status truthy_str].
    rewrite Hs, Hv, <- Hb, <- Hp, Db, Dp. reflexivity. }
  rewrite Hacc.
  rewrite (updateTicketStatus_run id s c Hv). cbn -[fold_left].
  f_equal. apply map_ext_in. intros x Hin.
  destruct (Ticket.id x =? id) eqn:E; [|reflexivity].
  apply Z.eqb_eq in E.
  rewrite (unique_ticket id (tickets (db c)) t (schema_ok_tickets _ Hok)
             Hfind x Hin E).
  unfold updates_for. cbn -[PrimFloat.mul kept]. rewrite Hs.
  cbn -[PrimFloat.mul kept].
  destruct t; cbn -[PrimFloat.mul kept decimal_10_2] in *.
  rewrite <- Hb, <- Hp. unfold kept. rewrite Db, Dp. reflexivity.
Qed.

Lemma status_update_paths_agree_witness :
  db (snd (updateTicket 2 (mkPatch None None (Some "Approved") None) sample))
  = db (snd (updateTicketStatus 2 (Some "Approved") sample)).
Proof.
  apply (status_update_paths_agree 2 "Approved" sample
           (ticket 2 1 (mkDate 2025 11 5) "Aecon" 3%float 100%float 30%float
                   "Pending")); try reflexivity; split; reflexivity.
Defined.

(** ** Batches of bill rates: what they leave alone, and which row wins *)

(** The keys of the schema are read from the ids, the names and the
    collation. *)
Lemma schema_ok_same (d d' : DB) :
  map Ticket.id (tickets d') = map Ticket.id (tickets d) ->
  map Customer.id (customers d') = map Customer.id (customers d) ->
  map Customer.name (customers d') = map Customer.name (customers d) ->
  map Driver.id (drivers d') = map Driver.id (drivers d) ->
  weight d' = weight d ->
  schema_ok d' = schema_ok d.
Proof.
  intros H1 H2 H3 H4 H5. unfold schema_ok. rewrite H1, H2, H4.
  rewrite <- (map_map Customer.name (sort_key d')).
  rewrite <- (map_map Customer.name (sort_key d)).
  rewrite H3. unfold sort_key. rewrite H5. reflexivity.
Qed.

Lemma set_customer_rate_frame (id : Z) (v : num) (time : Z) (d : DB) :
  tickets (set_customer_rate id v time d) = tickets d
  /\ drivers (set_customer_rate id v time d) = drivers d
  /\ map Customer.id (customers (set_customer_rate id v time d))
     = map Customer.id (customers d)
  /\ map Customer.name (customers (set_customer_rate id v time d))
     = map Customer.name (customers d)
  /\ weight (set_customer_rate id v time d) = weight d.
Proof.
  unfold set_customer_rate. cbn [tickets drivers customers weight].
  repeat split; rewrite map_map; apply map_ext; intros cu;
    destruct (Customer.id cu =? id); reflexivity.
Qed.

Lemma apply_rates_frame (time : Z) (rates : list RateRow) (d : DB) :
  tickets (apply_rates time rates d) = tickets d
  /\ drivers (apply_rates time rates d) = drivers d
  /\ map Customer.id (customers (apply_rates time rates d))
     = map Customer.id (customers d)
  /\ map Customer.name (customers (apply_rates time rates d))
     = map Customer.name (customers d)
  /\ weight (apply_rates time rates d) = weight d.
Proof.
  revert d. induction rates as [|row rates IH]; intros d; [simpl; auto 6|].
  cbn [apply_rates].
  destruct (r_default_bill_rate row) as [v|], (r_id row) as [id|];
    try apply IH.
  destruct (IH (set_customer_rate id v time d)) as (H1 & H2 & H3 & H4 & H5).
  destruct (set_customer_rate_frame id v time d) as (G1 & G2 & G3 & G4 & G5).
  repeat split; congruence.
Qed.

Lemma updateBillRates_frame_db (rates : option (list RateRow)) (c : Conn) :
  tickets (db (snd (updateBillRates rates c))) = tickets (db c)
  /\ drivers (db (snd (updateBillRates rates c))) = drivers (db c)
  /\ map Customer.id (customers (db (snd (updateBillRates rates c))))
     = map Customer.id (customers (db c))
  /\ map Customer.name (customers (db (snd (updateBillRates rates c))))
     = map Customer.name (customers (db c))
  /\ weight (db (snd (updateBillRates rates c))) = weight (db c).
Proof.
  destruct rates as [rates|]; [|simpl; auto 6].
  pose proof (updateBillRates_run rates c) as H. cbv zeta in H.
  destruct (existsb (failing (db c)) rates).
  - destruct H as (_ & -> & _). auto 6.
  - destruct H as (_ & -> & _). apply apply_rates_frame.
Qed.

(** X5. Whatever the body of a bill-rate batch and however it ends, the
    tickets and the drivers are left as they are (the rates stored on the
    tickets are not repriced), and the customers keep their ids and names
    in place; the keys of the schema hold afterwards when they held
    before. *)
Theorem updateBillRates_frame :
  forall (rates : option (list RateRow)) (c : Conn),
    tickets (db (snd (updateBillRates rates c))) = tickets (db c)
    /\ drivers (db (snd (updateBillRates rates c))) = drivers (db c)
    /\ map Customer.id (customers (db (snd (updateBillRates rates c))))
       = map Customer.id (customers (db c))
    /\ map Customer.name (customers (db (snd (updateBillRates rates c))))
       = map Customer.name (customers (db c))
    /\ schema_ok (db (snd (updateBillRates rates c))) = schema_ok (db c).
Proof.
  intros rates c.
  destruct (updateBillRates_frame_db rates c) as (H1 & H2 & H3 & H4 & H5).
  repeat (split; [assumption|]).
  apply schema_ok_same; congruence.
Qed.

Lemma last_rate_step (time : Z) (row : RateRow) (rest : list RateRow)
    (cu : Customer.t) :
  let step cu :=
    match r_default_bill_rate row, r_id row with
    | Some v, Some id =>
        if Customer.id cu =? id
        then Customer.mk (Customer.id cu) (Customer.name cu) (kept v) time
        else cu
    | _, _ => cu
    end in
  match last_rate (Customer.id (step cu)) rest with
  | Some v =>
      Customer.mk (Customer.id (step cu)) (Customer.name (step cu)) (kept v)
                  time
  | None => step cu
  end
  = match last_rate (Customer.id cu) (row :: rest) with
    | Some v => Customer.mk (Customer.id cu) (Customer.name cu) (kept v) time
    | None => cu
    end.
Proof.
  cbv zeta. cbn [last_rate].
  destruct (r_default_bill_rate row) as [v|], (r_id row) as [id|];
    try (destruct (last_rate (Customer.id cu) rest); reflexivity).
  rewrite (Z.eqb_sym id (Customer.id cu)).
  destruct (Customer.id cu =? id); cbn [Customer.id Customer.name];
    destruct (last_rate (Customer.id cu) rest); reflexivity.
Qed.

Lemma apply_rates_customers (time : Z) (rates : list RateRow) (d : DB) :
  customers (apply_rates time rates d)
  = map (fun cu =>
           match last_rate (Customer.id cu) rates with
           | Some v =>
               Customer.mk (Customer.id cu) (Customer.name cu) (kept v) time
           | None => cu
           end) (customers d).
Proof.
  revert d. induction rates as [|row rates IH]; intros d.
  - simpl. rewrite map_id. reflexivity.
  - cbn [apply_rates]. rewrite IH.
    pose proof (fun cu => last_rate_step time row rates cu) as Hstep.
    cbv zeta in Hstep.
    destruct (r_default_bill_rate row) as [v|] eqn:Ev,
             (r_id row) as [id|] eqn:Ei;
      try (apply map_ext; intros cu; apply Hstep).
    unfold set_customer_rate. cbn [customers]. rewrite map_map.
    apply map_ext. intros cu. apply Hstep.
Qed.

(** X6. A batch of bill rates in which no row fails (each has its id and
    its rate, and the column takes the rate of each row that reaches a
    customer) succeeds, and afterwards each customer has what the column
    keeps of the rate of the last row of the batch that names it (with the
    time of the batch), and is as before when no row names it: rows are
    applied in order, the later one wins. *)
Theorem updateBillRates_last_row_wins :
  forall (rates : list RateRow) (c : Conn),
    existsb (failing (db c)) rates = false ->
    Success (fst (updateBillRates (Some rates) c))
    /\ customers (db (snd (updateBillRates (Some rates) c)))
       = map (fun cu =>
                match last_rate (Customer.id cu) rates with
                | Some v =>
                    Customer.mk (Customer.id cu) (Customer.name cu) (kept v)
                                (now c)
                | None => cu
                end) (customers (db c))
    /\ (forall cu v r,
          In cu (customers (db c)) ->
          last_rate (Customer.id cu) rates = Some v ->
          decimal_10_2 v = Some r ->
          In (Customer.mk (Customer.id cu) (Customer.name cu) r (now c))
             (customers (db (snd (updateBillRates (Some rates) c))))).
Proof.
  intros rates c E. pose proof (updateBillRates_run rates c) as H.
  cbv zeta in H. rewrite E in H. destruct H as (-> & -> & _).
  split; [reflexivity|]. split; [apply apply_rates_customers|].
  intros cu v r Hin Hl Hd. rewrite apply_rates_customers.
  apply in_map_iff. exists cu. split; [|exact Hin].
  rewrite Hl. unfold kept. rewrite Hd. reflexivity.
Qed.

Lemma updateBillRates_last_row_wins_witness :
  map Customer.default_bill_rate
      (customers (db (snd (updateBillRates
         (Some [mkRate (Some 1) (Some 50%float); mkRate (Some 7) (Some 9%float);
                mkRate (Some 1) (Some 70.125%float)]) sample))))
  = [70.13%float; 200%float].
Proof.
  rewrite (proj1 (proj2 (updateBillRates_last_row_wins
                    [mkRate (Some 1) (Some 50%float);
                     mkRate (Some 7) (Some 9%float);
                     mkRate (Some 1) (Some 70.125%float)] sample eq_refl))).
  reflexivity.
Defined.

(** ** Ticket creation: when it writes, and what *)

Lemma fold_max_le (l : list Z) (z : Z) :
  z <= fold_left Z.max l z /\ forall x, In x l -> x <= fold_left Z.max l z.
Proof.
  revert z. induction l as [|a l IH]; intros z; simpl.
  - split; [lia|intros x []].
  - destruct (IH (Z.max z a)) as [H1 H2]. split; [lia|].
    intros x [->|Hx]; [lia|exact (H2 x Hx)].
Qed.

(** AUTO_INCREMENT gives an id above every id of the table. *)
Lemma next_id_fresh (l : list Ticket.t) (x : Ticket.t) :
  In x l -> Ticket.id x < next_id l.
Proof.
  intros Hx. unfold next_id.
  pose proof (proj2 (fold_max_le (map Ticket.id l) 0) (Ticket.id x)
                (in_map Ticket.id l x Hx)). lia.
Qed.

(** The ways [createTicket] ends. *)
Lemma createTicket_cases (user : User) (body : TicketForm) (c : Conn) :
  (db (snd (createTicket user body c)) = db c
   /\ code (fst (createTicket user body c)) <> 201)
  \/ exists driver date truck customer equipment number quantity day,
       find (fun dr => (Driver.id dr =? session_driver user)
                       || (Driver.user_id dr =? u_id user)) (drivers (db c))
       = Some driver
       /\ body = mkForm (Some date) (Some truck) (Some customer)
                        (Some equipment) (Some number) (Some quantity)
                        (f_file body)
       /\ customerNames_of customer <> []
       /\ sql_date date = Some day
       /\ code (fst (createTicket user body c)) = 201.
Proof.
  destruct (find (fun dr => (Driver.id dr =? session_driver user)
                            || (Driver.user_id dr =? u_id user))
                 (drivers (db c))) as [driver|] eqn:Hfind.
  - destruct body as [[date|] [truck|] [customer|] [equipment|] [number|]
                        [quantity|] file];
      rewrite find_filter_head in Hfind;
      destruct (filter _ (drivers (db c))) as [|dr rest] eqn:Hf;
      try discriminate;
      try (left; unfold createTicket; run; rewrite Hf; simpl;
           split; [reflexivity|discriminate]).
    destruct (customerNames_of customer) as [|n ns] eqn:Hn.
    + left. unfold createTicket. run. rewrite Hf.
      cbn -[customerNames_of]. rewrite Hn. simpl.
      split; [reflexivity|discriminate].
    + assert (Hns : customerNames_of customer <> [])
        by (rewrite Hn; discriminate).
      assert (Hfd : find (fun dr => (Driver.id dr =? session_driver user)
                                    || (Driver.user_id dr =? u_id user))
                         (drivers (db c)) = Some driver)
        by (rewrite find_filter_head, Hf; exact Hfind).
      destruct (sql_date date) as [day|] eqn:Hd.
      * destruct (Z.eq_dec
                    (code (fst (createTicket user
                       (mkForm (Some date) (Some truck) (Some customer)
                          (Some equipment) (Some number) (Some quantity) file)
                       c))) 201) as [Hc|Hc].
        -- right. exists driver, date, truck, customer, equipment, number,
             quantity, day.
           repeat split; try reflexivity; assumption.
        -- left. split; [|exact Hc].
           exact (createTicket_unwritten user driver date truck customer
                    equipment number quantity file day c Hfd Hns Hd Hc).
      * left. unfold createTicket, insert_ticket. run. rewrite Hf.
        cbn -[customerNames_of resolve_billRate resolve_payRate
              bill_rates_of sql_date next_id join decimal_10_2 parseFloat
              PrimFloat.mul].
        rewrite Hn.
        cbn -[customerNames_of resolve_billRate resolve_payRate
              bill_rates_of sql_date next_id join decimal_10_2 parseFloat
              PrimFloat.mul].
        rewrite Hd. simpl. split; [reflexivity|discriminate].
  - left. rewrite find_filter_head in Hfind. unfold createTicket. run.
    destruct (filter _ (drivers (db c))); [|discriminate].
    simpl. split; [reflexivity|discriminate].
Qed.

(** X8. Ticket creation writes only when it answers 201: otherwise (no
    driver for the session, a field missing, no customer name, a date that
    is none) every table is as before; when it answers 201 it has
    appended one ticket, with status Pending, an id above every id of the
    table, and the id of the first driver of the session as its driver;
    the customers and drivers are never touched. *)
Theorem createTicket_writes_once :
  forall (user : User) (body : TicketForm) (c : Conn),
    let r := createTicket user body c in
    customers (db (snd r)) = customers (db c)
    /\ drivers (db (snd r)) = drivers (db c)
    /\ (code (fst r) <> 201 -> db (snd r) = db c)
    /\ (code (fst r) = 201 ->
          exists t,
            tickets (db (snd r)) = (tickets (db c) ++ [t])%list
            /\ Ticket.status t = "Pending"
            /\ (forall x, In x (tickets (db c)) -> Ticket.id x < Ticket.id t)
            /\ hd_error (session_drivers user (db c))
               = Some (Ticket.driver_id t)).
Proof.
  intros user body c r. subst r.
  destruct (createTicket_cases user body c)
    as [[Hdb Hcode] | (driver & date & truck & customer & equipment & number
                       & quantity & day & Hfind & Hbody & Hn & Hd & Hc)].
  - rewrite Hdb. repeat split; try reflexivity. intros E. contradiction.
  - rewrite Hbody in Hc |- *.
    destruct (createTicket_created user driver date truck customer equipment
                number quantity (f_file body) day c Hfind Hn Hd Hc)
      as (q & br & tb & tp & _ & _ & _ & _ & ->).
    cbn [fst snd db customers drivers tickets code].
    repeat split; try reflexivity.
    + intros E. contradiction.
    + intros _. eexists. split; [reflexivity|].
      cbn [Ticket.status Ticket.id Ticket.driver_id].
      split; [reflexivity|]. split; [apply next_id_fresh|].
      unfold session_drivers. rewrite find_filter_head in Hfind.
      destruct (filter _ (drivers (db c))); [discriminate|].
      injection Hfind as ->. reflexivity.
Qed.

Lemma distinctb_snoc (l : list Z) (x : Z) :
  distinctb Z.eqb l = true ->
  (forall y, In y l -> y < x) ->
  distinctb Z.eqb (l ++ [x]) = true.
Proof.
  induction l as [|a l IH]; intros Hd Hlt; [reflexivity|].
  simpl in Hd |- *. apply Bool.andb_true_iff in Hd as [Ha Hd].
  apply Bool.andb_true_iff. split.
  - rewrite existsb_app. apply Bool.negb_true_iff in Ha. rewrite Ha. simpl.
    assert (a <> x) by (specialize (Hlt a (or_introl eq_refl)); lia).
    apply Z.eqb_neq in H. rewrite H. reflexivity.
  - apply IH; [exact Hd|]. intros y Hy. apply Hlt. right. exact Hy.
Qed.

Lemma map_update_ids (u : Ticket.t -> Ticket.t) (i : Z) (l : list Ticket.t) :
  (forall t, Ticket.id (u t) = Ticket.id t) ->
  map Ticket.id (map (fun t => if Ticket.id t =? i then u t else t) l)
  = map Ticket.id l.
Proof.
  intros Hu. rewrite map_map. apply map_ext. intros t.
  destruct (Ticket.id t =? i); [apply Hu|reflexivity].
Qed.

(** X9. The keys of the schema (unique ticket, customer and driver ids,
    unique customer names) hold after a ticket creation, a ticket update
    and a status update when they held before, whatever the input. *)
Theorem ticket_writes_keep_keys :
  forall (c : Conn),
    schema_ok (db c) = true ->
    (forall user body, schema_ok (db (snd (createTicket user body c))) = true)
    /\ (forall id p, schema_ok (db (snd (updateTicket id p c))) = true)
    /\ (forall id s, schema_ok (db (snd (updateTicketStatus id s c))) = true).
Proof.
  intros c Hok. split; [|split].
  - intros user body.
    destruct (createTicket_cases user body c)
      as [[-> _] | (driver & date & truck & customer & equipment & number
                    & quantity & day & Hfind & Hbody & Hn & Hd & Hc)];
      [exact Hok|].
    rewrite Hbody in Hc |- *.
    destruct (createTicket_created user driver date truck customer equipment
                number quantity (f_file body) day c Hfind Hn Hd Hc)
      as (q & br & tb & tp & _ & _ & _ & _ & ->).
    cbn [snd db]. unfold schema_ok, sort_key in *.
    cbn [tickets customers drivers weight].
    repeat (apply Bool.andb_true_iff in Hok as [Hok ?]).
    repeat (apply Bool.andb_true_iff; split); try assumption.
    rewrite map_app. cbn [map Ticket.id]. apply distinctb_snoc; [exact Hok|].
    intros y Hy. apply in_map_iff in Hy as (x & <- & Hx).
    apply next_id_fresh, Hx.
  - intros id p.
    destruct (updateTicket_cases id p c) as [-> | (t & Hfind & Hrec & Hst)];
      [exact Hok|].
    rewrite (updateTicket_run id p c t Hfind Hrec), Hst. cbn -[fold_left].
    unfold schema_ok, sort_key in *. cbn -[fold_left].
    rewrite (map_update_ids
               (fun x => touch (now c) (fold_left assign (updates_for p t) x))).
    + exact Hok.
    + intros x. rewrite touch_id. apply fold_assign_id.
  - intros id [s|].
    + destruct (valid_status s) eqn:Hv.
      * rewrite (updateTicketStatus_run id s c Hv).
        unfold schema_ok, sort_key in *.
        cbn [snd db tickets customers drivers weight].
        rewrite (map_update_ids
                   (fun x => touch (now c) (assign x (Set_status s)))).
        -- exact Hok.
        -- intros x. rewrite touch_id. apply assign_id.
      * rewrite (proj2 (updateTicketStatus_invalid id (Some s) c Hv)).
        exact Hok.
    + rewrite (proj2 (updateTicketStatus_invalid id None c eq_refl)).
      exact Hok.
Qed.

Lemma ticket_writes_keep_keys_witness :
  schema_ok
    (db (snd (createTicket (mkUser (Some 1) 11)
                (mkForm (Some "2025-12-01") (Some "TRUCK-001") (Some "Aecon")
                        (Some "Dump") (Some "T-200") (Some 2%float) None)
                sample))) = true.
Proof.
  apply (proj1 (ticket_writes_keep_keys sample eq_refl)).
Defined.

(** X31. In the revision with a job type, ticket creation writes only
    when it answers 201: otherwise every table is as before; when it
    answers 201 it has appended one ticket, with status Pending, an id
    above every id of the table, the id of the first driver of the
    session as its driver, the customer text as it was submitted (it is
    not split into names), the job type submitted and no equipment; the
    customers and drivers are never touched. *)
Theorem createTicket_job_writes_once :
  forall (user : User) (body : JobTypeRevision.TicketForm) (c : Conn),
    let r := JobTypeRevision.createTicket user body c in
    customers (db (snd r)) = customers (db c)
    /\ drivers (db (snd r)) = drivers (db c)
    /\ (code (fst r) <> 201 -> db (snd r) = db c)
    /\ (code (fst r) = 201 ->
          exists t,
            tickets (db (snd r)) = (tickets (db c) ++ [t])%list
            /\ Ticket.status t = "Pending"
            /\ Some (Ticket.customer t) = JobTypeRevision.f_customer body
            /\ Ticket.job_type t = JobTypeRevision.f_job_type body
            /\ Ticket.equipment_type t = None
            /\ (forall x, In x (tickets (db c)) -> Ticket.id x < Ticket.id t)
            /\ hd_error (session_drivers user (db c))
               = Some (Ticket.driver_id t)).
Proof.
  intros user body c r. subst r.
  destruct (find (fun dr => (Driver.id dr =? session_driver user)
                            || (Driver.user_id dr =? u_id user))
                 (drivers (db c))) as [driver|] eqn:Hfind.
  - destruct body as [[date|] [truck|] [customer|] [job_type|] [number|]
                        [quantity|] file];
      try (rewrite find_filter_head in Hfind;
           destruct (filter _ (drivers (db c))) as [|dr rest] eqn:Hf;
           [discriminate|];
           unfold JobTypeRevision.createTicket; run; rewrite Hf; simpl;
           repeat split; try reflexivity; intros E; discriminate E).
    rewrite (createTicket_job_run user driver date truck customer job_type
               number quantity file c Hfind).
    cbv zeta.
    destruct (sql_date date) as [day|];
      [|cbn [fst snd db code]; repeat split; try reflexivity;
        intros E; discriminate E].
    destruct (decimal_10_2 quantity) as [q|];
      [|cbn [fst snd db code]; repeat split; try reflexivity;
        intros E; discriminate E].
    destruct (decimal_10_2 (parseFloat quantity * parseFloat _)%float)
      as [tb|];
      [|cbn [fst snd db code]; repeat split; try reflexivity;
        intros E; discriminate E].
    destruct (decimal_10_2 (parseFloat quantity * parseFloat _)%float)
      as [tp|];
      [|cbn [fst snd db code]; repeat split; try reflexivity;
        intros E; discriminate E].
    cbn [fst snd db customers drivers tickets code].
    split; [reflexivity|]. split; [reflexivity|].
    split; [intros E; contradiction E; reflexivity|].
    intros _. eexists. split; [reflexivity|].
    cbn [Ticket.status Ticket.id Ticket.driver_id Ticket.customer
         Ticket.job_type Ticket.equipment_type JobTypeRevision.f_customer
         JobTypeRevision.f_job_type].
    repeat (split; [reflexivity|]). split; [apply next_id_fresh|].
    unfold session_drivers. rewrite find_filter_head in Hfind.
    destruct (filter _ (drivers (db c))); [discriminate|].
    injection Hfind as ->. reflexivity.
  - rewrite find_filter_head in Hfind.
    unfold JobTypeRevision.createTicket. run.
    destruct (filter _ (drivers (db c))); [|discriminate].
    simpl. repeat split; try reflexivity; intros E; discriminate E.
Qed.

(** ** The customer text of a ticket *)

(** X10. The customer text a created ticket stores reads back as the list
    of names it was made from: when the creation answers 201, split at the
    commas, trimmed and without the empty pieces, the text stored gives
    the names of the text submitted. *)
Theorem createTicket_customer_round_trip :
  forall (user : User) (driver : Driver.t)
         (date truck customer equipment number : string) (quantity : num)
         (file : option string) (day : Date) (c : Conn),
    find (fun dr => (Driver.id dr =? session_driver user)
                    || (Driver.user_id dr =? u_id user)) (drivers (db c))
    = Some driver ->
    customerNames_of customer <> [] ->
    sql_date date = Some day ->
    code (fst (createTicket user
                 (mkForm (Some date) (Some truck) (Some customer)
                         (Some equipment) (Some number)
                         (Some quantity) file) c)) = 201 ->
    exists t,
      tickets (db (snd (createTicket user
                          (mkForm (Some date) (Some truck) (Some customer)
                                  (Some equipment) (Some number)
                                  (Some quantity) file) c)))
      = (tickets (db c) ++ [t])%list
      /\ Ticket.customer t = join ", " (customerNames_of customer)
      /\ customerNames_of (Ticket.customer t) = customerNames_of customer.
Proof.
  intros user driver date truck customer equipment number quantity file day c
    Hfind Hn Hd Hc.
  destruct (createTicket_created user driver date truck customer equipment
              number quantity file day c Hfind Hn Hd Hc)
    as (q & br & tb & tp & _ & _ & _ & _ & ->).
  eexists. split; [reflexivity|]. cbn [Ticket.customer].
  split; [reflexivity|]. apply customerNames_join, customerNames_clean.
Qed.

Lemma createTicket_customer_round_trip_witness :
  exists t,
    tickets (db (snd (createTicket (mkUser (Some 1) 11)
       (mkForm (Some "2025-12-01") (Some "TRUCK-001")
               (Some " Aecon ,, PCL Construction,") (Some "Dump")
               (Some "T-200") (Some 2%float) None) sample)))
    = (tickets sample_db ++ [t])%list
    /\ Ticket.customer t = "Aecon, PCL Construction"
    /\ customerNames_of (Ticket.customer t) = ["Aecon"; "PCL Construction"].
Proof.
  destruct (createTicket_customer_round_trip (mkUser (Some 1) 11) jo
              "2025-12-01" "TRUCK-001" " Aecon ,, PCL Construction," "Dump"
              "T-200" 2%float None (mkDate 2025 12 1) sample eq_refl)
    as (t & Ht & Hc & Hr).
  - vm_compute. discriminate.
  - reflexivity.
  - reflexivity.
  - exists t. split; [exact Ht|]. split; [exact Hc|]. rewrite Hr. reflexivity.
Defined.





(** ** The download of an invoice against its generation *)






(** ** Ranges *)

Lemma in_order_by {A : Type} (leb : A -> A -> bool) (l : list A) (x : A) :
  In x (order_by leb l) <-> In x l.
Proof.
  split; apply Permutation_in;
    [apply Permutation_sym|]; apply order_by_perm.
Qed.

Lemma filter_none {A : Type} (f : A -> bool) (l : list A) :
  (forall x, f x = false) -> filter f l = [].
Proof.
  intros H. induction l as [|a l IH]; simpl; [reflexivity|].
  rewrite H. exact IH.
Qed.

Lemma in_range_reversed (lo hi d : Date) :
  date_leb lo hi = false -> in_range lo hi d = false.
Proof.
  intros H. unfold in_range.
  destruct (date_leb lo d) eqn:E1; [|reflexivity].
  destruct (date_leb d hi) eqn:E2; [|reflexivity].
  rewrite (date_leb_trans lo d hi E1 E2) in H. discriminate.
Qed.

Lemma in_range_wider (lo hi lo' hi' d : Date) :
  date_leb lo' lo = true -> date_leb hi hi' = true ->
  in_range lo hi d = true -> in_range lo' hi' d = true.
Proof.
  unfold in_range. intros H1 H2 H. apply Bool.andb_true_iff in H as [Ha Hb].
  rewrite (date_leb_trans lo' lo d H1 Ha), (date_leb_trans d hi hi' Hb H2).
  reflexivity.
Qed.

(** X13. For a range whose end lies before its start, the invoice of a
    known customer and the settlement of a known driver succeed with no
    ticket and zero amounts. *)
Theorem reversed_range_is_empty :
  forall (c : Conn) (s e : string) (lo hi : Date),
    sql_date s = Some lo ->
    sql_date e = Some hi ->
    date_leb lo hi = false ->
    (forall cid cu,
       find (fun x => Customer.id x =? cid) (customers (db c)) = Some cu ->
       fst (generateInvoice (mkInvoiceQuery (Some cid) (Some s) (Some e)) c)
       = json 200 (InvoiceData
           (mkInvoice (Customer.name cu) s e [] 0%float 0%float 0%float)))
    /\ (forall did dr,
          find (fun x => Driver.id x =? did) (drivers (db c)) = Some dr ->
          fst (generateSettlement
                 (mkSettlementQuery (Some did) (Some s) (Some e)) c)
          = json 200 (SettlementData
              (mkSettlement (Driver.id dr, Driver.name dr, Driver.user_id_code dr)
                            s e [] 0%float))).
Proof.
  intros c s e lo hi Hs He Hrev.
  destruct (sql_date_truthy s lo Hs) as [Hts Hrs].
  destruct (sql_date_truthy e hi He) as [Hte Hre].
  split.
  - intros cid cu Hfind. rewrite (generateInvoice_run cid s e c Hts Hte), Hfind.
    cbv zeta. unfold invoice_tickets. rewrite filter_none; [reflexivity|].
    intros r. unfold invoice_where, date_ge, date_le. rewrite Hs, He.
    rewrite <- Bool.andb_assoc.
    change (date_leb lo (Ticket.date (row_ticket r))
            && date_leb (Ticket.date (row_ticket r)) hi)
      with (in_range lo hi (Ticket.date (row_ticket r))).
    rewrite (in_range_reversed lo hi _ Hrev). apply Bool.andb_false_r.
  - intros did dr Hfind.
    rewrite (generateSettlement_run did s e c Hts Hte Hrs Hre), Hfind.
    cbv zeta. unfold settlement_tickets. rewrite filter_none; [reflexivity|].
    intros r. unfold settlement_where, date_ge, date_le. rewrite Hs, He.
    rewrite <- Bool.andb_assoc.
    change (date_leb lo (Ticket.date (row_ticket r))
            && date_leb (Ticket.date (row_ticket r)) hi)
      with (in_range lo hi (Ticket.date (row_ticket r))).
    rewrite (in_range_reversed lo hi _ Hrev). apply Bool.andb_false_r.
Qed.

Lemma reversed_range_is_empty_witness :
  fst (generateInvoice
         (mkInvoiceQuery (Some 1) (Some "2025-11-30") (Some "2025-11-01"))
         sample)
  = json 200 (InvoiceData
      (mkInvoice "Aecon" "2025-11-30" "2025-11-01" [] 0%float 0%float 0%float)).
Proof.
  exact (proj1 (reversed_range_is_empty sample "2025-11-30" "2025-11-01"
                  (mkDate 2025 11 30) (mkDate 2025 11 1)
                  eq_refl eq_refl eq_refl) 1 aecon eq_refl).
Defined.

(** X14. Under the keys of the schema and for one range of dates, every
    ticket on the invoice of a customer is on the settlement of its own
    driver: what is billed in a period is paid in that period. *)
Theorem invoiced_tickets_are_settled :
  forall (c : Conn) (cid did : Z) (s e : string) (lo hi : Date)
         (inv : Invoice) (st : Settlement),
    schema_ok (db c) = true ->
    sql_date s = Some lo ->
    sql_date e = Some hi ->
    fst (generateInvoice (mkInvoiceQuery (Some cid) (Some s) (Some e)) c)
    = json 200 (InvoiceData inv) ->
    fst (generateSettlement (mkSettlementQuery (Some did) (Some s) (Some e)) c)
    = json 200 (SettlementData st) ->
    forall t, In t (map row_ticket (inv_tickets inv)) ->
              Ticket.driver_id t = did ->
              In t (map row_ticket (set_tickets st)).
Proof.
  intros c cid did s e lo hi inv st Hok Hs He Hinv Hst t Hin Hd.
  destruct (sql_date_truthy s lo Hs) as [Hts Hrs].
  destruct (sql_date_truthy e hi He) as [Hte Hre].
  rewrite (generateInvoice_run cid s e c Hts Hte) in Hinv.
  rewrite (generateSettlement_run did s e c Hts Hte Hrs Hre) in Hst.
  destruct (find (fun cu => Customer.id cu =? cid) (customers (db c)))
    as [cu|]; [|discriminate].
  destruct (find (fun dr => Driver.id dr =? did) (drivers (db c)))
    as [dr|]; [|discriminate].
  cbv zeta in Hinv, Hst. injection Hinv as <-. injection Hst as <-.
  cbn [inv_tickets set_tickets] in *.
  rewrite (invoice_tickets_tickets _ s e lo hi _ Hok Hs He) in Hin.
  rewrite (settlement_tickets_tickets did s e lo hi _ Hok Hs He).
  apply in_order_by in Hin. apply in_order_by.
  apply filter_In in Hin as [Hin Hb]. apply filter_In. split; [exact Hin|].
  unfold billable in Hb. apply Bool.andb_true_iff in Hb as [_ Hr].
  unfold payable. rewrite Hr, Hd, Z.eqb_refl. reflexivity.
Qed.

Lemma invoiced_tickets_are_settled_witness :
  In (ticket 1 1 (mkDate 2025 11 20) "Aecon" 2%float 100%float 30%float "Approved")
     (map row_ticket
        (settlement_tickets 1 "2025-11-01" "2025-11-30" sample_db)).
Proof.
  apply (invoiced_tickets_are_settled sample 1 1 "2025-11-01" "2025-11-30"
           (mkDate 2025 11 1) (mkDate 2025 11 30)
           (mkInvoice "Aecon" "2025-11-01" "2025-11-30"
              (invoice_tickets "Aecon" "2025-11-01" "2025-11-30" sample_db)
              600%float 30%float 630%float)
           (mkSettlement (1, "Jo", "D001") "2025-11-01" "2025-11-30"
              (settlement_tickets 1 "2025-11-01" "2025-11-30" sample_db)
              180%float)
           eq_refl eq_refl eq_refl);
    try reflexivity.
  vm_compute. right. left. reflexivity.
Defined.

(** X15. Under the keys of the schema, widening the range loses no ticket:
    the tickets of a settlement, and of an invoice, for a range are among
    those for any range that starts no later and ends no earlier. *)
Theorem wider_range_keeps_tickets :
  forall (d : DB) (s e s' e' : string) (lo hi lo' hi' : Date),
    schema_ok d = true ->
    sql_date s = Some lo -> sql_date e = Some hi ->
    sql_date s' = Some lo' -> sql_date e' = Some hi' ->
    date_leb lo' lo = true ->
    date_leb hi hi' = true ->
    (forall did t,
       In t (map row_ticket (settlement_tickets did s e d)) ->
       In t (map row_ticket (settlement_tickets did s' e' d)))
    /\ (forall name t,
          In t (map row_ticket (invoice_tickets name s e d)) ->
          In t (map row_ticket (invoice_tickets name s' e' d))).
Proof.
  intros d s e s' e' lo hi lo' hi' Hok Hs He Hs' He' Hlo Hhi. split.
  - intros did t.
    rewrite (settlement_tickets_tickets did s e lo hi d Hok Hs He),
            (settlement_tickets_tickets did s' e' lo' hi' d Hok Hs' He').
    rewrite !in_order_by, !filter_In. intros [Hin Hp]. split; [exact Hin|].
    unfold payable in *. apply Bool.andb_true_iff in Hp as [Hd Hr].
    rewrite Hd, (in_range_wider lo hi lo' hi' _ Hlo Hhi Hr). reflexivity.
  - intros name t.
    rewrite (invoice_tickets_tickets name s e lo hi d Hok Hs He),
            (invoice_tickets_tickets name s' e' lo' hi' d Hok Hs' He').
    rewrite !in_order_by, !filter_In. intros [Hin Hp]. split; [exact Hin|].
    unfold billable in *. apply Bool.andb_true_iff in Hp as [Hd Hr].
    rewrite Hd, (in_range_wider lo hi lo' hi' _ Hlo Hhi Hr). reflexivity.
Qed.

Lemma wider_range_keeps_tickets_witness :
  In (ticket 3 1 (mkDate 2025 11 12) "Aecon" 1%float 100%float 30%float "Rejected")
     (map row_ticket (settlement_tickets 1 "2025-11-01" "2025-11-30" sample_db)).
Proof.
  apply (proj1 (wider_range_keeps_tickets sample_db "2025-11-10" "2025-11-15"
                  "2025-11-01" "2025-11-30" (mkDate 2025 11 10)
                  (mkDate 2025 11 15) (mkDate 2025 11 1) (mkDate 2025 11 30)
                  eq_refl eq_refl eq_refl eq_refl eq_refl eq_refl eq_refl) 1).
  vm_compute. left. reflexivity.
Defined.

(** ** The ticket list: sentinels, selection and order *)

Lemma date_eqb_spec (a b : Date) :
  date_eqb a b = true <->
  year a = year b /\ month a = month b /\ day a = day b.
Proof.
  unfold date_eqb. rewrite !Bool.andb_true_iff, !Z.eqb_eq. tauto.
Qed.

Lemma recent_spec (da : Date) (ca : Z) (db : Date) (cb : Z) :
  recent da ca db cb = true <->
  (year db < year da
   \/ (year db = year da
       /\ (month db < month da
           \/ (month db = month da
               /\ (day db < day da \/ (day db = day da /\ cb <= ca)))))).
Proof.
  unfold recent. destruct (date_eqb da db) eqn:E.
  - apply date_eqb_spec in E. rewrite Z.leb_le. lia.
  - assert (N : ~ (year da = year db /\ month da = month db /\ day da = day db))
      by (rewrite <- date_eqb_spec, E; discriminate).
    rewrite date_leb_spec. lia.
Qed.

Lemma recent_total (da : Date) (ca : Z) (db : Date) (cb : Z) :
  recent da ca db cb = false -> recent db cb da ca = true.
Proof.
  intros H. apply recent_spec.
  assert (N : ~ recent da ca db cb = true) by (rewrite H; discriminate).
  rewrite recent_spec in N. lia.
Qed.

Lemma recent_trans (da : Date) (ca : Z) (db : Date) (cb : Z) (dc : Date) (cc : Z) :
  recent da ca db cb = true -> recent db cb dc cc = true ->
  recent da ca dc cc = true.
Proof. rewrite !recent_spec. lia. Qed.

Lemma sorted_recent_first (l : list Ticket.t) :
  StronglySorted (fun a b => recent_first a b = true) (order_by recent_first l).
Proof.
  apply (order_by_sorted recent_first).
  - intros a b. apply recent_total.
  - intros a b c. apply recent_trans.
Qed.

Lemma tickets_with_driver_customer_tickets (d : DB) :
  schema_ok d = true ->
  map row_ticket (tickets_with_driver_customer d) = tickets d.
Proof.
  intros H. pose proof (tickets_with_driver_tickets d H) as Hd.
  apply schema_ok_parts in H as (_ & H & _).
  unfold tickets_with_driver_customer. rewrite map_map. cbn [row_ticket].
  rewrite <- (map_map fst row_ticket).
  unfold sql_eq.
  rewrite (left_join_fst key_eqb key_eqb_eq
             (fun r => sort_key d (Ticket.customer (row_ticket r)))
             (fun c => sort_key d (Customer.name c)) _ _ H).
  exact Hd.
Qed.

Lemma forallb_add_filter (f : Clause -> bool) (o : option string)
    (guard : string -> bool) (clause : string -> Clause) (cs : list Clause) :
  forallb f (add_filter o guard clause cs)
  = forallb f cs
    && match o with
       | Some s => negb (guard s) || f (clause s)
       | None => true
       end.
Proof.
  unfold add_filter, push. destruct o as [s|];
    [|rewrite Bool.andb_true_r; reflexivity].
  destruct (guard s); simpl.
  - rewrite forallb_app. simpl. rewrite Bool.andb_true_r. reflexivity.
  - rewrite Bool.andb_true_r. reflexivity.
Qed.

Section TicketList.

Variable Date_getMonth : string -> option Z.

Lemma clauses_filters (q : TicketQuery) :
  clauses Date_getMonth q
  = add_filter (q_search q)
      (fun s => truthy_str s && negb (String.eqb (trim s) ""))
      (fun s => TicketNumberLike ("%" ++ s ++ "%"))
      (add_filter (q_status q)
         (fun s => truthy_str s && negb (String.eqb (trim s) "")) StatusIs
         (add_filter (q_driver q)
            (fun s => truthy_str s && negb (String.eqb s "All")
                      && negb (String.eqb (trim s) "")) DriverIs
            (add_filter (q_customer q)
               (fun s => truthy_str s && negb (String.eqb s "All")
                         && negb (String.eqb (trim s) "")) CustomerIs
               (match period Date_getMonth (q_month q) with
                | Some (monthNum, year) => [MonthYear monthNum year]
                | None => []
                end)))).
Proof.
  unfold clauses, add_filter.
  destruct (period Date_getMonth (q_month q)) as [[m y]|]; reflexivity.
Qed.

Lemma guard_sentinel (s : string) :
  negb (truthy_str s && negb (String.eqb s "All")
        && negb (String.eqb (trim s) ""))
  = sentinel (Some s).
Proof.
  unfold sentinel.
  destruct (truthy_str s), (String.eqb s "All"), (String.eqb (trim s) "");
    reflexivity.
Qed.

Lemma guard_blank (s : string) :
  negb (truthy_str s && negb (String.eqb (trim s) "")) = blank (Some s).
Proof.
  unfold blank. destruct (truthy_str s), (String.eqb (trim s) "");
    reflexivity.
Qed.

(** Without a driver filter, a row passes the clauses when its ticket is
    one the query lists. *)
Lemma holds_listed (d : DB) (q : TicketQuery) (r : TicketRow) :
  sentinel (q_driver q) = true ->
  forallb (holds d r) (clauses Date_getMonth q)
  = listed Date_getMonth d q (row_ticket r).
Proof.
  intros Hd. rewrite clauses_filters, !forallb_add_filter. unfold listed.
  f_equal; [f_equal; [|]|].
  - assert (Hdr : match q_driver q with
                  | Some s =>
                      negb (truthy_str s && negb (String.eqb s "All")
                            && negb (String.eqb (trim s) ""))
                      || holds d r (DriverIs s)
                  | None => true
                  end = true).
    { destruct (q_driver q) as [s|]; [|reflexivity].
      rewrite guard_sentinel, Hd. reflexivity. }
    rewrite Hdr, Bool.andb_true_r. f_equal.
    + destruct (period Date_getMonth (q_month q)) as [[m y]|];
        [simpl; apply Bool.andb_true_r|reflexivity].
    + destruct (q_customer q) as [s|]; [|reflexivity].
      rewrite guard_sentinel. reflexivity.
  - destruct (q_status q) as [s|]; [|reflexivity].
    rewrite guard_blank. reflexivity.
  - destruct (q_search q) as [s|]; [|reflexivity].
    rewrite guard_blank. reflexivity.
Qed.

End TicketList.

(** X16. In the ticket list, a customer or a driver that is absent, empty,
    blank or "All", and a status or a search that is absent, empty or
    blank, filter nothing: the answer is the one of the query with the
    period alone. *)
Theorem getAllTickets_sentinels :
  forall (Date_getMonth : string -> option Z)
         (month customer driver status search : option string) (c : Conn),
    sentinel customer = true ->
    sentinel driver = true ->
    blank status = true ->
    blank search = true ->
    getAllTickets Date_getMonth
      (mkTicketQuery month customer driver status search) c
    = getAllTickets Date_getMonth (mkTicketQuery month None None None None) c.
Proof.
  intros eng month customer driver status search c Hc Hd Hs Hq.
  rewrite !getAllTickets_run, !clauses_filters.
  cbn [q_month q_customer q_driver q_status q_search].
  assert (E : forall o g cl cs,
            match o with Some s => negb (g s) | None => true end = true ->
            add_filter o g cl cs = cs).
  { intros o g cl cs H. unfold add_filter. destruct o as [s|]; [|reflexivity].
    apply Bool.negb_true_iff in H. rewrite H. reflexivity. }
  rewrite (E search), (E status), (E driver), (E customer); try reflexivity.
  - destruct customer as [s|]; [rewrite guard_sentinel; exact Hc|reflexivity].
  - destruct driver as [s|]; [rewrite guard_sentinel; exact Hd|reflexivity].
  - destruct status as [s|]; [rewrite guard_blank; exact Hs|reflexivity].
  - destruct search as [s|]; [rewrite guard_blank; exact Hq|reflexivity].
Qed.

Lemma getAllTickets_sentinels_witness :
  getAllTickets named_month
    (mkTicketQuery (Some "2025-11") (Some "All") (Some " ") (Some "") None)
    sample
  = getAllTickets named_month
      (mkTicketQuery (Some "2025-11") None None None None) sample.
Proof.
  exact (getAllTickets_sentinels named_month (Some "2025-11") (Some "All")
           (Some " ") (Some "") None sample eq_refl eq_refl eq_refl eq_refl).
Defined.

(** X17. Under the keys of the schema and without a driver filter, the
    ticket list answers each ticket that meets all the criteria given
    (the month and year of the period; the customer text and the status,
    as the storage compares texts; the ticket number pattern, as the
    storage matches it), once, and no other; the rows come by date
    descending, those of one date by creation time descending. *)
Theorem getAllTickets_selection :
  forall (Date_getMonth : string -> option Z) (q : TicketQuery) (c : Conn),
    schema_ok (db c) = true ->
    sentinel (q_driver q) = true ->
    exists rows,
      fst (getAllTickets Date_getMonth q c) = json 200 (TicketList rows)
      /\ Permutation (map row_ticket rows)
           (filter (listed Date_getMonth (db c) q) (tickets (db c)))
      /\ StronglySorted (fun a b => recent_first a b = true)
           (map row_ticket rows).
Proof.
  intros eng q c Hok Hd. rewrite getAllTickets_run. eexists.
  split; [reflexivity|].
  assert (E : map row_ticket
                (order_by date_desc_created_desc
                   (filter (fun r => forallb (holds (db c) r) (clauses eng q))
                           (tickets_with_driver_customer (db c))))
              = order_by recent_first
                  (filter (listed eng (db c) q) (tickets (db c)))).
  { change date_desc_created_desc
      with (fun a b => recent_first (row_ticket a) (row_ticket b)).
    rewrite order_by_map.
    rewrite (filter_ext _ (fun r => listed eng (db c) q (row_ticket r)))
      by (intros r; apply holds_listed, Hd).
    rewrite filter_map_comm, tickets_with_driver_customer_tickets by exact Hok.
    reflexivity. }
  rewrite E. split.
  - apply Permutation_sym, order_by_perm.
  - apply sorted_recent_first.
Qed.

Lemma getAllTickets_selection_witness :
  exists rows,
    fst (getAllTickets named_month
           (mkTicketQuery (Some "Nov 2025") (Some "AECON ") None
                          (Some "approved") (Some "t-1")) sample)
    = json 200 (TicketList rows)
    /\ map (fun r => Ticket.id (row_ticket r)) rows = [1; 4].
Proof.
  destruct (getAllTickets_selection named_month
              (mkTicketQuery (Some "Nov 2025") (Some "AECON ") None
                             (Some "approved") (Some "t-1")) sample
              eq_refl eq_refl) as (rows & Hr & _).
  exists rows. split; [exact Hr|].
  vm_compute in Hr. injection Hr as <-. reflexivity.
Defined.

(** ** The bounds of the period filter *)

(** X18. Whatever the engine and the token, the period filter only ever
    binds a month between 1 and 12 and a year above 0. *)
Theorem period_bounds :
  forall (Date_getMonth : string -> option Z) (token : option string)
         (m y : Z),
    period Date_getMonth token = Some (m, y) ->
    1 <= m <= 12 /\ 0 < y.
Proof.
  intros eng [tok|] m y; [|discriminate]. unfold period.
  destruct (truthy_str tok && negb (String.eqb (trim tok) ""));
    [|discriminate].
  assert (Hguard : forall (mn yr : option Z),
            (forall n, yr = Some n -> 0 <= n) ->
            match mn, yr with
            | Some monthNum, Some year =>
                if negb (monthNum =? 0) && negb (year =? 0)
                   && (1 <=? monthNum) && (monthNum <=? 12)
                then Some (monthNum, year) else None
            | _, _ => None
            end = Some (m, y) -> 1 <= m <= 12 /\ 0 < y).
  { intros [mn|] [yr|] Hyr; try discriminate.
    destruct (negb (mn =? 0) && negb (yr =? 0) && (1 <=? mn) && (mn <=? 12))
      eqn:G; [|discriminate].
    intros H. injection H as <- <-.
    repeat (apply Bool.andb_true_iff in G as [G ?]).
    apply Bool.negb_true_iff, Z.eqb_neq in H1.
    apply Z.leb_le in H0. apply Z.leb_le in H.
    specialize (Hyr yr eq_refl). lia. }
  destruct (includes "-" tok) eqn:Hdash.
  - destruct ((List.length (split "-" tok) =? 2)%nat
              && truthy_str (nth_str (split "-" tok) 0)
              && truthy_str (nth_str (split "-" tok) 1));
      [|discriminate].
    apply Hguard. intros n. apply parseInt_nonneg.
    apply nth_str_absent, split_no_separator.
  - destruct ((2 <=? List.length (split " " tok))%nat
              && truthy_str (nth_str (split " " tok) 0)
              && truthy_str (nth_str (split " " tok)
                               (List.length (split " " tok) - 1)));
      [|discriminate].
    apply Hguard. intros n. apply parseInt_nonneg.
    apply nth_str_absent, split_keeps_absent, Hdash.
Qed.

Lemma period_bounds_witness :
  period named_month (Some "Nov 2025") = Some (11, 2025)
  /\ 1 <= 11 <= 12 /\ 0 < 2025.
Proof.
  split; [reflexivity|].
  exact (period_bounds named_month (Some "Nov 2025") 11 2025 eq_refl).
Defined.

(** ** Looking a ticket up *)

(** With a unique key on the right, a LEFT JOIN pairs each row of the left
    with the partner a lookup finds. *)
Lemma left_join_find {A B : Type} (fk : A -> Z) (key : B -> Z)
    (l : list A) (r : list B) :
  distinctb Z.eqb (map key r) = true ->
  left_join (fun a b => fk a =? key b) l r
  = map (fun a => (a, find (fun b => fk a =? key b) r)) l.
Proof.
  intros H. unfold left_join.
  induction l as [|a l IH]; [reflexivity|].
  cbn [flat_map]. rewrite IH.
  change (map (fun a0 => (a0, find (fun b => fk a0 =? key b) r)) (a :: l))
    with ((a, find (fun b => fk a =? key b) r)
          :: map (fun a0 => (a0, find (fun b => fk a0 =? key b) r)) l).
  rewrite find_filter_head.
  destruct (distinctb_filter Z.eqb Z.eqb_eq key (fk a) r H) as [-> | [b ->]];
    reflexivity.
Qed.

Lemma left_join_find_key {A B : Type} (fk : A -> list Z) (key : B -> list Z)
    (l : list A) (r : list B) :
  distinctb key_eqb (map key r) = true ->
  left_join (fun a b => key_eqb (fk a) (key b)) l r
  = map (fun a => (a, find (fun b => key_eqb (fk a) (key b)) r)) l.
Proof.
  intros H. unfold left_join.
  induction l as [|a l IH]; [reflexivity|].
  cbn [flat_map]. rewrite IH.
  change (map (fun a0 => (a0, find (fun b => key_eqb (fk a0) (key b)) r))
              (a :: l))
    with ((a, find (fun b => key_eqb (fk a) (key b)) r)
          :: map (fun a0 => (a0, find (fun b => key_eqb (fk a0) (key b)) r)) l).
  rewrite find_filter_head.
  destruct (distinctb_filter key_eqb key_eqb_eq key (fk a) r H)
    as [-> | [b ->]]; reflexivity.
Qed.

Lemma tickets_with_driver_customer_joined (d : DB) :
  schema_ok d = true ->
  tickets_with_driver_customer d = map (joined d) (tickets d).
Proof.
  intros H. apply schema_ok_parts in H as (_ & Hc & Hd).
  unfold tickets_with_driver_customer, tickets_with_driver.
  rewrite (left_join_find Ticket.driver_id Driver.id _ _ Hd).
  rewrite map_map. unfold sql_eq.
  rewrite (left_join_find_key
             (fun r => sort_key d (Ticket.customer (row_ticket r)))
             (fun cu => sort_key d (Customer.name cu)) _ _ Hc).
  rewrite !map_map. reflexivity.
Qed.

(** Under UNIQUE (name), as the storage compares names, the customer a
    text names is the one the join finds. *)
Lemma named_customer (d : DB) (text : string) :
  schema_ok d = true ->
  match find (fun cu => sql_eq d text (Customer.name cu)) (customers d) with
  | Some found =>
      In found (customers d)
      /\ sql_eq d text (Customer.name found) = true
      /\ forall cu, In cu (customers d) ->
           sql_eq d text (Customer.name cu) = true -> cu = found
  | None =>
      forall cu, In cu (customers d) ->
        sql_eq d text (Customer.name cu) = false
  end.
Proof.
  intros H. apply schema_ok_parts in H as (_ & Hc & _).
  rewrite find_filter_head. unfold sql_eq.
  pose proof (fun cu => filter_In
                (fun cu => key_eqb (sort_key d text)
                             (sort_key d (Customer.name cu)))
                cu (customers d)) as Hin.
  destruct (distinctb_filter key_eqb key_eqb_eq
              (fun cu => sort_key d (Customer.name cu)) (sort_key d text)
              (customers d) Hc) as [E | [b E]]; rewrite E in *.
  - intros cu Hcu.
    destruct (key_eqb (sort_key d text) (sort_key d (Customer.name cu))) eqn:F;
      [|reflexivity].
    destruct (proj2 (Hin cu) (conj Hcu F)).
  - destruct (proj1 (Hin b) (or_introl eq_refl)) as [Hb Fb].
    split; [exact Hb|]. split; [exact Fb|].
    intros cu Hcu F. destruct (proj2 (Hin cu) (conj Hcu F)) as [<-|[]].
    reflexivity.
Qed.

Lemma getTicketById_run (id : Z) (c : Conn) :
  schema_ok (db c) = true ->
  getTicketById id c
  = (match find_ticket id (db c) with
     | Some t => Sent (joined (db c) t)
     | None => Refused 404 "Ticket not found"
     end, tick c).
Proof.
  intros H. unfold getTicketById, service, bind, select, ret, find_ticket.
  rewrite (tickets_with_driver_customer_joined _ H).
  rewrite find_filter_head.
  change (fun r : TicketRow => Ticket.id (row_ticket r) =? id)
    with (fun r : TicketRow => (fun t => Ticket.id t =? id) (row_ticket r)).
  induction (tickets (db c)) as [|t l IH]; [reflexivity|].
  cbn [map filter]. cbn [joined row_ticket].
  destruct (Ticket.id t =? id); [reflexivity|exact IH].
Qed.

Lemma find_same {A : Type} (f g : A -> bool) (l : list A) :
  (forall x, f x = g x) -> find f l = find g l.
Proof.
  intros H. induction l as [|a l IH]; simpl; [reflexivity|].
  rewrite H, IH. reflexivity.
Qed.

(** X19. Under the keys of the schema, the lookup of a ticket by the admin
    answers 404 when no ticket has the id, and otherwise the ticket of
    that id with the name and code of its driver and, as customer name,
    the name of the customer whose name the storage compares equal to the
    customer text of the ticket (there is one at most), or nothing when
    there is none; it changes no table. *)
Theorem getTicketById_spec :
  forall (id : Z) (c : Conn),
    schema_ok (db c) = true ->
    db (snd (getTicketById id c)) = db c
    /\ match find_ticket id (db c) with
       | None => fst (getTicketById id c) = Refused 404 "Ticket not found"
       | Some t =>
           exists row,
             fst (getTicketById id c) = Sent row
             /\ row_ticket row = t
             /\ (forall dr,
                   find (fun x => Driver.id x =? Ticket.driver_id t)
                        (drivers (db c)) = Some dr ->
                   driver_name row = Some (Driver.name dr)
                   /\ user_id_code row = Some (Driver.user_id_code dr))
             /\ (forall cu,
                   In cu (customers (db c)) ->
                   sql_eq (db c) (Ticket.customer t) (Customer.name cu) = true ->
                   customer_name row = Some (Customer.name cu))
             /\ ((forall cu,
                    In cu (customers (db c)) ->
                    sql_eq (db c) (Ticket.customer t) (Customer.name cu)
                    = false) ->
                 customer_name row = None)
       end.
Proof.
  intros id c Hok. rewrite (getTicketById_run id c Hok). split; [reflexivity|].
  destruct (find_ticket id (db c)) as [t|]; [|reflexivity].
  exists (joined (db c) t). split; [reflexivity|]. split; [reflexivity|].
  unfold joined. cbn [driver_name user_id_code customer_name]. split.
  - intros dr Hdr.
    rewrite (find_same (fun dr0 => Ticket.driver_id t =? Driver.id dr0)
                       (fun x => Driver.id x =? Ticket.driver_id t))
      by (intros x; apply Z.eqb_sym).
    rewrite Hdr. split; reflexivity.
  - pose proof (named_customer (db c) (Ticket.customer t) Hok) as Hn.
    destruct (find (fun cu => sql_eq (db c) (Ticket.customer t)
                                (Customer.name cu)) (customers (db c)))
      as [found|]; cbn [option_map].
    + destruct Hn as (Hin & Hf & Huniq). split.
      * intros cu Hcu E. rewrite (Huniq cu Hcu E). reflexivity.
      * intros Hnone. rewrite (Hnone found Hin) in Hf. discriminate.
    + split; [|reflexivity].
      intros cu Hcu E. rewrite (Hn cu Hcu) in E. discriminate.
Qed.

Lemma getTicketById_spec_witness :
  exists row,
    fst (getTicketById 5 sample) = Sent row
    /\ Ticket.id (row_ticket row) = 5
    /\ driver_name row = Some "Sam"
    /\ customer_name row = Some "PCL Construction".
Proof.
  destruct (getTicketById_spec 5 sample eq_refl) as (_ & row & Hr & _).
  exists row. split; [exact Hr|].
  vm_compute in Hr. injection Hr as <-. repeat split; reflexivity.
Defined.

Lemma updateTicket_keeps_keys (id : Z) (p : TicketPatch) (c : Conn) :
  schema_ok (db c) = true -> schema_ok (db (snd (updateTicket id p c))) = true.
Proof.
  intros Hok.
  destruct (updateTicket_cases id p c) as [-> | (t & Hfind & Hrec & Hst)];
    [exact Hok|].
  rewrite (updateTicket_run id p c t Hfind Hrec), Hst. cbn -[fold_left].
  unfold schema_ok, sort_key in *. cbn -[fold_left].
  rewrite (map_update_ids
             (fun x => touch (now c) (fold_left assign (updates_for p t) x))).
  - exact Hok.
  - intros x. rewrite touch_id. apply fold_assign_id.
Qed.

(** X20. Under the keys of the schema, a ticket looked up right after an
    update the storage took shows what the update wrote: of the quantity
    and of each rate, what the column keeps of the number of the patch
    where it has one, the stored value otherwise; and as totals what the
    column keeps of the products of the final quantity and rates (the
    numbers of the patch as they were sent, or the stored values). *)
Theorem update_then_lookup :
  forall (id : Z) (p : TicketPatch) (c : Conn) (t : Ticket.t),
    schema_ok (db c) = true ->
    find_ticket id (db c) = Some t ->
    recognised p = true ->
    accepted p t = true ->
    exists row,
      fst (getTicketById id (snd (updateTicket id p c))) = Sent row
      /\ Ticket.id (row_ticket row) = id
      /\ Ticket.quantity (row_ticket row)
         = final_kept (p_quantity p) (Ticket.quantity t)
      /\ Ticket.bill_rate (row_ticket row)
         = final_kept (p_bill_rate p) (Ticket.bill_rate t)
      /\ Ticket.pay_rate (row_ticket row)
         = final_kept (p_pay_rate p) (Ticket.pay_rate t)
      /\ decimal_10_2 (final (p_quantity p) (Ticket.quantity t)
                       * final (p_bill_rate p) (Ticket.bill_rate t))%float
         = Some (Ticket.total_bill (row_ticket row))
      /\ decimal_10_2 (final (p_quantity p) (Ticket.quantity t)
                       * final (p_pay_rate p) (Ticket.pay_rate t))%float
         = Some (Ticket.total_pay (row_ticket row)).
Proof.
  intros id p c t Hok Hfind Hrec Hacc.
  rewrite (getTicketById_run id _ (updateTicket_keeps_keys id p c Hok)).
  rewrite (updateTicket_run id p c t Hfind Hrec), Hacc.
  unfold find_ticket in *. cbn -[fold_left joined].
  rewrite (find_after_update
             (fun x => touch (now c) (fold_left assign (updates_for p t) x))).
  2:{ intros x. rewrite touch_id. apply fold_assign_id. }
  rewrite Hfind. cbn -[fold_left joined]. eexists. split; [reflexivity|].
  cbn -[fold_left decimal_10_2 PrimFloat.mul]. rewrite touch_id, fold_assign_id.
  apply find_some in Hfind as [_ Hid]. apply Z.eqb_eq in Hid.
  split; [exact Hid|].
  destruct (updates_for_fields p t) as (Hq & Hb & Hp & _ & Htb & Htp).
  unfold accepted in Hacc.
  repeat (apply Bool.andb_true_iff in Hacc as [Hacc ?]).
  cbv zeta in *.
  destruct (fold_left assign (updates_for p t) t) eqn:E.
  cbn [touch Ticket.quantity Ticket.bill_rate Ticket.pay_rate
       Ticket.total_bill Ticket.total_pay] in *.
  subst. repeat split; try reflexivity; apply takes_kept; assumption.
Qed.

Lemma update_then_lookup_witness :
  exists row,
    fst (getTicketById 2
           (snd (updateTicket 2 (mkPatch None None None (Some 7.333%float))
                   sample)))
    = Sent row
    /\ Ticket.quantity (row_ticket row) = 7.33%float
    /\ Ticket.total_bill (row_ticket row) = 733.3%float.
Proof.
  destruct (update_then_lookup 2 (mkPatch None None None (Some 7.333%float))
              sample
              (ticket 2 1 (mkDate 2025 11 5) "Aecon" 3%float 100%float
                      30%float "Pending") eq_refl eq_refl eq_refl eq_refl)
    as (row & Hr & _ & Hq & _ & _ & Hb & _).
  exists row. split; [exact Hr|]. split; [exact Hq|].
  change (decimal_10_2 _) with (Some 733.3%float) in Hb.
  injection Hb as <-. reflexivity.
Defined.

(** ** The driver's own tickets *)

Lemma driver_getTicketById_run (user : User) (id : Z) (c : Conn) :
  DriverController.getTicketById user id c
  = match session_drivers user (db c) with
    | [] => (Refused 404 "Driver not found", tick c)
    | actualDriverId :: _ =>
        (match filter (fun t => (Ticket.id t =? id)
                                && (Ticket.driver_id t =? actualDriverId))
                      (tickets (db c)) with
         | [] => Refused 404 "Ticket not found or access denied"
         | ticket :: _ => Sent ticket
         end, tick (tick c))
    end.
Proof.
  unfold DriverController.getTicketById, service, bind, select, ret.
  destruct (session_drivers user (db c)) as [|a rest]; [reflexivity|].
  cbn [db tick].
  destruct (filter _ (tickets (db c))); reflexivity.
Qed.

Lemma filter_none_in {A : Type} (f : A -> bool) (l : list A) :
  (forall x, In x l -> f x = false) -> filter f l = [].
Proof.
  induction l as [|a l IH]; intros H; simpl; [reflexivity|].
  rewrite (H a (or_introl eq_refl)). apply IH.
  intros x Hx. apply H. right. exact Hx.
Qed.

(** X21. The lookup of a ticket by a driver only ever answers a ticket of
    the table that has the id asked for and belongs to the first driver
    of the session, and it changes no table; a ticket id that exists but
    belongs to other drivers only is answered with 404, as an id that
    does not exist. *)
Theorem driver_getTicketById_own_only :
  forall (user : User) (id : Z) (c : Conn),
    db (snd (DriverController.getTicketById user id c)) = db c
    /\ (forall t,
          fst (DriverController.getTicketById user id c) = Sent t ->
          In t (tickets (db c))
          /\ Ticket.id t = id
          /\ hd_error (session_drivers user (db c)) = Some (Ticket.driver_id t))
    /\ (forall a,
          hd_error (session_drivers user (db c)) = Some a ->
          (forall t, In t (tickets (db c)) -> Ticket.id t = id ->
                     Ticket.driver_id t <> a) ->
          fst (DriverController.getTicketById user id c)
          = Refused 404 "Ticket not found or access denied").
Proof.
  intros user id c. rewrite driver_getTicketById_run.
  destruct (session_drivers user (db c)) as [|a rest].
  - split; [reflexivity|]. split; [intros t H; discriminate|].
    intros a H. discriminate.
  - split; [reflexivity|]. split.
    + intros t H.
      destruct (filter (fun x => (Ticket.id x =? id) && (Ticket.driver_id x =? a))
                       (tickets (db c))) as [|x l] eqn:E; [discriminate|].
      injection H as ->.
      assert (Hin : In t (filter (fun x => (Ticket.id x =? id)
                                           && (Ticket.driver_id x =? a))
                                 (tickets (db c))))
        by (rewrite E; left; reflexivity).
      apply filter_In in Hin as [Hin Hb].
      apply Bool.andb_true_iff in Hb as [H1 H2].
      apply Z.eqb_eq in H1. apply Z.eqb_eq in H2.
      cbn [hd_error]. repeat split; congruence.
    + intros a' Ha Hother. cbn [hd_error] in Ha. injection Ha as <-.
      cbn [fst]. rewrite filter_none_in; [reflexivity|].
      intros t Hin. destruct (Ticket.id t =? id) eqn:E1; [|reflexivity].
      apply Z.eqb_eq in E1. specialize (Hother t Hin E1).
      apply Z.eqb_neq in Hother. rewrite Hother. reflexivity.
Qed.

Lemma driver_getTicketById_own_only_witness :
  fst (DriverController.getTicketById (mkUser (Some 1) 11) 4 sample)
  = Refused 404 "Ticket not found or access denied"
  /\ fst (DriverController.getTicketById (mkUser (Some 2) 12) 4 sample)
     = Sent (ticket 4 2 (mkDate 2025 11 3) "Aecon" 4%float 100%float 25%float
                    "Approved").
Proof.
  split; [|reflexivity].
  apply (proj2 (proj2 (driver_getTicketById_own_only (mkUser (Some 1) 11) 4
                         sample)) 1 eq_refl).
  intros t Hin Hid.
  repeat (destruct Hin as [<-|Hin]; [try discriminate Hid; discriminate|]).
  destruct Hin.
Defined.

(** X22. A ticket just created (with the answer 201) is the one its
    driver gets back under the id the creation answered: the lookup by
    that session and that id sends the appended ticket, with the ticket
    number and the date submitted, and as quantity what the column keeps
    of the quantity submitted. *)
Theorem create_then_lookup :
  forall (user : User) (driver : Driver.t)
         (date truck customer equipment number : string) (quantity : num)
         (file : option string) (day : Date) (c : Conn),
    find (fun dr => (Driver.id dr =? session_driver user)
                    || (Driver.user_id dr =? u_id user)) (drivers (db c))
    = Some driver ->
    customerNames_of customer <> [] ->
    sql_date date = Some day ->
    code (fst (createTicket user
                 (mkForm (Some date) (Some truck) (Some customer)
                         (Some equipment) (Some number) (Some quantity) file)
                 c)) = 201 ->
    let r := createTicket user
               (mkForm (Some date) (Some truck) (Some customer)
                       (Some equipment) (Some number) (Some quantity) file) c in
    exists insertId t,
      fst r = json 201 (TicketCreated insertId number "Pending")
      /\ fst (DriverController.getTicketById user insertId (snd r)) = Sent t
      /\ tickets (db (snd r)) = (tickets (db c) ++ [t])%list
      /\ Ticket.id t = insertId
      /\ Ticket.ticket_number t = number
      /\ decimal_10_2 quantity = Some (Ticket.quantity t)
      /\ Ticket.date t = day.
Proof.
  intros user driver date truck customer equipment number quantity file day c
    Hfind Hn Hd Hcode r. subst r.
  destruct (createTicket_created user driver date truck customer equipment
              number quantity file day c Hfind Hn Hd Hcode)
    as (q & br & tb & tp & Hq & _ & _ & _ & ->).
  eexists. eexists. split; [reflexivity|].
  rewrite driver_getTicketById_run. cbn [fst snd db].
  unfold session_drivers. cbn [drivers tickets].
  rewrite find_filter_head in Hfind.
  destruct (filter _ (drivers (db c))) as [|dr rest]; [discriminate|].
  injection Hfind as ->. cbn [map].
  rewrite filter_app, filter_none_in.
  2:{ intros x Hx. pose proof (next_id_fresh _ x Hx) as Hlt.
      assert (E : (Ticket.id x =? next_id (tickets (db c))) = false)
        by (apply Z.eqb_neq; lia).
      rewrite E. reflexivity. }
  cbn [filter app Ticket.id Ticket.driver_id]. rewrite !Z.eqb_refl.
  cbn [andb]. repeat split; try reflexivity. exact Hq.
Qed.

Lemma create_then_lookup_witness :
  exists t,
    fst (DriverController.getTicketById (mkUser (Some 1) 11) 6
           (snd (createTicket (mkUser (Some 1) 11)
                   (mkForm (Some "2025-12-01") (Some "TRUCK-001") (Some "Aecon")
                           (Some "Dump") (Some "T-200") (Some 2.125%float)
                           None)
                   sample))) = Sent t
    /\ Ticket.ticket_number t = "T-200"
    /\ Ticket.quantity t = 2.13%float.
Proof.
  destruct (create_then_lookup (mkUser (Some 1) 11) jo "2025-12-01" "TRUCK-001"
              "Aecon" "Dump" "T-200" 2.125%float None (mkDate 2025 12 1) sample
              eq_refl) as (i & t & Hr & Hg & _ & _ & Hn & Hq & _).
  - vm_compute. discriminate.
  - reflexivity.
  - reflexivity.
  - cbv zeta in Hr. vm_compute in Hr. injection Hr as <-.
    exists t. split; [exact Hg|]. split; [exact Hn|].
    change (decimal_10_2 _) with (Some 2.13%float) in Hq.
    injection Hq as <-. reflexivity.
Defined.

Lemma getMyTickets_run (user : User) (c : Conn) :
  DriverController.getMyTickets user c
  = match session_drivers user (db c) with
    | [] => (Refused 404 "Driver not found", tick c)
    | actualDriverId :: _ =>
        (Sent (map my_ticket
                 (order_by recent_first
                    (filter (fun t => Ticket.driver_id t =? actualDriverId)
                            (tickets (db c))))),
         tick (tick c))
    end.
Proof.
  unfold DriverController.getMyTickets, service, bind, select, ret.
  destruct (session_drivers user (db c)); reflexivity.
Qed.

(** X23. The list of a driver's tickets fails with 404 when the session
    has no driver; otherwise it sends, for the first driver of the
    session, each of that driver's tickets once and no ticket of another
    driver, by date descending and, within a date, by creation time
    descending, and it changes no table. *)
Theorem getMyTickets_spec :
  forall (user : User) (c : Conn),
    db (snd (DriverController.getMyTickets user c)) = db c
    /\ match hd_error (session_drivers user (db c)) with
       | None =>
           fst (DriverController.getMyTickets user c)
           = Refused 404 "Driver not found"
       | Some a =>
           exists ts,
             fst (DriverController.getMyTickets user c)
             = Sent (map my_ticket ts)
             /\ Permutation ts
                  (filter (fun t => Ticket.driver_id t =? a) (tickets (db c)))
             /\ StronglySorted (fun x y => recent_first x y = true) ts
       end.
Proof.
  intros user c. rewrite getMyTickets_run.
  destruct (session_drivers user (db c)) as [|a rest]; cbn [hd_error].
  - split; reflexivity.
  - split; [reflexivity|]. eexists. split; [reflexivity|]. split.
    + apply Permutation_sym, order_by_perm.
    + apply sorted_recent_first.
Qed.

(* ================================================================== *)
(** ** Removing a driver *)

Lemma filter_filter_and {A : Type} (f g : A -> bool) (l : list A) :
  filter g (filter f l) = filter (fun x => f x && g x) l.
Proof.
  induction l as [|a l IH]; simpl; [reflexivity|].
  destruct (f a); simpl; [destruct (g a)|]; rewrite IH; reflexivity.
Qed.

Lemma cascade_twice {A : Type} (g1 g2 m : A -> bool) (l : list A) :
  negb (existsb (fun x => g1 x && m x) l)
  && negb (existsb (fun x => g2 x && m x) (filter (fun x => negb (g1 x)) l))
  = negb (existsb (fun x => (g1 x || g2 x) && m x) l).
Proof.
  induction l as [|a l IH]; simpl; [reflexivity|].
  destruct (g1 a) eqn:E1, (g2 a) eqn:E2, (m a) eqn:E3; cbn;
    rewrite ?E2, ?E3; cbn; rewrite ?Bool.andb_false_r; auto.
Qed.

Lemma deleteDriver_run (id : Z) (c : Conn) :
  deleteDriver id c
  = match filter (fun dr => Driver.id dr =? id) (drivers (db c)) with
    | [] => (json 404 (Message false "Driver not found"), tick c)
    | driver :: _ =>
        (json 200 (Message true "Driver deleted successfully"),
         mkConn
           (delete_drivers (fun x => Driver.user_id x =? Driver.user_id driver)
              (delete_drivers (fun x => Driver.id x =? id) (db c)))
           (now c) (S (S (S (queries c)))) None)
    end.
Proof.
  unfold deleteDriver, handler, bind, select. cbv beta iota.
  destruct (filter _ (drivers (db c))); reflexivity.
Qed.

(** X24. Removing a driver answers 404 and changes nothing when no driver
    has the id.  Otherwise it answers 200, and with the driver go the
    drivers of the same account and the tickets of all of them, nothing
    else: the customers stay, and when every ticket referred to a driver
    before, every ticket left still does. *)
Theorem deleteDriver_cascade :
  forall (id : Z) (c : Conn),
    let r := deleteDriver id c in
    customers (db (snd r)) = customers (db c)
    /\ match find (fun dr => Driver.id dr =? id) (drivers (db c)) with
       | None =>
           fst r = json 404 (Message false "Driver not found")
           /\ db (snd r) = db c
       | Some driver =>
           let gone := leaves id (Driver.user_id driver) in
           fst r = json 200 (Message true "Driver deleted successfully")
           /\ drivers (db (snd r))
              = filter (fun x => negb (gone x)) (drivers (db c))
           /\ tickets (db (snd r))
              = filter
                  (fun t =>
                     negb (existsb
                             (fun x => gone x
                                       && (Ticket.driver_id t =? Driver.id x))
                             (drivers (db c))))
                  (tickets (db c))
           /\ (refs_ok (db c) = true -> refs_ok (db (snd r)) = true)
       end.
Proof.
  intros id c r. subst r. rewrite deleteDriver_run, find_filter_head.
  destruct (filter (fun dr => Driver.id dr =? id) (drivers (db c)))
    as [|driver rest]; cbn [fst snd db].
  - repeat split; reflexivity.
  - split; [reflexivity|]. cbv zeta.
    assert (Hd : drivers
                   (delete_drivers
                      (fun x => Driver.user_id x =? Driver.user_id driver)
                      (delete_drivers (fun x => Driver.id x =? id) (db c)))
                 = filter (fun x => negb (leaves id (Driver.user_id driver) x))
                          (drivers (db c))).
    { unfold delete_drivers. cbn [drivers]. rewrite filter_filter_and.
      apply filter_ext. intros x. unfold leaves.
      rewrite Bool.negb_orb. reflexivity. }
    assert (Ht : tickets
                   (delete_drivers
                      (fun x => Driver.user_id x =? Driver.user_id driver)
                      (delete_drivers (fun x => Driver.id x =? id) (db c)))
                 = filter
                     (fun t =>
                        negb (existsb
                                (fun x => leaves id (Driver.user_id driver) x
                                          && (Ticket.driver_id t =? Driver.id x))
                                (drivers (db c))))
                     (tickets (db c))).
    { unfold delete_drivers. cbn [drivers tickets]. rewrite filter_filter_and.
      apply filter_ext. intros t.
      exact (cascade_twice (fun x => Driver.id x =? id)
               (fun x => Driver.user_id x =? Driver.user_id driver)
               (fun x => Ticket.driver_id t =? Driver.id x) (drivers (db c))). }
    split; [reflexivity|]. split; [exact Hd|]. split; [exact Ht|].
    intros Hrefs. unfold refs_ok. rewrite Hd, Ht.
    apply forallb_forall. intros t Hin.
    apply filter_In in Hin as [Hin Hkeep].
    unfold refs_ok in Hrefs. rewrite forallb_forall in Hrefs.
    specialize (Hrefs t Hin). apply existsb_exists in Hrefs as (x & Hx & Hid).
    apply existsb_exists. exists x. split; [|exact Hid].
    apply filter_In. split; [exact Hx|].
    apply Bool.negb_true_iff in Hkeep.
    destruct (leaves id (Driver.user_id driver) x) eqn:E; [|reflexivity].
    exfalso.
    assert (Hex : existsb
                    (fun x => leaves id (Driver.user_id driver) x
                              && (Ticket.driver_id t =? Driver.id x))
                    (drivers (db c)) = true).
    { apply existsb_exists. exists x. split; [exact Hx|].
      rewrite E. cbn [andb]. apply Z.eqb_eq. apply Z.eqb_eq in Hid.
      symmetry. exact Hid. }
    rewrite Hex in Hkeep. discriminate.
Qed.

(* ================================================================== *)
(** ** Customers *)

Lemma updateCustomer_run (id : Z) (body : CustomerPatch) (c : Conn) :
  updateCustomer id body c
  = match customer_updates body with
    | [] => (json 400 (Message false "No fields to update"), c)
    | _ :: _ =>
        if existsb (fun x => Customer.id x =? id) (customers (db c))
           && existsb (name_taken id (db c)) (customer_updates body)
        then (json 500 (Message false "Failed to update customer"), tick c)
        else
          (json 200 (Message true "Customer updated successfully"),
           tick (with_db
                   (mkDB (tickets (db c))
                         (map (fun x =>
                                 if Customer.id x =? id
                                 then touch_customer (now c)
                                        (fold_left assign_customer
                                           (customer_updates body) x)
                                 else x) (customers (db c)))
                         (drivers (db c)) (weight (db c))) c))
    end.
Proof.
  destruct body as [[n|] [v|]];
    unfold updateCustomer, customer_updates, handler, bind, update_customers,
      write, push, ret;
    cbn [cp_name cp_default_bill_rate app];
    try destruct (truthy_str n);
    cbn [app List.length Nat.eqb];
    try reflexivity;
    match goal with
    | |- context [existsb ?f ?l && existsb ?g ?u] =>
        destruct (existsb f l && existsb g u); reflexivity
    end.
Qed.

Lemma fold_assign_customer_id (us : list CustomerAssignment) (x : Customer.t) :
  Customer.id (fold_left assign_customer us x) = Customer.id x.
Proof.
  revert x. induction us as [|u us IH]; intros x; [reflexivity|].
  cbn [fold_left]. rewrite IH. destruct u; reflexivity.
Qed.

Lemma db_eta (d : DB) :
  mkDB (tickets d) (customers d) (drivers d) (weight d) = d.
Proof. destruct d; reflexivity. Qed.

Lemma map_untouched {A : Type} (p : A -> bool) (f : A -> A) (l : list A) :
  (forall x, In x l -> p x = false) ->
  map (fun x => if p x then f x else x) l = l.
Proof.
  induction l as [|a l IH]; intros H; simpl; [reflexivity|].
  rewrite (H a (or_introl eq_refl)), IH; [reflexivity|].
  intros x Hx. apply H. right. exact Hx.
Qed.

(** X25. Updating a customer never touches a ticket or a driver, keeps
    the id of every customer and every customer with another id as it is;
    it answers 200, 400 or 500, and both 400 and 500 leave the tables as
    they were.  When no customer has the id the tables stay as they were
    as well, and the answer is still the success message as soon as the
    body carries a field. *)
Theorem updateCustomer_frame :
  forall (id : Z) (body : CustomerPatch) (c : Conn),
    let r := updateCustomer id body c in
    tickets (db (snd r)) = tickets (db c)
    /\ drivers (db (snd r)) = drivers (db c)
    /\ map Customer.id (customers (db (snd r)))
       = map Customer.id (customers (db c))
    /\ (forall x, In x (customers (db c)) -> Customer.id x <> id ->
          In x (customers (db (snd r))))
    /\ (code (fst r) = 200
        \/ ((code (fst r) = 400 \/ code (fst r) = 500) /\ db (snd r) = db c))
    /\ ((forall x, In x (customers (db c)) -> Customer.id x <> id) ->
          db (snd r) = db c
          /\ (customer_updates body <> [] ->
                fst r
                = json 200 (Message true "Customer updated successfully"))).
Proof.
  intros id body c r. subst r. rewrite updateCustomer_run.
  destruct (customer_updates body) as [|u us] eqn:Eu.
  - cbn [fst snd code].
    split; [reflexivity|]. split; [reflexivity|]. split; [reflexivity|].
    split; [intros x Hx _; exact Hx|].
    split; [right; split; [left|]; reflexivity|].
    intros _. split; [reflexivity|]. intros H. contradiction H. reflexivity.
  - destruct (existsb (fun x => Customer.id x =? id) (customers (db c)))
      eqn:Ex; cbn [andb].
    + destruct (existsb (name_taken id (db c)) (u :: us)) eqn:En;
        cbn [fst snd db tick with_db tickets drivers customers code].
      * split; [reflexivity|]. split; [reflexivity|]. split; [reflexivity|].
        split; [intros x Hx _; exact Hx|].
        split; [right; split; [right|]; reflexivity|].
        intros H. exfalso. apply existsb_exists in Ex as (x & Hx & Hid).
        apply Z.eqb_eq in Hid. exact (H x Hx Hid).
      * split; [reflexivity|]. split; [reflexivity|]. split.
        { rewrite map_map. apply map_ext. intros x.
          destruct (Customer.id x =? id); [|reflexivity].
          cbn [touch_customer Customer.id]. apply fold_assign_customer_id. }
        split.
        { intros x Hx Hid. apply in_map_iff. exists x. split; [|exact Hx].
          apply Z.eqb_neq in Hid. rewrite Hid. reflexivity. }
        split; [left; reflexivity|].
        intros H. exfalso. apply existsb_exists in Ex as (x & Hx & Hid).
        apply Z.eqb_eq in Hid. exact (H x Hx Hid).
    + cbn [fst snd db tick with_db tickets drivers customers code].
      split; [reflexivity|]. split; [reflexivity|]. split.
      { rewrite map_map. apply map_ext. intros x.
        destruct (Customer.id x =? id); [|reflexivity].
        cbn [touch_customer Customer.id]. apply fold_assign_customer_id. }
      split.
      { intros x Hx Hid. apply in_map_iff. exists x. split; [|exact Hx].
        apply Z.eqb_neq in Hid. rewrite Hid. reflexivity. }
      split; [left; reflexivity|].
      intros H. split; [|reflexivity].
      rewrite map_untouched; [apply db_eta|].
      intros x Hx. apply Z.eqb_neq. exact (H x Hx).
Qed.

(** X26. A name another customer already has is refused: when the
    customer exists and the body asks for the name of another one, the
    answer is 500 and no table changes, whatever else the body
    carries. *)
Theorem updateCustomer_duplicate_name :
  forall (id : Z) (v : string) (rate : option num) (c : Conn)
         (this other : Customer.t),
    In this (customers (db c)) -> Customer.id this = id ->
    In other (customers (db c)) -> Customer.id other <> id ->
    Customer.name other = v -> v <> "" ->
    let r := updateCustomer id (mkCustomerPatch (Some v) rate) c in
    fst r = json 500 (Message false "Failed to update customer")
    /\ db (snd r) = db c.
Proof.
  intros id v rate c this other Hthis Hid Hother Hoid Hname Hv r. subst r.
  rewrite updateCustomer_run.
  unfold customer_updates. cbn [cp_name cp_default_bill_rate].
  destruct v as [|a v]; [contradiction Hv; reflexivity|].
  cbn [truthy_str app].
  assert (Ex : existsb (fun x => Customer.id x =? id) (customers (db c)) = true).
  { apply existsb_exists. exists this. split; [exact Hthis|].
    apply Z.eqb_eq. exact Hid. }
  assert (En : name_taken id (db c) (Set_name (String a v)) = true).
  { cbn [name_taken]. apply existsb_exists. exists other.
    split; [exact Hother|]. apply Z.eqb_neq in Hoid. rewrite Hoid, Hname.
    cbn [negb andb]. apply sql_eq_refl. }
  rewrite Ex. cbn [existsb]. rewrite En. cbn [orb andb fst snd].
  split; reflexivity.
Qed.

Lemma updateCustomer_duplicate_name_witness :
  fst (updateCustomer 1 (mkCustomerPatch (Some "PCL Construction") None) sample)
  = json 500 (Message false "Failed to update customer")
  /\ db (snd (updateCustomer 1
                (mkCustomerPatch (Some "PCL Construction") None) sample))
     = db sample.
Proof.
  apply (updateCustomer_duplicate_name 1 "PCL Construction" None sample
           aecon pcl).
  - left. reflexivity.
  - reflexivity.
  - right. left. reflexivity.
  - discriminate.
  - reflexivity.
  - discriminate.
Defined.

(** X27. Removing a customer always answers 200 and keeps every ticket,
    those billed to the customer too; an invoice asked for the id
    afterwards is answered 404 whatever the dates. *)
Theorem deleteCustomer_then_invoice :
  forall (id : Z) (s e : string) (c : Conn),
    s <> "" -> e <> "" ->
    let r := deleteCustomer id c in
    fst r = json 200 (Message true "Customer deleted successfully")
    /\ tickets (db (snd r)) = tickets (db c)
    /\ drivers (db (snd r)) = drivers (db c)
    /\ fst (generateInvoice (mkInvoiceQuery (Some id) (Some s) (Some e)) (snd r))
       = json 404 (Message false "Customer not found").
Proof.
  intros id s e c Hs He r. subst r.
  unfold deleteCustomer, handler, bind, write, ret. cbn [fst snd].
  split; [reflexivity|]. split; [reflexivity|]. split; [reflexivity|].
  unfold generateInvoice, handler, bind, select, ret.
  cbn [customerId startDate endDate].
  destruct s as [|a s]; [contradiction Hs; reflexivity|].
  destruct e as [|b e]; [contradiction He; reflexivity|].
  cbn [truthy_str negb orb db tick with_db customers].
  rewrite filter_filter_and, filter_none; [reflexivity|].
  intros x. destruct (Customer.id x =? id); reflexivity.
Qed.

Lemma deleteCustomer_then_invoice_witness :
  fst (generateInvoice
         (mkInvoiceQuery (Some 1) (Some "2025-11-01") (Some "2025-11-30"))
         (snd (deleteCustomer 1 sample)))
  = json 404 (Message false "Customer not found")
  /\ tickets (db (snd (deleteCustomer 1 sample))) = tickets sample_db.
Proof.
  destruct (deleteCustomer_then_invoice 1 "2025-11-01" "2025-11-30" sample)
    as (_ & Ht & _ & Hi); [discriminate|discriminate|].
  split; [exact Hi|exact Ht].
Defined.

(* ================================================================== *)
(** ** The settlement document *)


(* ================================================================== *)
(** ** The pay history *)

Lemma pay_hours_decimal (ts : list Ticket.t) (z : num) :
  Forall (fun t => decimal (Ticket.quantity t) = true) ts ->
  fold_left (fun sum ticket => (sum + parseFloat (or_zero (hours ticket)))%float)
            (map pay_line ts) z
  = fold_left (fun sum t => (sum + Ticket.quantity t)%float) ts z.
Proof.
  intros H. revert z. induction H as [|t ts Ht _ IH]; intros z; [reflexivity|].
  cbn [map fold_left pay_line hours].
  rewrite (decimal_or_zero _ Ht), (decimal_parseFloat _ Ht). apply IH.
Qed.

Lemma pay_amount_decimal (ts : list Ticket.t) (z : num) :
  Forall (fun t => decimal (Ticket.total_pay t) = true) ts ->
  fold_left (fun sum ticket => (sum + parseFloat (or_zero (amount ticket)))%float)
            (map pay_line ts) z
  = fold_left (fun sum t => (sum + Ticket.total_pay t)%float) ts z.
Proof.
  intros H. revert z. induction H as [|t ts Ht _ IH]; intros z; [reflexivity|].
  cbn [map fold_left pay_line amount].
  rewrite (decimal_or_zero _ Ht), (decimal_parseFloat _ Ht). apply IH.
Qed.

Lemma pay_lines_decimal (ts : list Ticket.t) :
  Forall (fun t => decimal (Ticket.quantity t) = true
                   /\ decimal (Ticket.total_pay t) = true) ts ->
  map (fun ticket =>
         mkPayLine (pl_date ticket) (pl_customer ticket)
                   (pl_ticket_number ticket) (parseFloat (hours ticket))
                   (parseFloat (amount ticket)) (pl_status ticket))
      (map pay_line ts)
  = map pay_line ts.
Proof.
  induction 1 as [|t ts [Hq Hp] _ IH]; [reflexivity|].
  cbn [map]. rewrite IH. f_equal.
  unfold pay_line at 1 2 3 4 5 6.
  cbn [pl_date pl_customer pl_ticket_number hours amount pl_status].
  rewrite (decimal_parseFloat _ Hq), (decimal_parseFloat _ Hp). reflexivity.
Qed.

Lemma pay_status_lines (ts : list Ticket.t) :
  forallb (fun ticket => String.eqb (pl_status ticket) "Approved")
          (map pay_line ts)
  = forallb (fun t => String.eqb (Ticket.status t) "Approved") ts.
Proof.
  induction ts as [|t ts IH]; [reflexivity|].
  cbn [map forallb pay_line pl_status]. rewrite IH. reflexivity.
Qed.

Lemma sorted_date_desc (l : list Ticket.t) :
  StronglySorted (fun a b => date_desc a b = true) (order_by date_desc l).
Proof.
  apply (order_by_sorted date_desc).
  - intros a b. apply date_leb_total.
  - intros a b c H1 H2. exact (date_leb_trans _ _ _ H2 H1).
Qed.

(** X29. Asked without a month, the pay history of a driver lists each
    ticket of the driver once and no other ticket, by date descending,
    with the quantity as the hours and the total pay as the amount; the
    totals are the sums over these tickets in that order, and the status
    is "Up-to-date" exactly when every one of them is approved (so also
    when there is none). *)
Theorem getMyPay_whole_history :
  forall (Date_getMonth : string -> option Z)
         (sql_integer : PayParam -> option Z) (sql_refuses : PayParam -> bool)
         (user : User) (month : option string) (a : Z) (c : Conn),
    truthy month = false ->
    hd_error (session_drivers user (db c)) = Some a ->
    Forall (fun t => decimal (Ticket.quantity t) = true
                     /\ decimal (Ticket.total_pay t) = true)
           (tickets (db c)) ->
    exists ts,
      Permutation ts
        (filter (fun t => Ticket.driver_id t =? a) (tickets (db c)))
      /\ StronglySorted (fun x y => date_desc x y = true) ts
      /\ fst (getMyPay Date_getMonth sql_integer sql_refuses user month c)
         = Sent (mkPayHistory
                   (fold_left (fun sum t => (sum + Ticket.quantity t)%float)
                              ts 0%float)
                   (fold_left (fun sum t => (sum + Ticket.total_pay t)%float)
                              ts 0%float)
                   (if forallb (fun t => String.eqb (Ticket.status t) "Approved")
                               ts
                    then "Up-to-date" else "Pending")
                   (map pay_line ts)).
Proof.
  intros G I R user month a c Hm Ha Hdec.
  exists (order_by date_desc
            (filter (fun t => Ticket.driver_id t =? a) (tickets (db c)))).
  split; [apply Permutation_sym, order_by_perm|].
  split; [apply sorted_date_desc|].
  assert (Hts : Forall (fun t => decimal (Ticket.quantity t) = true
                                 /\ decimal (Ticket.total_pay t) = true)
                  (order_by date_desc
                     (filter (fun t => Ticket.driver_id t =? a)
                             (tickets (db c))))).
  { apply Forall_forall. intros t Ht. apply in_order_by in Ht.
    apply filter_In in Ht as [Ht _].
    rewrite Forall_forall in Hdec. exact (Hdec t Ht). }
  assert (Hf : filter (fun t => (Ticket.driver_id t =? a) && true)
                      (tickets (db c))
               = filter (fun t => Ticket.driver_id t =? a) (tickets (db c))).
  { apply filter_ext. intros t. apply Bool.andb_true_r. }
  unfold getMyPay, service, bind, select, select_pay, ret.
  destruct (session_drivers user (db c)) as [|a' rest]; [discriminate|].
  injection Ha as ->.
  assert (Hp : match month with
               | Some month =>
                   if truthy_str month then Some (pay_period G month) else None
               | None => None
               end = None).
  { destruct month as [m|]; [|reflexivity]. cbn [truthy] in Hm.
    rewrite Hm. reflexivity. }
  rewrite Hp. cbn [existsb fst snd db tick]. rewrite Hf.
  rewrite pay_hours_decimal, pay_amount_decimal, pay_status_lines,
    pay_lines_decimal.
  - reflexivity.
  - exact Hts.
  - eapply Forall_impl; [|exact Hts]. intros t [_ H]. exact H.
  - eapply Forall_impl; [|exact Hts]. intros t [H _]. exact H.
Qed.

Lemma getMyPay_whole_history_witness :
  exists ts,
    Permutation ts (filter (fun t => Ticket.driver_id t =? 1) (tickets sample_db))
    /\ fst (getMyPay (fun _ => None) (fun _ => None) (fun _ => false)
              (mkUser (Some 1) 11) None sample)
       = Sent (mkPayHistory
                 (fold_left (fun sum t => (sum + Ticket.quantity t)%float)
                            ts 0%float)
                 (fold_left (fun sum t => (sum + Ticket.total_pay t)%float)
                            ts 0%float)
                 (if forallb (fun t => String.eqb (Ticket.status t) "Approved")
                             ts
                  then "Up-to-date" else "Pending")
                 (map pay_line ts)).
Proof.
  destruct (getMyPay_whole_history (fun _ => None) (fun _ => None)
              (fun _ => false) (mkUser (Some 1) 11) None 1 sample)
    as (ts & Hp & _ & Hr).
  - reflexivity.
  - reflexivity.
  - repeat (constructor; [split; reflexivity|]). constructor.
  - exists ts. split; [exact Hp|exact Hr].
Defined.

(** X30. A month given as one bare word, with neither a dash nor a space
    in it, leaves the year undefined: for a session with a driver the pay
    history is then not answered at all but fails with 500, whatever the
    word is, and no table is touched. *)
Theorem getPayByMonth_bare_word :
  forall (Date_getMonth : string -> option Z)
         (sql_integer : PayParam -> option Z) (sql_refuses : PayParam -> bool)
         (user : User) (month : string) (a : Z) (c : Conn),
    hd_error (session_drivers user (db c)) = Some a ->
    month <> "" ->
    includes "-" month = false ->
    includes " " month = false ->
    let r := getPayByMonth Date_getMonth sql_integer sql_refuses user month c in
    fst r = Refused 500 "Failed to fetch pay history"
    /\ db (snd r) = db c.
Proof.
  intros G I R user month a c Ha Hm Hdash Hsp r. subst r.
  unfold getPayByMonth, getMyPay, service, bind, select, select_pay, ret,
    pay_period.
  destruct (session_drivers user (db c)) as [|a' rest]; [discriminate|].
  assert (Ht : truthy_str month = true)
    by (destruct month; [contradiction Hm|]; reflexivity).
  rewrite Ht, Hdash, (split_whole _ _ Hsp).
  cbn [nth_error existsb is_undefined orb fst snd db tick].
  split; reflexivity.
Qed.

Lemma getPayByMonth_bare_word_witness :
  fst (getPayByMonth (fun _ => Some 10) (fun _ => None) (fun _ => false)
         (mkUser (Some 1) 11) "November" sample)
  = Refused 500 "Failed to fetch pay history".
Proof.
  apply (getPayByMonth_bare_word (fun _ => Some 10) (fun _ => None)
           (fun _ => false) (mkUser (Some 1) 11) "November" 1 sample);
    [reflexivity|discriminate|reflexivity|reflexivity].
Defined.
